(** * ClawChat: a shallow embedding of the messaging session engine

    The development follows the TypeScript sources of the repository:

    - [Encoding]: the conversions of Node's [Buffer] used by the placeholder
      cipher (UTF-16 strings, UTF-8 bytes, base64 text);
    - [Js] and [JsStrings]: errors, promise outcomes, truthiness, [Set],
      [slice] and the string built-ins;
    - [CryptoManager]: the E2EE manager class (device keys, room sessions,
      verified devices, safety numbers);
    - [Sdk]: what the client reads from the Matrix SDK;
    - [Client] and [ClientCalls]: the [ClawChatClient] facade with E2EE
      support; the earlier version of the class has the same [sendMessage],
      [sendImage] and room search, and creates its rooms without encryption;
    - [Singleton]: the module-level client instance;
    - [ChatStore], [AuthStore] and [SearchStore]: the zustand stores;
    - [Bot], [BotE2EE] and [BotE2EEMessages]: [handleMessage] of the
      standalone bot, and [initializeCrypto] and [handleMessage] of the bot
      with E2EE support.

    Calls into the Matrix SDK, the network and the completion service are
    modelled as explicit outcomes supplied by the environment; effects are
    recorded in traces so that call order can be stated.  The definitions
    come first, the properties follow in the modules named [...Facts] and
    [...More]. *)

From Stdlib Require Import ZArith List String Ascii Lia Bool.
From stdpp Require Import base gmap strings list pretty sorting.

(* ===================================================================== *)
(** ** Buffer conversions *)
(* ===================================================================== *)

Module Encoding.

Local Open Scope Z_scope.

(** A JavaScript string is a sequence of UTF-16 code units. *)
Definition jsstring := list Z.

Definition is_code_unit (u : Z) : bool := (0 <=? u) && (u <? 0x10000).
Definition is_high (u : Z) : bool := (0xD800 <=? u) && (u <=? 0xDBFF).
Definition is_low (u : Z) : bool := (0xDC00 <=? u) && (u <=? 0xDFFF).

(** Code points of a string, as the UTF-8 encoder of [Buffer.from] reads
    them: a surrogate pair is one code point, an unpaired surrogate is
    replaced by U+FFFD. *)
Fixpoint utf16_decode (s : jsstring) : list Z :=
  match s with
  | [] => []
  | u :: rest =>
      if is_high u then
        match rest with
        | v :: rest' =>
            if is_low v
            then (0x10000 + (u - 0xD800) * 0x400 + (v - 0xDC00)) :: utf16_decode rest'
            else 0xFFFD :: utf16_decode rest
        | [] => [0xFFFD]
        end
      else if is_low u then 0xFFFD :: utf16_decode rest
      else u :: utf16_decode rest
  end.

Definition utf16_encode_cp (cp : Z) : list Z :=
  if cp <? 0x10000 then [cp]
  else [0xD800 + (cp - 0x10000) / 0x400; 0xDC00 + (cp - 0x10000) mod 0x400].

Definition utf8_encode_cp (cp : Z) : list Z :=
  if cp <? 0x80 then [cp]
  else if cp <? 0x800 then [0xC0 + cp / 0x40; 0x80 + cp mod 0x40]
  else if cp <? 0x10000 then
    [0xE0 + cp / 0x1000; 0x80 + (cp / 0x40) mod 0x40; 0x80 + cp mod 0x40]
  else
    [0xF0 + cp / 0x40000; 0x80 + (cp / 0x1000) mod 0x40;
     0x80 + (cp / 0x40) mod 0x40; 0x80 + cp mod 0x40].

Definition is_cont (b : Z) : bool := (0x80 <=? b) && (b <=? 0xBF).

(** Allowed range of the second byte of a three-byte sequence: no overlong
    forms after E0, no surrogates after ED. *)
Definition second_ok3 (b0 b1 : Z) : bool :=
  ((if b0 =? 0xE0 then 0xA0 else 0x80) <=? b1) &&
  (b1 <=? (if b0 =? 0xED then 0x9F else 0xBF)).

(** Allowed range of the second byte of a four-byte sequence: no overlong
    forms after F0, nothing above U+10FFFF after F4. *)
Definition second_ok4 (b0 b1 : Z) : bool :=
  ((if b0 =? 0xF0 then 0x90 else 0x80) <=? b1) &&
  (b1 <=? (if b0 =? 0xF4 then 0x8F else 0xBF)).

(** The UTF-8 decoder of [buf.toString('utf-8')]: every ill-formed
    subsequence becomes U+FFFD and decoding resumes after it. *)
Fixpoint utf8_decode (bs : list Z) : list Z :=
  match bs with
  | [] => []
  | b0 :: r0 =>
      if b0 <? 0x80 then b0 :: utf8_decode r0
      else if (0xC2 <=? b0) && (b0 <=? 0xDF) then
        match r0 with
        | b1 :: r1 =>
            if is_cont b1
            then ((b0 - 0xC0) * 0x40 + (b1 - 0x80)) :: utf8_decode r1
            else 0xFFFD :: utf8_decode r0
        | [] => [0xFFFD]
        end
      else if (0xE0 <=? b0) && (b0 <=? 0xEF) then
        match r0 with
        | b1 :: r1 =>
            if second_ok3 b0 b1 then
              match r1 with
              | b2 :: r2 =>
                  if is_cont b2
                  then ((b0 - 0xE0) * 0x1000 + (b1 - 0x80) * 0x40 + (b2 - 0x80))
                         :: utf8_decode r2
                  else 0xFFFD :: utf8_decode r1
              | [] => [0xFFFD]
              end
            else 0xFFFD :: utf8_decode r0
        | [] => [0xFFFD]
        end
      else if (0xF0 <=? b0) && (b0 <=? 0xF4) then
        match r0 with
        | b1 :: r1 =>
            if second_ok4 b0 b1 then
              match r1 with
              | b2 :: r2 =>
                  if is_cont b2 then
                    match r2 with
                    | b3 :: r3 =>
                        if is_cont b3
                        then ((b0 - 0xF0) * 0x40000 + (b1 - 0x80) * 0x1000
                              + (b2 - 0x80) * 0x40 + (b3 - 0x80))
                               :: utf8_decode r3
                        else 0xFFFD :: utf8_decode r2
                    | [] => [0xFFFD]
                    end
                  else 0xFFFD :: utf8_decode r1
              | [] => [0xFFFD]
              end
            else 0xFFFD :: utf8_decode r0
        | [] => [0xFFFD]
        end
      else 0xFFFD :: utf8_decode r0
  end.

(** [Buffer.from(s)]: the UTF-8 bytes of a string. *)
Definition buffer_from (s : jsstring) : list Z :=
  flat_map utf8_encode_cp (utf16_decode s).

(** [buf.toString('utf-8')]. *)
Definition buffer_to_utf8 (bs : list Z) : jsstring :=
  flat_map utf16_encode_cp (utf8_decode bs).

(** *** base64 *)

Definition b64_alphabet : list ascii :=
  list_ascii_of_string
    "ABCDEFGHIJKLMNOPQRSTUVWXYZabcdefghijklmnopqrstuvwxyz0123456789+/".

Definition b64_char (v : Z) : ascii := nth (Z.to_nat v) b64_alphabet "="%char.

Fixpoint index_of (c : ascii) (l : list ascii) (i : Z) : option Z :=
  match l with
  | [] => None
  | x :: l' => if Ascii.eqb c x then Some i else index_of c l' (i + 1)
  end.

Definition b64_index (c : ascii) : option Z := index_of c b64_alphabet 0.

(** [buf.toString('base64')]: three bytes give four characters, the tail is
    padded with [=]. *)
Fixpoint b64_encode (bs : list Z) : string :=
  match bs with
  | [] => EmptyString
  | a :: r1 =>
      match r1 with
      | [] =>
          String (b64_char (a / 4)) (String (b64_char (a mod 4 * 16)) "==")
      | b :: r2 =>
          match r2 with
          | [] =>
              String (b64_char (a / 4))
                (String (b64_char (a mod 4 * 16 + b / 16))
                   (String (b64_char (b mod 16 * 4)) "="))
          | c :: rest =>
              String (b64_char (a / 4))
                (String (b64_char (a mod 4 * 16 + b / 16))
                   (String (b64_char (b mod 16 * 4 + c / 64))
                      (String (b64_char (c mod 64)) (b64_encode rest))))
          end
      end
  end.

(** The sextets of a base64 text, up to the first character outside the
    alphabet (the padding, in particular); the text written by
    [b64_encode] has no other such character. *)
Fixpoint b64_values (s : string) : list Z :=
  match s with
  | EmptyString => []
  | String c rest =>
      match b64_index c with
      | Some v => v :: b64_values rest
      | None => []
      end
  end.

Fixpoint b64_bytes (vs : list Z) : list Z :=
  match vs with
  | v0 :: v1 :: r =>
      (v0 * 4 + v1 / 16) ::
      match r with
      | v2 :: r' =>
          (v1 mod 16 * 16 + v2 / 4) ::
          match r' with
          | v3 :: rest => (v2 mod 4 * 64 + v3) :: b64_bytes rest
          | [] => []
          end
      | [] => []
      end
  | _ => []
  end.

(** [Buffer.from(text, 'base64')]. *)
Definition b64_decode (s : string) : list Z := b64_bytes (b64_values s).

(** A string is well formed when every code unit is a 16-bit value and every
    surrogate is half of a pair. *)
Fixpoint well_formed (s : jsstring) : bool :=
  match s with
  | [] => true
  | u :: rest =>
      is_code_unit u &&
      (if is_high u then
         match rest with
         | v :: rest' => is_low v && well_formed rest'
         | [] => false
         end
       else negb (is_low u) && well_formed rest)
  end.

Definition is_scalar (cp : Z) : bool :=
  ((0 <=? cp) && (cp <? 0xD800)) || ((0xE000 <=? cp) && (cp <? 0x110000)).

Definition is_byte (b : Z) : bool := (0 <=? b) && (b <? 256).

End Encoding.

(* ===================================================================== *)
(** ** JavaScript values shared by the modules *)
(* ===================================================================== *)

Module Js.

(** [new Error(message)], and the rejections raised by the SDK, the network
    or the completion service. *)
Inductive Error := JsError (message : string).

Definition message (e : Error) : string := let 'JsError m := e in m.

(** The result of an awaited call: a value, or a thrown error. *)
Inductive result (A : Type) : Type :=
  | Ok (a : A)
  | Err (e : Error).
Arguments Ok {A} a.
Arguments Err {A} e.

(** The state of a promise seen by its caller; [Pending] is a promise that
    is never settled. *)
Inductive outcome (A : Type) : Type :=
  | Resolved (a : A)
  | Rejected (e : Error)
  | Pending.
Arguments Resolved {A} a.
Arguments Rejected {A} e.
Arguments Pending {A}.

(** Truthiness of a string: only the empty string is falsy. *)
Definition truthy (s : string) : bool :=
  match s with EmptyString => false | String _ _ => true end.

(** Truthiness of [string | undefined]. *)
Definition truthy_opt (s : option string) : bool :=
  match s with Some s => truthy s | None => false end.

(** [a || b] on strings. *)
Definition or_else (a : option string) (b : string) : string :=
  match a with
  | Some s => if truthy s then s else b
  | None => b
  end.

(** A [Set] of strings keeps its elements in insertion order. *)
Definition set_add (x : string) (s : list string) : list string :=
  if bool_decide (x ∈ s) then s else s ++ [x].

Definition set_has (x : string) (s : list string) : bool := bool_decide (x ∈ s).

(** [new Set(array)]. *)
Definition set_of_array (l : list string) : list string :=
  fold_left (fun acc x => set_add x acc) l [].

(** [array.slice(-n)] for an integer [n >= 0]; [slice(-0)] is [slice(0)]. *)
Definition slice_last {A} (n : nat) (l : list A) : list A :=
  match n with
  | O => l
  | S _ => drop (length l - n) l
  end.

End Js.

(* ===================================================================== *)
(** ** String built-ins *)
(* ===================================================================== *)

Module JsStrings.

Fixpoint repeat_char (c : ascii) (n : nat) : string :=
  match n with
  | O => EmptyString
  | S n' => String c (repeat_char c n')
  end.

(** [s.padStart(n, c)] for a one-character pad. *)
Definition padStart (n : nat) (c : ascii) (s : string) : string :=
  repeat_char c (n - String.length s) +:+ s.

(** [s.slice(first, last)] for indices that are not negative; the result is
    empty when [last <= first]. *)
Definition slice (first last : nat) (s : string) : string :=
  String.substring first (last - first) s.

(** [s.indexOf(search, start)] for a search string that is not empty:
    [None] stands for -1. *)
Definition indexOf (search : string) (start : nat) (s : string) : option nat :=
  String.index start search s.

(** [s.includes(search)]. *)
Definition includes (search s : string) : bool :=
  match indexOf search 0 s with Some _ => true | None => false end.

(** [search] stands in [s] at position [p]. *)
Definition occurs_at (search s : string) (p : nat) : bool :=
  String.eqb (String.substring p (String.length search) s) search.

End JsStrings.

(* ===================================================================== *)
(** ** The E2EE manager ([CryptoManager]) *)
(* ===================================================================== *)

Module DeviceKeys.
Record t := mk { deviceId : string; curve25519 : string; ed25519 : string }.
End DeviceKeys.

Module EncryptedPayload.
Record t := mk {
  algorithm : string;
  senderKey : string;
  ciphertext : string;
  sessionId : string;
  deviceId : string;
}.
End EncryptedPayload.

Module CryptoManager.
Import Js JsStrings Encoding.

(** The two items the manager keeps in the secure store, under
    [clawchat_crypto_store] and [clawchat_verified_devices]; their JSON text
    is represented by the value it serialises, and the store accepts every
    write. *)
Record SecureStore := mkStore {
  crypto_store : option DeviceKeys.t;
  verified_devices : option (list string);
}.

Record t := mk {
  deviceKeys : option DeviceKeys.t;
  sessionKeys : gmap string string;
  verifiedDevices : list string;
}.

(** [new CryptoManager()]. *)
Definition new : t := mk None ∅ [].

(** The order of the awaited key-share call and of the computation of the
    ciphertext inside [encryptMessage]. *)
Inductive Event :=
  | ShareSessionKey (roomId sessionId : string) (recipientKeys : list DeviceKeys.t)
  | Ciphertext (roomId sessionId ciphertext : string).

Definition chars : string := "ABCDEFGHIJKLMNOPQRSTUVWXYZ0123456789".

(** [chars.charAt(i)]: the empty string out of range. *)
Definition charAt (s : string) (i : nat) : string :=
  match String.get i s with
  | Some c => String c EmptyString
  | None => EmptyString
  end.

(** [draw i] is [Math.floor(Math.random() * chars.length)] at iteration [i]. *)
Definition generateDeviceId (draw : nat -> nat) : string :=
  fold_left (fun result i => result +:+ charAt chars (draw i)) (seq 0 10) EmptyString.

Definition generateDeviceKeys (draw : nat -> nat) : DeviceKeys.t :=
  let deviceId := generateDeviceId draw in
  DeviceKeys.mk deviceId ("curve25519_" +:+ deviceId) ("ed25519_" +:+ deviceId).

Definition initialize (m : t) (st : SecureStore) (draw : nat -> nat)
  : DeviceKeys.t * t * SecureStore :=
  match crypto_store st with
  | Some stored =>
      (stored, mk (Some stored) (sessionKeys m) (verifiedDevices m), st)
  | None =>
      let keys := generateDeviceKeys draw in
      (keys, mk (Some keys) (sessionKeys m) (verifiedDevices m),
       mkStore (Some keys) (verified_devices st))
  end.

Definition device_key (userId deviceId : string) : string :=
  userId +:+ ":" +:+ deviceId.

Definition verifyDevice (m : t) (st : SecureStore) (userId deviceId : string)
  : t * SecureStore :=
  let verified := set_add (device_key userId deviceId) (verifiedDevices m) in
  (mk (deviceKeys m) (sessionKeys m) verified,
   mkStore (crypto_store st) (Some verified)).

Definition isDeviceVerified (m : t) (userId deviceId : string) : bool :=
  set_has (device_key userId deviceId) (verifiedDevices m).

(** [now] is the value of [Date.now()]. *)
Definition createMegolmSession (roomId : string) (now : N) : string :=
  "session_" +:+ roomId +:+ "_" +:+ pretty now.

Definition shareSessionKey (roomId sessionId : string)
    (recipientKeys : list DeviceKeys.t) : list Event :=
  [ShareSessionKey roomId sessionId recipientKeys].

Definition encryptMessage (m : t) (roomId : string) (content : jsstring)
    (recipientKeys : list DeviceKeys.t) (now : N)
  : result EncryptedPayload.t * t * list Event :=
  match deviceKeys m with
  | None => (Err (JsError "Crypto not initialized"), m, [])
  | Some keys =>
      let '(sessionId, m', shared) :=
        if truthy_opt (sessionKeys m !! roomId)
        then (default EmptyString (sessionKeys m !! roomId), m, [])
        else
          let sessionId := createMegolmSession roomId now in
          (sessionId,
           mk (deviceKeys m) (<[roomId := sessionId]> (sessionKeys m))
              (verifiedDevices m),
           shareSessionKey roomId sessionId recipientKeys) in
      let ciphertext := b64_encode (buffer_from content) in
      (Ok (EncryptedPayload.mk "m.megolm.v1.aes-sha2"
             (DeviceKeys.curve25519 keys) ciphertext sessionId
             (DeviceKeys.deviceId keys)),
       m', shared ++ [Ciphertext roomId sessionId ciphertext])
  end.

Definition decryptMessage (payload : EncryptedPayload.t) : jsstring :=
  buffer_to_utf8 (b64_decode (EncryptedPayload.ciphertext payload)).

(** The object serialised by [exportKeys] and parsed by [importKeys]. *)
Record Backup := mkBackup {
  backup_deviceKeys : option DeviceKeys.t;
  backup_sessionKeys : list (string * string);
  backup_verifiedDevices : list string;
}.

Definition exportKeys (m : t) : result Backup :=
  match deviceKeys m with
  | None => Err (JsError "No keys to export")
  | Some keys =>
      Ok (mkBackup (Some keys) (map_to_list (sessionKeys m)) (verifiedDevices m))
  end.

(** [data] is the object parsed from the backup text. *)
Definition importKeys (m : t) (st : SecureStore) (data : Backup)
  : t * SecureStore :=
  (mk (backup_deviceKeys data)
      (list_to_map (backup_sessionKeys data))
      (set_of_array (backup_verifiedDevices data)),
   mkStore (backup_deviceKeys data) (verified_devices st)).

(** The operations that change the manager; [getFingerprint],
    [isDeviceVerified], [decryptMessage] and [exportKeys] only read it. *)
Inductive Op :=
  | OpInitialize (draw : nat -> nat)
  | OpVerifyDevice (userId deviceId : string)
  | OpEncryptMessage (roomId : string) (content : jsstring)
      (recipientKeys : list DeviceKeys.t) (now : N)
  | OpImportKeys (data : Backup).

Definition step (s : t * SecureStore) (op : Op) : t * SecureStore :=
  let '(m, st) := s in
  match op with
  | OpInitialize draw => let '(_, m', st') := initialize m st draw in (m', st')
  | OpVerifyDevice userId deviceId => verifyDevice m st userId deviceId
  | OpEncryptMessage roomId content recipientKeys now =>
      let '(_, m', _) := encryptMessage m roomId content recipientKeys now in
      (m', st)
  | OpImportKeys data => importKeys m st data
  end.

Definition run (s : t * SecureStore) (ops : list Op) : t * SecureStore :=
  fold_left step ops s.

Definition is_import (op : Op) : bool :=
  match op with OpImportKeys _ => true | _ => false end.

(** The manager is initialised and holds a session for the room. *)
Definition established (roomId sessionId : string) (m : t) : Prop :=
  is_Some (deviceKeys m) /\
  sessionKeys m !! roomId = Some sessionId /\ truthy sessionId = true.

(** The key-share calls of a trace. *)
Definition shares (tr : list Event) : list Event :=
  List.filter (fun e => match e with
                        | ShareSessionKey _ _ _ => true
                        | Ciphertext _ _ _ => false
                        end) tr.

(** *** The safety number *)

(** [ToInt32]: the value of a number as a signed 32-bit integer. *)
Definition to_int32 (z : Z) : Z := ((z + 2 ^ 31) mod 2 ^ 32 - 2 ^ 31)%Z.

(** One iteration of the loop of [getFingerprint]:
    [hash = ((hash << 5) - hash) + combined.charCodeAt(i); hash = hash & hash]. *)
Definition hash_step (hash code : Z) : Z :=
  let sum := (to_int32 (Z.shiftl (to_int32 hash) 5) - hash + code)%Z in
  Z.land (to_int32 sum) (to_int32 sum).

(** [s.charCodeAt(i)] for every [i]. *)
Definition char_codes (s : string) : list Z :=
  map (fun a => Z.of_nat (nat_of_ascii a)) (list_ascii_of_string s).

Definition fingerprint_hash (combined : string) : Z :=
  fold_left hash_step (char_codes combined) 0%Z.

Definition getFingerprint (userId : string) (deviceKeys : DeviceKeys.t) : string :=
  let combined := userId +:+ ":" +:+ DeviceKeys.ed25519 deviceKeys in
  let hash := fingerprint_hash combined in
  let numStr :=
    slice 0 60 (padStart 60 "0" (pretty (Z.to_N (Z.abs hash)))) in
  let groups :=
    map (fun k => slice (5 * k) (5 * k + 5) numStr) (seq 0 12) in
  String.concat " " groups.

(** The hash of Java's [String.hashCode]: the polynomial in 31 over the
    character codes. *)
Definition polynomial_hash (codes : list Z) : Z :=
  fold_left (fun acc code => (31 * acc + code)%Z) codes 0%Z.

(** The sets of reachable managers hold no element twice. *)
Definition verified_set_ok (m : t) : Prop := NoDup (verifiedDevices m).

End CryptoManager.

(* ===================================================================== *)
(** ** The Matrix SDK as the client sees it *)
(* ===================================================================== *)

Module Sdk.

Record RoomMember := mkMember { userId : string; name : string }.

(** [event.getContent()]: [body] may be missing. *)
Record Content := mkContent { body : option string; msgtype : string }.

Record MatrixEvent := mkEvent {
  getId : string;
  getType : string;
  getSender : string;
  getTs : Z;
  isEncrypted : bool;
  isVerified : option bool;      (* [None]: the method is not defined *)
  getContent : Content;
}.

(** The event after [decryptEventIfNeeded] replaced its content in place. *)
Definition with_content (e : MatrixEvent) (c : Content) : MatrixEvent :=
  mkEvent (getId e) (getType e) (getSender e) (getTs e) (isEncrypted e)
    (isVerified e) c.

Record Room := mkRoom {
  roomId : string;
  roomName : string;
  topic : option string;
  avatarUrl : option string;
  members : list RoomMember;
  joinedMembers : list RoomMember;
  joinedMemberCount : nat;
  myMembership : string;
  liveTimeline : list MatrixEvent;
  unreadNotificationCount : nat;
  hasEncryptionStateEvent : bool;
}.

Definition getMember (r : Room) (user : string) : option RoomMember :=
  find (fun m => String.eqb (userId m) user) (members r).

Definition getLastLiveEvent (r : Room) : option MatrixEvent :=
  last (liveTimeline r).

Record OwnDeviceKeys := mkOwnKeys { ed25519 : string; curve25519 : string }.

(** [client.getCrypto()]: the own device keys and the devices marked as
    verified. *)
Record CryptoApi := mkCrypto {
  ownDeviceKeys : OwnDeviceKeys;
  verified : gset (string * string);
}.

Definition setDeviceVerified (c : CryptoApi) (user device : string) (v : bool)
  : CryptoApi :=
  mkCrypto (ownDeviceKeys c)
    (if v then {[ (user, device) ]} ∪ verified c
     else verified c ∖ {[ (user, device) ]}).

Record MatrixClient := mkClient {
  getUserId : option string;
  getDeviceId : option string;
  isCryptoEnabled : bool;
  getCrypto : option CryptoApi;
  getRooms : list Room;
  isLoggedIn : bool;
}.

Definition getRoom (c : MatrixClient) (id : string) : option Room :=
  find (fun r => String.eqb (roomId r) id) (getRooms c).

End Sdk.

(* ===================================================================== *)
(** ** The client facade ([ClawChatClient]) *)
(* ===================================================================== *)

Module Message.
Inductive kind := text | image | file | notice.
Record t := mk {
  id : string;
  roomId : string;
  sender : string;
  senderName : string;
  body : string;
  timestamp : Z;
  type : kind;
  isMe : bool;
  encrypted : bool;
  verified : bool;
}.
End Message.

Module Room.
Record t := mk {
  id : string;
  name : string;
  topic : option string;
  avatarUrl : option string;
  isDirect : bool;
  lastMessage : option Message.t;
  unreadCount : nat;
  encrypted : bool;
}.
End Room.

Module AuthSession.
Record t := mk {
  accessToken : string;
  userId : string;
  deviceId : string;
  homeserver : string;
}.
End AuthSession.

Module Client.
Import Js.

Record MatrixConfig := mkConfig { homeserver : string; enableE2EE : bool }.

(** The callbacks are represented by whether one is registered; what the
    client passes to them is recorded in the trace. *)
Record t := mk {
  client : option Sdk.MatrixClient;
  config : MatrixConfig;
  onMessageCallback : bool;
  onRoomUpdateCallback : bool;
  onVerificationCallback : bool;
}.

(** [new ClawChatClient(config)]; [DEFAULT_HOMESERVER] comes from the
    application configuration. *)
Definition new (DEFAULT_HOMESERVER : string) (homeserver : option string)
    (enableE2EE : option bool) : t :=
  mk None (mkConfig (or_else homeserver DEFAULT_HOMESERVER) (default true enableE2EE))
    false false false.

Definition onMessage (c : t) : t :=
  mk (client c) (config c) true (onRoomUpdateCallback c) (onVerificationCallback c).

Definition onRoomUpdate (c : t) : t :=
  mk (client c) (config c) (onMessageCallback c) true (onVerificationCallback c).

(** Calls that leave the client, and console output. *)
Inductive Effect :=
  | Warn (text : string)
  | Log (text : string)
  | OnMessage (message : Message.t)
  | OnRoomUpdate (rooms : list Room.t)
  | TempLogin (user : string)
  | TempStopClient
  | InitRustCrypto
  | StartClient
  | UploadKeys
  | Logout
  | StopClient
  | DecryptEventIfNeeded (eventId : string)
  | Fetch (uri : string)
  | UploadContent (name type : string)
  | SendTextMessage (roomId text : string)
  | SendImageMessage (roomId contentUri filename : string)
  | CreateRoom (invite : string) (withEncryption : bool)
  | SetDeviceVerified (userId deviceId : string) (verified : bool).

Definition not_initialized : Error := JsError "Client not initialized".

(** [this.client?.isCryptoEnabled()], falsy without a client. *)
Definition cryptoEnabled (c : t) : bool :=
  match client c with
  | Some mc => Sdk.isCryptoEnabled mc
  | None => false
  end.

Definition isE2EEEnabled (c : t) : bool := cryptoEnabled c.

Definition getMessageType (msgtype : string) : Message.kind :=
  if String.eqb msgtype "m.image" then Message.image
  else if String.eqb msgtype "m.file" then Message.file
  else if String.eqb msgtype "m.notice" then Message.notice
  else Message.text.

Definition eventToMessage (c : t) (event : Sdk.MatrixEvent) (room : Sdk.Room)
  : option Message.t :=
  let content := Sdk.getContent event in
  match Sdk.body content with
  | None => None
  | Some body =>
      if negb (truthy body) then None
      else
        let sender := Sdk.getSender event in
        let member := Sdk.getMember room sender in
        Some (Message.mk
                (Sdk.getId event)
                (Sdk.roomId room)
                sender
                (or_else (Sdk.name <$> member) sender)
                body
                (Sdk.getTs event)
                (getMessageType (Sdk.msgtype content))
                (match client c with
                 | Some mc =>
                     match Sdk.getUserId mc with
                     | Some me => String.eqb sender me
                     | None => false
                     end
                 | None => false
                 end)
                (Sdk.isEncrypted event)
                (default false (Sdk.isVerified event)))
  end.

Definition matrixRoomToRoom (c : t) (room : Sdk.Room) : Room.t :=
  Room.mk
    (Sdk.roomId room)
    (or_else (Some (Sdk.roomName room)) "Unnamed Room")
    (Sdk.topic room)
    (if truthy_opt (Sdk.avatarUrl room) then Sdk.avatarUrl room else None)
    (String.eqb (Sdk.myMembership room) "join"
     && Nat.eqb (Sdk.joinedMemberCount room) 2)
    (match Sdk.getLastLiveEvent room with
     | Some lastEvent => eventToMessage c lastEvent room
     | None => None
     end)
    (Sdk.unreadNotificationCount room)
    (Sdk.hasEncryptionStateEvent room).

Definition getRooms (c : t) : list Room.t :=
  match client c with
  | None => []
  | Some mc => map (matrixRoomToRoom c) (Sdk.getRooms mc)
  end.

Definition emitRoomUpdate (c : t) : list Effect :=
  if onRoomUpdateCallback c then [OnRoomUpdate (getRooms c)] else [].

(** The outcome of [client.decryptEventIfNeeded(event)]: the error thrown,
    if any, and what [event.getContent()] returns after the call. *)
Record Decryption := mkDecryption {
  thrown : option Error;
  content_after : Sdk.Content;
}.

Section Timeline.

(** [client.decryptEventIfNeeded(event)] as the environment answers it. *)
Variable decryptEventIfNeeded : Sdk.MatrixEvent -> Decryption.

Definition decryptIfNeeded (c : t) (warning : string) (event : Sdk.MatrixEvent)
  : Sdk.MatrixEvent * list Effect :=
  if Sdk.isEncrypted event && cryptoEnabled c then
    let d := decryptEventIfNeeded event in
    (Sdk.with_content event (content_after d),
     match thrown d with
     | None => [DecryptEventIfNeeded (Sdk.getId event)]
     | Some _ => [DecryptEventIfNeeded (Sdk.getId event); Warn warning]
     end)
  else (event, []).

(** The listener registered on [RoomEvent.Timeline]. *)
Definition onTimeline (c : t) (event : Sdk.MatrixEvent) (room : Sdk.Room)
    (toStartOfTimeline : bool) : list Effect :=
  if toStartOfTimeline then []
  else if negb (String.eqb (Sdk.getType event) "m.room.message") then []
  else
    let '(event', tr) :=
      decryptIfNeeded c "[E2EE] Failed to decrypt event:" event in
    match eventToMessage c event' room with
    | Some message =>
        if onMessageCallback c then tr ++ [OnMessage message] else tr
    | None => tr
    end.

(** The listener is [async] and [emit] does not await it: a call that awaits
    a decryption is resumed later, after the listener has been called for
    the events that follow.  [listenerCalls] are the calls made for the
    events of one sync batch, in the order of the events, each with the
    effects it performs from its start to its end. *)
Definition listenerCalls (c : t) (batch : list (Sdk.MatrixEvent * Sdk.Room * bool))
  : list (list Effect) :=
  map (fun '(event, room, toStart) => onTimeline c event room toStart) batch.

Definition getMessages (c : t) (roomId : string) (limit : nat)
  : result (list Message.t) * list Effect :=
  match client c with
  | None => (Err not_initialized, [])
  | Some mc =>
      match Sdk.getRoom mc roomId with
      | None => (Ok [], [])
      | Some room =>
          let events :=
            slice_last limit
              (List.filter
                 (fun e => String.eqb (Sdk.getType e) "m.room.message")
                 (Sdk.liveTimeline room)) in
          let decrypted :=
            map (decryptIfNeeded c "[E2EE] Failed to decrypt:") events in
          (Ok (omap (fun '(event, _) => eventToMessage c event room) decrypted),
           flat_map snd decrypted)
      end
  end.

End Timeline.

(** The effects of calls that run interleaved.  The runtime decides which
    call goes on next: [schedule] lists the calls by position, each entry
    letting that call perform its next effect (an entry for a call that has
    ended, or for none, does nothing); the calls still unfinished at the end
    of the schedule are completed in order.  The effects of one call stay in
    their order; every order in which the runtime can resume the calls is
    the result of some schedule. *)
Fixpoint interleave {A} (schedule : list nat) (calls : list (list A)) : list A :=
  match schedule with
  | [] => concat calls
  | i :: schedule' =>
      match calls !! i with
      | Some (x :: call) => x :: interleave schedule' (<[i := call]> calls)
      | _ => interleave schedule' calls
      end
  end.

(** The messages delivered to the message callback by a trace. *)
Definition delivered (tr : list Effect) : list Message.t :=
  omap (fun e => match e with OnMessage m => Some m | _ => None end) tr.


Definition getDeviceFingerprint (c : t) : option string :=
  match client c with
  | None => None
  | Some mc =>
      if negb (Sdk.isCryptoEnabled mc) then None
      else if negb (truthy_opt (Sdk.getDeviceId mc)) then None
      else
        match Sdk.getCrypto mc with
        | None => None
        | Some crypto =>
            let device := Sdk.ownDeviceKeys crypto in
            if truthy (Sdk.ed25519 device) then Some (Sdk.ed25519 device)
            else None
        end
  end.

(** The device id and the own signing key, when they exist. *)
Definition own_device_id (c : t) : option string :=
  mc ← client c; Sdk.getDeviceId mc.

Definition own_device_key (c : t) : option string :=
  mc ← client c; crypto ← Sdk.getCrypto mc;
  Some (Sdk.ed25519 (Sdk.ownDeviceKeys crypto)).

(** "Encryption is unavailable", in the words of the specification: crypto
    is not enabled on the client, or no device id or no own device key
    exists. *)
Definition encryption_unavailable (c : t) : Prop :=
  cryptoEnabled c = false \/
  truthy_opt (own_device_id c) = false \/
  truthy_opt (own_device_key c) = false.

Definition with_crypto (mc : Sdk.MatrixClient) (crypto : Sdk.CryptoApi)
  : Sdk.MatrixClient :=
  Sdk.mkClient (Sdk.getUserId mc) (Sdk.getDeviceId mc) (Sdk.isCryptoEnabled mc)
    (Some crypto) (Sdk.getRooms mc) (Sdk.isLoggedIn mc).

Definition with_client (c : t) (mc : option Sdk.MatrixClient) : t :=
  mk mc (config c) (onMessageCallback c) (onRoomUpdateCallback c)
    (onVerificationCallback c).

(** The same client configured with [enableE2EE: false]. *)
Definition without_e2ee (c : t) : t :=
  mk (client c) (mkConfig (homeserver (config c)) false) (onMessageCallback c)
    (onRoomUpdateCallback c) (onVerificationCallback c).

Definition verifyDevice (c : t) (userId deviceId : string)
  : result unit * t * list Effect :=
  match client c with
  | None => (Err (JsError "E2EE not enabled"), c, [])
  | Some mc =>
      if negb (Sdk.isCryptoEnabled mc)
      then (Err (JsError "E2EE not enabled"), c, [])
      else
        match Sdk.getCrypto mc with
        | None => (Err (JsError "Crypto not available"), c, [])
        | Some crypto =>
            (Ok tt,
             with_client c
               (Some (with_crypto mc
                        (Sdk.setDeviceVerified crypto userId deviceId true))),
             [SetDeviceVerified userId deviceId true])
        end
  end.

(** [response] is the outcome of [client.sendTextMessage]. *)
Definition sendMessage (c : t) (roomId text : string) (response : result string)
  : result string * t * list Effect :=
  match client c with
  | None => (Err not_initialized, c, [])
  | Some _ => (response, c, [SendTextMessage roomId text])
  end.

(** The blob read from [fetch(uri)]. *)
Record Blob := mkBlob { blob_type : string; blob_size : nat }.

Definition sendImage (c : t) (roomId uri filename : string)
    (fetched : result Blob) (uploaded : result string) (sent : result string)
  : result string * t * list Effect :=
  match client c with
  | None => (Err not_initialized, c, [])
  | Some _ =>
      match fetched with
      | Err e => (Err e, c, [Fetch uri])
      | Ok blob =>
          match uploaded with
          | Err e => (Err e, c, [Fetch uri; UploadContent filename (blob_type blob)])
          | Ok contentUri =>
              (sent, c,
               [Fetch uri; UploadContent filename (blob_type blob);
                SendImageMessage roomId contentUri filename])
          end
      end
  end.

(** The test of the loop over the existing rooms. *)
Definition is_direct_with (botUserId : string) (room : Sdk.Room) : bool :=
  Nat.eqb (length (Sdk.joinedMembers room)) 2
  && existsb (fun m => String.eqb (Sdk.userId m) botUserId) (Sdk.joinedMembers room).

(** [created] is the outcome of [client.createRoom]. *)
Definition getOrCreateBotRoom (c : t) (botUserId : string)
    (enableEncryption : bool) (created : result string)
  : result string * t * list Effect :=
  match client c with
  | None => (Err not_initialized, c, [])
  | Some mc =>
      match find (is_direct_with botUserId) (Sdk.getRooms mc) with
      | Some room => (Ok (Sdk.roomId room), c, [])
      | None =>
          (created, c,
           [CreateRoom botUserId (enableEncryption && isE2EEEnabled c)])
      end
  end.

(** What the environment answers during [initializeClient]. *)
Record InitEnv := mkInitEnv {
  initRustCrypto : result Sdk.CryptoApi;
  startClient : result unit;
  firstSyncState : string;
  syncedRooms : list Sdk.Room;
  uploadKeys : result unit;
}.

(** [sdk.createClient] for a session. *)
Definition createClient (session : AuthSession.t) : Sdk.MatrixClient :=
  Sdk.mkClient (Some (AuthSession.userId session))
    (Some (AuthSession.deviceId session)) false None [] true.

Definition with_rooms (mc : Sdk.MatrixClient) (rooms : list Sdk.Room)
  : Sdk.MatrixClient :=
  Sdk.mkClient (Sdk.getUserId mc) (Sdk.getDeviceId mc) (Sdk.isCryptoEnabled mc)
    (Sdk.getCrypto mc) rooms (Sdk.isLoggedIn mc).

Definition initializeClient (c : t) (session : AuthSession.t) (env : InitEnv)
  : outcome unit * t * list Effect :=
  let mc0 := createClient session in
  (* Initialize E2EE if enabled *)
  let '(mc1, tr1) :=
    if enableE2EE (config c) then
      match initRustCrypto env with
      | Ok crypto =>
          (Sdk.mkClient (Sdk.getUserId mc0) (Sdk.getDeviceId mc0) true
             (Some crypto) (Sdk.getRooms mc0) (Sdk.isLoggedIn mc0),
           [InitRustCrypto; Log "[E2EE] Rust crypto initialized"])
      | Err _ =>
          (mc0, [InitRustCrypto; Warn "[E2EE] Failed to initialize crypto:"])
      end
    else (mc0, []) in
  (* Start the client *)
  match startClient env with
  | Err e => (Rejected e, with_client c (Some mc1), tr1 ++ [StartClient])
  | Ok _ =>
      let mc2 := with_rooms mc1 (syncedRooms env) in
      (* Wait for initial sync *)
      if negb (String.eqb (firstSyncState env) "PREPARED")
      then (Pending, with_client c (Some mc2), tr1 ++ [StartClient])
      else if enableE2EE (config c) && Sdk.isCryptoEnabled mc2 then
        match uploadKeys env with
        | Ok _ =>
            (Resolved tt, with_client c (Some mc2),
             tr1 ++ [StartClient; UploadKeys; Log "[E2EE] Device keys uploaded"])
        | Err e =>
            (Rejected e, with_client c (Some mc2),
             tr1 ++ [StartClient; UploadKeys])
        end
      else (Resolved tt, with_client c (Some mc2), tr1 ++ [StartClient])
  end.

Record LoginResponse := mkLoginResponse {
  access_token : string;
  user_id : string;
  device_id : string;
}.

(** [response] is the outcome of [tempClient.login]. *)
Definition login (c : t) (username password : string)
    (response : result LoginResponse) (env : InitEnv)
  : outcome AuthSession.t * t * list Effect :=
  match response with
  | Err e => (Rejected e, c, [TempLogin username; TempStopClient])
  | Ok r =>
      let session :=
        AuthSession.mk (access_token r) (user_id r) (device_id r)
          (homeserver (config c)) in
      match initializeClient c session env with
      | (Resolved _, c', tr) =>
          (Resolved session, c', TempLogin username :: tr ++ [TempStopClient])
      | (Rejected e, c', tr) =>
          (Rejected e, c', TempLogin username :: tr ++ [TempStopClient])
      | (Pending, c', tr) => (Pending, c', TempLogin username :: tr)
      end
  end.

Definition restoreSession (c : t) (session : AuthSession.t) (env : InitEnv)
  : outcome unit * t * list Effect :=
  initializeClient c session env.

(** The answer of the server to [client.logout()] is awaited and an error
    of it is ignored. *)
Definition logout (c : t) : t * list Effect :=
  match client c with
  | Some _ => (with_client c None, [Logout; StopClient])
  | None => (c, [])
  end.

(** [this.client?.getUserId() || null]. *)
Definition getUserId (c : t) : option string :=
  match client c with
  | Some mc => if truthy_opt (Sdk.getUserId mc) then Sdk.getUserId mc else None
  | None => None
  end.

(** [this.client?.getDeviceId() || null]. *)
Definition getDeviceId (c : t) : option string :=
  match client c with
  | Some mc => if truthy_opt (Sdk.getDeviceId mc) then Sdk.getDeviceId mc else None
  | None => None
  end.

Definition isConnected (c : t) : bool :=
  match client c with
  | Some mc => Sdk.isLoggedIn mc
  | None => false
  end.

Definition isRoomEncrypted (c : t) (roomId : string) : bool :=
  match client c with
  | None => false
  | Some mc =>
      match Sdk.getRoom mc roomId with
      | Some room => Sdk.hasEncryptionStateEvent room
      | None => false
      end
  end.

End Client.

(* ===================================================================== *)
(** ** The chat store ([useChatStore]) *)
(* ===================================================================== *)

Module ChatStore.
Import Js.

Record ChatState := mk {
  rooms : list Room.t;
  currentRoomId : option string;
  messages : gmap string (list Message.t);
  isLoading : bool;
  isSending : bool;
  error : option string;
  e2eeEnabled : bool;
}.

Definition initial : ChatState := mk [] None ∅ false false None false.

Definition set_rooms (st : ChatState) (r : list Room.t) : ChatState :=
  mk r (currentRoomId st) (messages st) (isLoading st) (isSending st)
    (error st) (e2eeEnabled st).

Definition set_currentRoomId (st : ChatState) (r : option string) : ChatState :=
  mk (rooms st) r (messages st) (isLoading st) (isSending st) (error st)
    (e2eeEnabled st).

Definition set_messages (st : ChatState) (m : gmap string (list Message.t))
  : ChatState :=
  mk (rooms st) (currentRoomId st) m (isLoading st) (isSending st) (error st)
    (e2eeEnabled st).

Definition set_isLoading (st : ChatState) (b : bool) : ChatState :=
  mk (rooms st) (currentRoomId st) (messages st) b (isSending st) (error st)
    (e2eeEnabled st).

Definition set_isSending (st : ChatState) (b : bool) : ChatState :=
  mk (rooms st) (currentRoomId st) (messages st) (isLoading st) b (error st)
    (e2eeEnabled st).

Definition set_error (st : ChatState) (e : option string) : ChatState :=
  mk (rooms st) (currentRoomId st) (messages st) (isLoading st) (isSending st)
    e (e2eeEnabled st).

Definition set_e2eeEnabled (st : ChatState) (b : bool) : ChatState :=
  mk (rooms st) (currentRoomId st) (messages st) (isLoading st) (isSending st)
    (error st) b.

(** [roomMessages.some((m) => m.id === message.id)]. *)
Definition has_id (id : string) (l : list Message.t) : bool :=
  existsb (fun m => String.eqb (Message.id m) id) l.

(** The message listener installed by [initialize]. *)
Definition onMessage (st : ChatState) (message : Message.t) : ChatState :=
  let roomMessages := default [] (messages st !! Message.roomId message) in
  if has_id (Message.id message) roomMessages then st
  else
    set_messages st
      (<[Message.roomId message := roomMessages ++ [message]]> (messages st)).

(** The room listener installed by [initialize]. *)
Definition onRoomUpdate (st : ChatState) (rooms : list Room.t) : ChatState :=
  set_rooms st rooms.

Definition initialize (st : ChatState) (c : Client.t) : ChatState :=
  set_rooms st (Client.getRooms c).

Definition setCurrentRoomId (st : ChatState) (roomId : option string)
  : ChatState :=
  set_currentRoomId st roomId.

Definition checkE2EEStatus (st : ChatState) (c : Client.t) : ChatState :=
  set_e2eeEnabled st (Client.isE2EEEnabled c).

Definition refresh (st : ChatState) (c : Client.t) : ChatState :=
  set_rooms st (Client.getRooms c).

Section Actions.

Variable decryptEventIfNeeded : Sdk.MatrixEvent -> Client.Decryption.

(** [String.prototype.trim]. *)
Variable trim : string -> string.

Definition loadMessages (st : ChatState) (c : Client.t) (roomId : string)
  : ChatState :=
  let st := set_isLoading st true in
  match fst (Client.getMessages decryptEventIfNeeded c roomId 100) with
  | Ok loaded =>
      set_messages (set_isLoading st false) (<[roomId := loaded]> (messages st))
  | Err e =>
      set_error (set_isLoading st false)
        (Some (or_else (Some (message e)) "Failed to load messages"))
  end.

Definition setCurrentRoom (st : ChatState) (c : Client.t) (roomId : string)
  : ChatState :=
  loadMessages (set_currentRoomId st (Some roomId)) c roomId.

(** [response] is what [client.sendTextMessage] answers when it is called. *)
Definition sendMessage (st : ChatState) (c : Client.t) (text : string)
    (response : result string) : ChatState :=
  if negb (truthy_opt (currentRoomId st)) || negb (truthy (trim text)) then st
  else
    let roomId := default EmptyString (currentRoomId st) in
    let st := set_isSending st true in
    match fst (fst (Client.sendMessage c roomId (trim text) response)) with
    | Ok _ => set_isSending st false
    | Err e =>
        set_error (set_isSending st false)
          (Some (or_else (Some (message e)) "Failed to send message"))
    end.

Definition sendImage (st : ChatState) (c : Client.t) (uri filename : string)
    (fetched : result Client.Blob) (uploaded sent : result string) : ChatState :=
  if negb (truthy_opt (currentRoomId st)) then st
  else
    let roomId := default EmptyString (currentRoomId st) in
    let st := set_isSending st true in
    match fst (fst (Client.sendImage c roomId uri filename fetched uploaded sent)) with
    | Ok _ => set_isSending st false
    | Err e =>
        set_error (set_isSending st false)
          (Some (or_else (Some (message e)) "Failed to send image"))
    end.

(** The store after [startBotChat], and what the call returns. *)
Definition startBotChat (st : ChatState) (c : Client.t) (botUserId : string)
    (enableE2EE : bool) (created : result string)
  : result string * ChatState :=
  let st := set_isLoading st true in
  match fst (fst (Client.getOrCreateBotRoom c botUserId enableE2EE created)) with
  | Ok roomId =>
      let st :=
        set_isLoading
          (set_currentRoomId (set_rooms st (Client.getRooms c)) (Some roomId))
          false in
      (Ok roomId, loadMessages st c roomId)
  | Err e =>
      (Err e,
       set_error (set_isLoading st false)
         (Some (or_else (Some (message e)) "Failed to start chat with bot")))
  end.

(** Everything that changes the store: the two listeners and the actions.
    An action carries the state of the client singleton at the time it runs
    and the answers of the server. *)
Inductive Action :=
  | Initialize (c : Client.t)
  | OnMessage (message : Message.t)
  | OnRoomUpdate (rooms : list Room.t)
  | SetCurrentRoom (c : Client.t) (roomId : string)
  | SetCurrentRoomId (roomId : option string)
  | CheckE2EEStatus (c : Client.t)
  | LoadMessages (c : Client.t) (roomId : string)
  | SendMessage (c : Client.t) (text : string) (response : result string)
  | SendImage (c : Client.t) (uri filename : string)
      (fetched : result Client.Blob) (uploaded sent : result string)
  | StartBotChat (c : Client.t) (botUserId : string) (enableE2EE : bool)
      (created : result string)
  | Refresh (c : Client.t).

Definition step (st : ChatState) (a : Action) : ChatState :=
  match a with
  | Initialize c => initialize st c
  | OnMessage message => onMessage st message
  | OnRoomUpdate rooms => onRoomUpdate st rooms
  | SetCurrentRoom c roomId => setCurrentRoom st c roomId
  | SetCurrentRoomId roomId => setCurrentRoomId st roomId
  | CheckE2EEStatus c => checkE2EEStatus st c
  | LoadMessages c roomId => loadMessages st c roomId
  | SendMessage c text response => sendMessage st c text response
  | SendImage c uri filename fetched uploaded sent =>
      sendImage st c uri filename fetched uploaded sent
  | StartBotChat c botUserId enableE2EE created =>
      snd (startBotChat st c botUserId enableE2EE created)
  | Refresh c => refresh st c
  end.

Definition run (st : ChatState) (acts : list Action) : ChatState :=
  fold_left step acts st.

(** The client from which an action loads a room's messages, if it does. *)
Definition loads (a : Action) : option (Client.t * string) :=
  match a with
  | SetCurrentRoom c roomId | LoadMessages c roomId => Some (c, roomId)
  | StartBotChat c botUserId enableE2EE created =>
      match fst (fst (Client.getOrCreateBotRoom c botUserId enableE2EE created)) with
      | Ok roomId => Some (c, roomId)
      | Err _ => None
      end
  | _ => None
  end.

End Actions.

(** The ids of the events of a room's live timeline, as the client holds
    them. *)
Definition timeline_ids (c : Client.t) (roomId : string) : list string :=
  match Client.client c with
  | Some mc =>
      match Sdk.getRoom mc roomId with
      | Some room => map Sdk.getId (Sdk.liveTimeline room)
      | None => []
      end
  | None => []
  end.

(** The timeline from which an action loads messages, if it loads any,
    has no two events with the same id. *)
Definition distinct_timeline (a : Action) : bool :=
  match loads a with
  | Some (c, roomId) => bool_decide (NoDup (timeline_ids c roomId))
  | None => true
  end.

(** No two messages of a room's list have the same id. *)
Definition no_duplicate_ids (st : ChatState) : Prop :=
  forall roomId l, messages st !! roomId = Some l -> NoDup (map Message.id l).

(** Every message is kept in the list of its own room. *)
Definition filed_by_room (st : ChatState) : Prop :=
  forall roomId l,
    messages st !! roomId = Some l ->
    Forall (fun m => Message.roomId m = roomId) l.

Definition selectCurrentMessages (st : ChatState) : list Message.t :=
  if negb (truthy_opt (currentRoomId st)) then []
  else default [] (messages st !! default EmptyString (currentRoomId st)).

End ChatStore.

(* ===================================================================== *)
(** ** The standalone bot ([handleMessage]) *)
(* ===================================================================== *)

Module Bot.
Import Js.

Inductive Role := user | assistant.

(** An entry of the conversation history; [content] is [undefined] when the
    event has no body. *)
Record Turn := mkTurn { role : Role; content : option string }.

(** A block of the completion response. *)
Inductive Block :=
  | TextBlock (text : string)
  | OtherBlock (type : string).

Record Config := mkConfig { matrixUserId : string; model : string }.

(** Calls to the Matrix client and to the completion service. *)
Inductive Effect :=
  | SendTyping (roomId : string) (typing : bool) (timeout : Z)
  | MessagesCreate (model : string) (max_tokens : Z) (system : string)
      (messages : list Turn)
  | SendTextMessage (roomId text : string).

Definition apology : string :=
  "I'm having trouble processing that right now. Please try again.".

Definition newline : string := String "010"%char EmptyString.

Definition system_prompt (sender : string) : string :=
  "You are ClawChat AI, a helpful and friendly assistant. You're chatting with users through a messaging app. Keep responses concise and conversational. The current user's Matrix ID is "
  +:+ sender +:+ ".".

(** The text blocks of a response, joined by newlines. *)
Definition response_text (blocks : list Block) : string :=
  String.concat newline
    (omap (fun b => match b with TextBlock t => Some t | OtherBlock _ => None end)
       blocks).

(** The [catch] branch: stop typing and send the apology; [sent] is the
    outcome of that send. *)
Definition on_failure (roomId : string) (sent : result unit)
  : outcome unit * list Effect :=
  (match sent with Ok _ => Resolved tt | Err e => Rejected e end,
   [SendTyping roomId false 0; SendTextMessage roomId apology]).

(** [completion] is the outcome of [anthropic.messages.create], [replySent]
    and [apologySent] those of the two [sendTextMessage] calls.  The map
    holds the arrays by reference: [push] on an array found in the map
    changes the stored conversation, too. *)
Definition handleMessage (cfg : Config)
    (conversations : gmap string (list Turn))
    (event : Sdk.MatrixEvent) (room : Sdk.Room)
    (completion : result (list Block)) (replySent apologySent : result unit)
  : outcome unit * gmap string (list Turn) * list Effect :=
  (* Ignore our own messages *)
  if String.eqb (Sdk.getSender event) (matrixUserId cfg)
  then (Resolved tt, conversations, [])
  (* Only handle text messages *)
  else if negb (String.eqb (Sdk.getType event) "m.room.message")
  then (Resolved tt, conversations, [])
  else if negb (String.eqb (Sdk.msgtype (Sdk.getContent event)) "m.text")
  then (Resolved tt, conversations, [])
  else
    let roomId := Sdk.roomId room in
    let userMessage := Sdk.body (Sdk.getContent event) in
    let sender := Sdk.getSender event in
    (* Get or create conversation history, add user message to history *)
    let pushed :=
      default [] (conversations !! roomId) ++ [mkTurn user userMessage] in
    let conversations1 :=
      match conversations !! roomId with
      | Some _ => <[roomId := pushed]> conversations
      | None => conversations
      end in
    (* Keep only last 20 messages for context *)
    let history :=
      if Nat.ltb 20 (length pushed) then slice_last 20 pushed else pushed in
    let request :=
      [SendTyping roomId true 30000;
       MessagesCreate (model cfg) 4096 (system_prompt sender) history] in
    match completion with
    | Err _ =>
        let '(o, tr) := on_failure roomId apologySent in
        (o, conversations1, request ++ tr)
    | Ok blocks =>
        let assistantMessage := response_text blocks in
        (* Add assistant response to history *)
        let conversations2 :=
          <[roomId := history ++ [mkTurn assistant (Some assistantMessage)]]>
            conversations1 in
        let reply :=
          [SendTyping roomId false 0; SendTextMessage roomId assistantMessage] in
        match replySent with
        | Ok _ => (Resolved tt, conversations2, request ++ reply)
        | Err _ =>
            let '(o, tr) := on_failure roomId apologySent in
            (o, conversations2, request ++ reply ++ tr)
        end
    end.

(** The last 20 entries of the stored conversation followed by the new
    message. *)
Definition context (conversations : gmap string (list Turn))
    (event : Sdk.MatrixEvent) (room : Sdk.Room) : list Turn :=
  let pushed :=
    default [] (conversations !! Sdk.roomId room)
    ++ [mkTurn user (Sdk.body (Sdk.getContent event))] in
  drop (length pushed - 20) pushed.

(** One incoming timeline event with the answers of the environment. *)
Record Incoming := mkIncoming {
  in_event : Sdk.MatrixEvent;
  in_room : Sdk.Room;
  in_completion : result (list Block);
  in_replySent : result unit;
  in_apologySent : result unit;
}.

Definition handle (cfg : Config) (s : gmap string (list Turn) * list Effect)
    (i : Incoming) : gmap string (list Turn) * list Effect :=
  let '(_, conversations, tr) :=
    handleMessage cfg (fst s) (in_event i) (in_room i) (in_completion i)
      (in_replySent i) (in_apologySent i) in
  (conversations, snd s ++ tr).

(** The bot started with an empty memory and fed a sequence of events. *)
Definition run (cfg : Config) (l : list Incoming)
  : gmap string (list Turn) * list Effect :=
  fold_left (handle cfg) l (∅, []).

(** The histories handed to the completion service by a trace. *)
Definition requests (tr : list Effect) : list (list Turn) :=
  omap (fun e => match e with
                 | MessagesCreate _ _ _ messages => Some messages
                 | _ => None
                 end) tr.

End Bot.

(* ===================================================================== *)
(** ** The bot with E2EE support ([initializeCrypto]) *)
(* ===================================================================== *)

Module BotE2EE.
Import Js.

Inductive Effect :=
  | Log (text : string)
  | Warn (text : string)
  | InitRustCrypto
  | UploadKeys.

(** [enableE2EE] is [config.enableE2EE]; the two results are the outcomes of
    [matrixClient.initRustCrypto()] and [matrixClient.uploadKeys()]. *)
Definition initializeCrypto (enableE2EE : bool)
    (initRustCrypto uploadKeys : result unit) : bool * list Effect :=
  if negb enableE2EE then (false, [Log "[E2EE] Disabled by configuration"])
  else
    match initRustCrypto with
    | Err _ =>
        (false,
         [InitRustCrypto; Warn "[E2EE] Failed to initialize crypto:";
          Log "[E2EE] Continuing without encryption"])
    | Ok _ =>
        match uploadKeys with
        | Err _ =>
            (false,
             [InitRustCrypto; Log "[E2EE] Rust crypto initialized"; UploadKeys;
              Warn "[E2EE] Failed to initialize crypto:";
              Log "[E2EE] Continuing without encryption"])
        | Ok _ =>
            (true,
             [InitRustCrypto; Log "[E2EE] Rust crypto initialized"; UploadKeys;
              Log "[E2EE] Device keys uploaded"])
        end
    end.

End BotE2EE.

(* ===================================================================== *)
(** ** Concrete values used in examples *)
(* ===================================================================== *)

Module Samples.
Local Open Scope Z_scope.

Definition keys : DeviceKeys.t :=
  DeviceKeys.mk "DEVICE0001" "curve25519_DEVICE0001" "ed25519_DEVICE0001".

Definition bot_keys : DeviceKeys.t :=
  DeviceKeys.mk "CLAWBOT001" "curve25519_CLAWBOT001" "ed25519_CLAWBOT001".

(** A manager after [initialize]. *)
Definition manager : CryptoManager.t := CryptoManager.mk (Some keys) ∅ [].

Definition empty_store : CryptoManager.SecureStore :=
  CryptoManager.mkStore None None.

Definition room : string := "!room:clawchat.io".

(** A value of [Date.now()]. *)
Definition started_at : N := 1700000000000.

(** Operations of the manager other than a restore from backup. *)
Definition other_ops : list CryptoManager.Op :=
  [CryptoManager.OpInitialize (fun _ => 0%nat);
   CryptoManager.OpEncryptMessage "!other:clawchat.io" [104; 105] [bot_keys] 7;
   CryptoManager.OpVerifyDevice "@alice:clawchat.io" "DEVICE0001"].

(** A new manager after [verifyDevice] for the bot's device. *)
Definition verified_once : CryptoManager.t * CryptoManager.SecureStore :=
  CryptoManager.verifyDevice CryptoManager.new empty_store
    "@clawbot:clawchat.io" "CLAWBOT001".

(** A backup taken before any device was verified. *)
Definition early_backup : CryptoManager.Backup :=
  CryptoManager.mkBackup (Some keys) [] [].

(** The text "hi", the euro sign and an emoji written as a surrogate pair. *)
Definition greeting : Encoding.jsstring := [104; 105; 0x20AC; 0xD83D; 0xDE00].

(** A string that consists of one unpaired high surrogate. *)
Definition lone_surrogate : Encoding.jsstring := [0xD800].

Definition alice : Sdk.RoomMember := Sdk.mkMember "@alice:clawchat.io" "Alice".
Definition bob : Sdk.RoomMember := Sdk.mkMember "@bob:clawchat.io" "Bob".
Definition clawbot : Sdk.RoomMember := Sdk.mkMember "@clawbot:clawchat.io" "ClawBot".

Definition room_of (id name : string) (members : list Sdk.RoomMember)
    (timeline : list Sdk.MatrixEvent) : Sdk.Room :=
  Sdk.mkRoom id name None None members members (length members) "join"
    timeline 0%nat true.

Definition text_event (id sender body : string) : Sdk.MatrixEvent :=
  Sdk.mkEvent id "m.room.message" sender 1700000000000 false None
    (Sdk.mkContent (Some body) "m.text").

(** An encrypted event whose content, still undecrypted, has no body. *)
Definition sealed_event : Sdk.MatrixEvent :=
  Sdk.mkEvent "$sealed" "m.room.message" "@clawbot:clawchat.io" 1700000000000
    true None (Sdk.mkContent None "").

(** An environment in which every decryption throws and leaves the event as
    it was. *)
Definition unknown_session (event : Sdk.MatrixEvent) : Client.Decryption :=
  Client.mkDecryption (Some (Js.JsError "unknown session")) (Sdk.getContent event).

(** The notice that the SDK leaves as the content of an event it cannot
    decrypt. *)
Definition unable_to_decrypt : Sdk.Content :=
  Sdk.mkContent
    (Some "** Unable to decrypt: The sender's device has not sent us the keys for this message. **")
    "m.bad.encrypted".

(** An environment in which no decryption succeeds: the call returns, and
    the event carries the notice. *)
Definition lost_session (event : Sdk.MatrixEvent) : Client.Decryption :=
  Client.mkDecryption None unable_to_decrypt.

(** The same, with a call that throws as well. *)
Definition lost_session_thrown (event : Sdk.MatrixEvent) : Client.Decryption :=
  Client.mkDecryption (Some (Js.JsError "unknown session")) unable_to_decrypt.

Definition group : Sdk.Room :=
  room_of "!group:clawchat.io" "Team" [alice; bob; clawbot] [].
Definition direct : Sdk.Room :=
  room_of "!direct:clawchat.io" "ClawBot" [alice; clawbot]
    [text_event "$1" "@alice:clawchat.io" "hello"].
Definition direct_again : Sdk.Room :=
  room_of "!again:clawchat.io" "ClawBot" [alice; clawbot] [].

(** A room whose timeline holds the same event twice. *)
Definition replayed : Sdk.Room :=
  room_of "!replayed:clawchat.io" "ClawBot" [alice; clawbot]
    [text_event "$1" "@alice:clawchat.io" "hello";
     text_event "$1" "@alice:clawchat.io" "hello"].

Definition sdk_client : Sdk.MatrixClient :=
  Sdk.mkClient (Some "@alice:clawchat.io") (Some "DEVICE0001") true
    (Some (Sdk.mkCrypto (Sdk.mkOwnKeys "ed25519_DEVICE0001" "curve25519_DEVICE0001") ∅))
    [group; direct; direct_again; replayed] true.

Definition config : Client.MatrixConfig :=
  Client.mkConfig "https://matrix.clawchat.io" true.

(** A client with a session and its callbacks registered. *)
Definition connected : Client.t := Client.mk (Some sdk_client) config true true false.

Definition hello : Message.t :=
  Message.mk "$1" "!direct:clawchat.io" "@alice:clawchat.io" "Alice" "hello"
    1700000000000 Message.text true false false.

Definition reply : Message.t :=
  Message.mk "$2" "!direct:clawchat.io" "@clawbot:clawchat.io" "ClawBot"
    "Hi Alice" 1700000000500 Message.text false false false.

(** Callbacks of two sync batches that overlap, around a load of the room. *)
Definition retried : list ChatStore.Action :=
  [ChatStore.Initialize connected;
   ChatStore.OnMessage hello; ChatStore.OnMessage reply;
   ChatStore.OnMessage hello;
   ChatStore.LoadMessages connected "!direct:clawchat.io";
   ChatStore.OnMessage reply; ChatStore.OnMessage reply].

(** The store after loading the room whose timeline holds an event twice. *)
Definition replayed_store : ChatStore.ChatState :=
  ChatStore.loadMessages unknown_session ChatStore.initial connected
    "!replayed:clawchat.io".

Definition bot_config : Bot.Config :=
  Bot.mkConfig "@clawbot:clawchat.io" "claude-sonnet-4-20250514".

(** A text message from Alice, and a completion service that is down. *)
Definition question : Bot.Incoming :=
  Bot.mkIncoming (text_event "$q" "@alice:clawchat.io" "What is Rocq?") direct
    (Js.Err (Js.JsError "overloaded")) (Js.Ok tt) (Js.Ok tt).

(** A client without a session. *)
Definition offline : Client.t := Client.new "https://matrix.clawchat.io" None None.

Definition session : AuthSession.t :=
  AuthSession.mk "syt_token" "@alice:clawchat.io" "DEVICE0001"
    "https://matrix.clawchat.io".

Definition login_response : Client.LoginResponse :=
  Client.mkLoginResponse "syt_token" "@alice:clawchat.io" "DEVICE0001".

(** The crypto backend fails to start; everything else succeeds. *)
Definition crypto_broken : Client.InitEnv :=
  Client.mkInitEnv (Js.Err (Js.JsError "WASM unavailable")) (Js.Ok tt) "PREPARED"
    [group; direct] (Js.Ok tt).

End Samples.

(* ===================================================================== *)
(** ** Further operations of the client *)
(* ===================================================================== *)

Module ClientCalls.
Import Js Client.

(** The calls of these operations into the SDK. *)
Inductive Call :=
  | TempRegister (user : string)
  | TempStopClient
  | Initialize (tr : list Client.Effect)
  | RequestDeviceVerification (userId deviceId : string)
  | ExportRoomKeys
  | ImportRoomKeys
  | SendStateEvent (roomId type : string)
  | JoinRoom (roomIdOrAlias : string)
  | Leave (roomId : string).

(** [response] is the outcome of [tempClient.register]. *)
Definition register (c : t) (username password : string)
    (response : result LoginResponse) (env : InitEnv)
  : outcome AuthSession.t * t * list Call :=
  match response with
  | Err e => (Rejected e, c, [TempRegister username; TempStopClient])
  | Ok r =>
      let session :=
        AuthSession.mk (access_token r) (user_id r) (device_id r)
          (homeserver (config c)) in
      match initializeClient c session env with
      | (Resolved _, c', tr) =>
          (Resolved session, c', [TempRegister username; Initialize tr; TempStopClient])
      | (Rejected e, c', tr) =>
          (Rejected e, c', [TempRegister username; Initialize tr; TempStopClient])
      | (Pending, c', tr) => (Pending, c', [TempRegister username; Initialize tr])
      end
  end.

(** [requested] is the outcome of [crypto.requestDeviceVerification]. *)
Definition startVerification (c : t) (userId deviceId : string)
    (requested : result unit) : result unit * list Call :=
  if negb (cryptoEnabled c) then (Err (JsError "E2EE not enabled"), [])
  else
    match client c with
    | None => (Err (JsError "E2EE not enabled"), [])
    | Some mc =>
        match Sdk.getCrypto mc with
        | None => (Err (JsError "Crypto not available"), [])
        | Some _ => (requested, [RequestDeviceVerification userId deviceId])
        end
    end.

(** [exported] is the outcome of [crypto.exportRoomKeys], as the JSON text
    of the keys. *)
Definition exportKeys (c : t) (passphrase : string) (exported : result string)
  : result string * list Call :=
  if negb (cryptoEnabled c) then (Err (JsError "E2EE not enabled"), [])
  else
    match client c with
    | None => (Err (JsError "E2EE not enabled"), [])
    | Some mc =>
        match Sdk.getCrypto mc with
        | None => (Err (JsError "Crypto not available"), [])
        | Some _ => (exported, [ExportRoomKeys])
        end
    end.

(** [parses] tells whether [JSON.parse(keysJson)] succeeds, [imported] is
    the outcome of [crypto.importRoomKeys]. *)
Definition importKeys (c : t) (keysJson passphrase : string)
    (parses : bool) (imported : result unit) : result unit * list Call :=
  if negb (cryptoEnabled c) then (Err (JsError "E2EE not enabled"), [])
  else
    match client c with
    | None => (Err (JsError "E2EE not enabled"), [])
    | Some mc =>
        match Sdk.getCrypto mc with
        | None => (Err (JsError "Crypto not available"), [])
        | Some _ =>
            if parses then (imported, [ImportRoomKeys])
            else (Err (JsError "Unexpected token"), [])
        end
    end.

Definition enableRoomEncryption (c : t) (roomId : string) (sent : result unit)
  : result unit * list Call :=
  match client c with
  | None => (Err not_initialized, [])
  | Some _ => (sent, [SendStateEvent roomId "m.room.encryption"])
  end.

(** [joined] is the outcome of [client.joinRoom], the id of the room. *)
Definition joinRoom (c : t) (roomIdOrAlias : string) (joined : result string)
  : result string * list Call :=
  match client c with
  | None => (Err not_initialized, [])
  | Some _ => (joined, [JoinRoom roomIdOrAlias])
  end.

Definition leaveRoom (c : t) (roomId : string) (left : result unit)
  : result unit * list Call :=
  match client c with
  | None => (Err not_initialized, [])
  | Some _ => (left, [Leave roomId])
  end.

End ClientCalls.

(* ===================================================================== *)
(** ** The client singleton *)
(* ===================================================================== *)

Module Singleton.

(** [getMatrixClient(config)]: the client it returns and the module-level
    [clientInstance] afterwards. *)
Definition getMatrixClient (DEFAULT_HOMESERVER : string)
    (clientInstance : option Client.t)
    (homeserver : option string) (enableE2EE : option bool)
  : Client.t * option Client.t :=
  match clientInstance with
  | Some c => (c, clientInstance)
  | None =>
      let c := Client.new DEFAULT_HOMESERVER homeserver enableE2EE in
      (c, Some c)
  end.

(** [resetMatrixClient()]: [clientInstance] afterwards and the effects of
    the [logout()] it starts. *)
Definition resetMatrixClient (clientInstance : option Client.t)
  : option Client.t * list Client.Effect :=
  match clientInstance with
  | Some c => (None, (Client.logout c).2)
  | None => (None, [])
  end.

End Singleton.

(* ===================================================================== *)
(** ** The auth store ([useAuthStore]) *)
(* ===================================================================== *)

Module AuthStore.
Import Js.

Record AuthState := mk {
  isLoading : bool;
  isAuthenticated : bool;
  session : option AuthSession.t;
  error : option string;
}.

Definition initial : AuthState := mk true false None None.

(** The item kept under [clawchat_session]: a text that parses to a
    session, or one on which [JSON.parse] throws. *)
Inductive Stored :=
  | Session (s : AuthSession.t)
  | Corrupt.

(** The store together with what it works on: the secure store item and
    the client singleton. *)
Record World := mkWorld {
  state : AuthState;
  stored : option Stored;
  clientInstance : option Client.t;
}.

Definition fresh : World := mkWorld initial None None.

Section Actions.

Variable DEFAULT_HOMESERVER : string.

(** [env] answers the calls of [restoreSession]; [deleted] is the outcome
    of [SecureStore.deleteItemAsync] in the [catch] branch. *)
Definition initialize (w : World) (env : Client.InitEnv) (deleted : result unit)
  : outcome unit * World :=
  let st := mk true (isAuthenticated (state w)) (session (state w)) None in
  let failed instance :=
    match deleted with
    | Ok _ =>
        (Resolved tt,
         mkWorld
           (mk false (isAuthenticated st) (session st)
              (Some "Session expired. Please login again."))
           None instance)
    | Err e => (Rejected e, mkWorld st (stored w) instance)
    end in
  match stored w with
  | None =>
      (Resolved tt,
       mkWorld (mk false (isAuthenticated st) (session st) (error st))
         (stored w) (clientInstance w))
  | Some Corrupt => failed (clientInstance w)
  | Some (Session s) =>
      let '(c, instance) :=
        Singleton.getMatrixClient DEFAULT_HOMESERVER (clientInstance w)
          (Some (AuthSession.homeserver s)) None in
      match Client.restoreSession c s env with
      | (Resolved _, c', _) =>
          (Resolved tt,
           mkWorld (mk false true (Some s) (error st)) (stored w) (Some c'))
      | (Rejected _, c', _) => failed (Some c')
      | (Pending, c', _) => (Pending, mkWorld st (stored w) (Some c'))
      end
  end.

(** [response] and [env] answer the calls of [client.login]; [saved] is the
    outcome of [SecureStore.setItemAsync]. *)
Definition login (w : World) (username password : string)
    (response : result Client.LoginResponse) (env : Client.InitEnv)
    (saved : result unit) : outcome unit * World :=
  let st := mk true (isAuthenticated (state w)) (session (state w)) None in
  let failed e stored instance :=
    (Rejected e,
     mkWorld
       (mk false (isAuthenticated st) (session st)
          (Some (or_else (Some (message e))
                   "Login failed. Please check your credentials.")))
       stored instance) in
  let '(c, instance) :=
    Singleton.getMatrixClient DEFAULT_HOMESERVER (clientInstance w) None None in
  match Client.login c username password response env with
  | (Resolved s, c', _) =>
      match saved with
      | Ok _ =>
          (Resolved tt,
           mkWorld (mk false true (Some s) (error st)) (Some (Session s))
             (Some c'))
      | Err e => failed e (stored w) (Some c')
      end
  | (Rejected e, c', _) => failed e (stored w) (Some c')
  | (Pending, c', _) => (Pending, mkWorld st (stored w) (Some c'))
  end.

Definition register (w : World) (username password : string)
    (response : result Client.LoginResponse) (env : Client.InitEnv)
    (saved : result unit) : outcome unit * World :=
  let st := mk true (isAuthenticated (state w)) (session (state w)) None in
  let failed e stored instance :=
    (Rejected e,
     mkWorld
       (mk false (isAuthenticated st) (session st)
          (Some (or_else (Some (message e))
                   "Registration failed. Please try again.")))
       stored instance) in
  let '(c, instance) :=
    Singleton.getMatrixClient DEFAULT_HOMESERVER (clientInstance w) None None in
  match ClientCalls.register c username password response env with
  | (Resolved s, c', _) =>
      match saved with
      | Ok _ =>
          (Resolved tt,
           mkWorld (mk false true (Some s) (error st)) (Some (Session s))
             (Some c'))
      | Err e => failed e (stored w) (Some c')
      end
  | (Rejected e, c', _) => failed e (stored w) (Some c')
  | (Pending, c', _) => (Pending, mkWorld st (stored w) (Some c'))
  end.

(** [deleted] is the outcome of [SecureStore.deleteItemAsync]. *)
Definition logout (w : World) (deleted : result unit) : World :=
  let instance := (Singleton.resetMatrixClient (clientInstance w)).1 in
  mkWorld (mk false false None (error (state w)))
    (match deleted with Ok _ => None | Err _ => stored w end)
    instance.

Definition clearError (w : World) : World :=
  mkWorld
    (mk (isLoading (state w)) (isAuthenticated (state w)) (session (state w)) None)
    (stored w) (clientInstance w).

Inductive Action :=
  | Initialize (env : Client.InitEnv) (deleted : result unit)
  | Login (username password : string) (response : result Client.LoginResponse)
      (env : Client.InitEnv) (saved : result unit)
  | Register (username password : string) (response : result Client.LoginResponse)
      (env : Client.InitEnv) (saved : result unit)
  | Logout (deleted : result unit)
  | ClearError.

Definition step (w : World) (a : Action) : World :=
  match a with
  | Initialize env deleted => (initialize w env deleted).2
  | Login username password response env saved =>
      (login w username password response env saved).2
  | Register username password response env saved =>
      (register w username password response env saved).2
  | Logout deleted => logout w deleted
  | ClearError => clearError w
  end.

Definition run (w : World) (acts : list Action) : World := fold_left step acts w.

End Actions.

(** The app is closed and opened again: the store starts over, the secure
    store keeps its item, the singleton is gone. *)
Definition restart (w : World) : World := mkWorld initial (stored w) None.

(** The store says "authenticated" exactly when it holds a session, and
    then the singleton exists and has a session of its own. *)
Definition consistent (w : World) : Prop :=
  (isAuthenticated (state w) = true <-> is_Some (session (state w))) /\
  (isAuthenticated (state w) = true ->
   exists c mc, clientInstance w = Some c /\ Client.client c = Some mc).

End AuthStore.

(* ===================================================================== *)
(** ** The message handler of the bot with E2EE support *)
(* ===================================================================== *)

Module BotE2EEMessages.
Import Js.

(** Calls to the Matrix client and to the completion service. *)
Inductive Effect :=
  | Decrypt (eventId : string)
  | Call (e : Bot.Effect).

Definition decrypt_notice : string :=
  "âš ï¸ I couldn't decrypt your message. Please make sure I have the correct encryption keys.".

Definition system_prompt (sender : string) (isEncrypted : bool) : string :=
  "You are ClawChat AI, a helpful and friendly assistant powered by Claude. You're chatting with users through a secure messaging app. "
  +:+ (if isEncrypted then "This conversation is end-to-end encrypted. " else "")
  +:+ "Keep responses concise and conversational. The current user's Matrix ID is "
  +:+ sender +:+ ".".

(** [sendMessage(roomId, text, encrypt)]: a failing send is logged and
    swallowed. *)
Definition sendMessage (roomId text : string) (encrypt : bool)
    (sent : result unit) : list Effect :=
  [Call (Bot.SendTextMessage roomId text)].

(** [e2eeEnabled] is the module-level flag set by [main]; [decryption] is the
    outcome of [decryptEventIfNeeded], [completion] that of the completion
    call, [sent] that of the one [sendTextMessage] the call makes. *)
Definition handleMessage (cfg : Bot.Config) (e2eeEnabled : bool)
    (conversations : gmap string (list Bot.Turn))
    (event : Sdk.MatrixEvent) (room : Sdk.Room)
    (decryption : Client.Decryption)
    (completion : result (list Bot.Block)) (sent : result unit)
  : outcome unit * gmap string (list Bot.Turn) * list Effect :=
  (* Ignore our own messages *)
  if String.eqb (Sdk.getSender event) (Bot.matrixUserId cfg)
  then (Resolved tt, conversations, [])
  (* Only handle text messages *)
  else if negb (String.eqb (Sdk.getType event) "m.room.message")
  then (Resolved tt, conversations, [])
  else
    let attempted := Sdk.isEncrypted event && e2eeEnabled in
    let decrypt := if attempted then [Decrypt (Sdk.getId event)] else [] in
    if attempted && bool_decide (Client.thrown decryption <> None) then
      (Resolved tt, conversations,
       decrypt
       ++ sendMessage (Sdk.roomId room) decrypt_notice
            (Sdk.hasEncryptionStateEvent room) sent)
    else
      let content :=
        if attempted then Client.content_after decryption
        else Sdk.getContent event in
      if negb (String.eqb (Sdk.msgtype content) "m.text")
      then (Resolved tt, conversations, decrypt)
      else
        let roomId := Sdk.roomId room in
        let userMessage := Sdk.body content in
        let sender := Sdk.getSender event in
        let isEncrypted :=
          Sdk.isEncrypted event || Sdk.hasEncryptionStateEvent room in
        let pushed :=
          default [] (conversations !! roomId) ++ [Bot.mkTurn Bot.user userMessage] in
        let conversations1 :=
          match conversations !! roomId with
          | Some _ => <[roomId := pushed]> conversations
          | None => conversations
          end in
        let history :=
          if Nat.ltb 20 (length pushed) then slice_last 20 pushed else pushed in
        let request :=
          [Call (Bot.SendTyping roomId true 30000);
           Call (Bot.MessagesCreate (Bot.model cfg) 4096
                   (system_prompt sender isEncrypted) history)] in
        match completion with
        | Err _ =>
            (Resolved tt, conversations1,
             decrypt ++ request ++ [Call (Bot.SendTyping roomId false 0)]
             ++ sendMessage roomId Bot.apology isEncrypted sent)
        | Ok blocks =>
            let assistantMessage := Bot.response_text blocks in
            let conversations2 :=
              <[roomId := history
                          ++ [Bot.mkTurn Bot.assistant (Some assistantMessage)]]>
                conversations1 in
            (Resolved tt, conversations2,
             decrypt ++ request ++ [Call (Bot.SendTyping roomId false 0)]
             ++ sendMessage roomId assistantMessage isEncrypted sent)
        end.

(** The histories handed to the completion service by a trace. *)
Definition requests (tr : list Effect) : list (list Bot.Turn) :=
  omap (fun e => match e with
                 | Call (Bot.MessagesCreate _ _ _ messages) => Some messages
                 | _ => None
                 end) tr.

End BotE2EEMessages.

(* ===================================================================== *)
(** ** The search store ([useSearchStore]) *)
(* ===================================================================== *)

Module SearchStore.
Import Js JsStrings.

Record SearchResult := mkResult {
  message : Message.t;
  roomId : string;
  roomName : string;
  highlights : list string;
}.

Record SearchState := mk {
  query : string;
  results : list SearchResult;
  isSearching : bool;
  hasSearched : bool;
  error : option string;
}.

Definition initial : SearchState := mk EmptyString [] false false None.

(** The context around the match at [index]: twenty characters on each
    side, with dots where the body goes on. *)
Definition highlight (body : string) (index queryLength : nat) : string :=
  let contextStart := index - 20 in
  let contextEnd := Nat.min (String.length body) (index + queryLength + 20) in
  let text := slice contextStart contextEnd body in
  let text := if Nat.ltb 0 contextStart then "..." +:+ text else text in
  if Nat.ltb contextEnd (String.length body) then text +:+ "..." else text.

(** The [while (true)] loop over the matches; [fuel] bounds the number of
    iterations. *)
Fixpoint highlights_from (fuel : nat) (body bodyLower trimmedQuery : string)
    (startIndex : nat) : list string :=
  match fuel with
  | O => []
  | S fuel' =>
      match indexOf trimmedQuery startIndex bodyLower with
      | None => []
      | Some index =>
          highlight body index (String.length trimmedQuery)
          :: highlights_from fuel' body bodyLower trimmedQuery (index + 1)
      end
  end.

(** One more iteration than the lowered body has characters is enough for
    the loop to end by itself. *)
Definition find_highlights (body bodyLower trimmedQuery : string) : list string :=
  highlights_from (S (String.length bodyLower)) body bodyLower trimmedQuery 0.

(** [results.sort((a, b) => b.message.timestamp - a.message.timestamp)]:
    the sort is stable. *)
Fixpoint insert_result (r : SearchResult) (l : list SearchResult)
  : list SearchResult :=
  match l with
  | [] => [r]
  | r' :: l' =>
      if Z.ltb (Message.timestamp (message r)) (Message.timestamp (message r'))
      then r' :: insert_result r l'
      else r :: l
  end.

Definition sort_results (l : list SearchResult) : list SearchResult :=
  foldr insert_result [] l.

(** The order of the list of results: no older message before a newer one. *)
Definition newest_first (a b : SearchResult) : Prop :=
  (Message.timestamp (message b) <= Message.timestamp (message a))%Z.

Section Actions.

Variable decryptEventIfNeeded : Sdk.MatrixEvent -> Client.Decryption.

(** [String.prototype.trim] and [String.prototype.toLowerCase]. *)
Variables trim toLowerCase : string -> string.

(** The results found in one message, none or one. *)
Definition match_message (trimmedQuery : string) (room : Room.t)
    (message : Message.t) : list SearchResult :=
  let bodyLower := toLowerCase (Message.body message) in
  if includes trimmedQuery bodyLower then
    [mkResult message (Room.id room) (Room.name room)
       (find_highlights (Message.body message) bodyLower trimmedQuery)]
  else [].

(** The loop over the rooms; it stops at the first [getMessages] that
    throws. *)
Fixpoint search_rooms (c : Client.t) (trimmedQuery : string)
    (rooms : list Room.t) : result (list SearchResult) :=
  match rooms with
  | [] => Ok []
  | room :: rooms' =>
      match (Client.getMessages decryptEventIfNeeded c (Room.id room) 100).1 with
      | Err e => Err e
      | Ok messages =>
          match search_rooms c trimmedQuery rooms' with
          | Err e => Err e
          | Ok found =>
              Ok (flat_map (match_message trimmedQuery room) messages ++ found)
          end
      end
  end.

Definition search (st : SearchState) (c : Client.t) (query : string)
  : SearchState :=
  let trimmedQuery := toLowerCase (trim query) in
  if Nat.ltb (String.length trimmedQuery) 2 then st
  else
    match search_rooms c trimmedQuery (Client.getRooms c) with
    | Ok found => mk (SearchStore.query st) (sort_results found) false true None
    | Err e =>
        mk (SearchStore.query st) (results st) false true
          (Some (or_else (Some (Js.message e)) "Search failed"))
    end.

(** What [search] records about a message it lists. *)
Definition well_formed_result (trimmedQuery : string) (r : SearchResult) : Prop :=
  includes trimmedQuery (toLowerCase (Message.body (message r))) = true /\
  highlights r
  = find_highlights (Message.body (message r))
      (toLowerCase (Message.body (message r))) trimmedQuery /\
  highlights r <> [] /\
  roomId r = Message.roomId (message r).

End Actions.

End SearchStore.

(* ===================================================================== *)
(** ** Further concrete values *)
(* ===================================================================== *)

Module MoreSamples.

(** An encrypted message event from the given sender. *)
Definition sealed_from (sender : string) : Sdk.MatrixEvent :=
  Sdk.mkEvent "$sealed" "m.room.message" sender 1700000000000 true None
    (Sdk.mkContent None "").

(** The client starts and the first sync is complete; the crypto backend
    starts, too. *)
Definition synced : Client.InitEnv :=
  Client.mkInitEnv
    (Js.Ok (Sdk.mkCrypto
              (Sdk.mkOwnKeys "ed25519_DEVICE0001" "curve25519_DEVICE0001") ∅))
    (Js.Ok tt) "PREPARED" [Samples.group; Samples.direct] (Js.Ok tt).

End MoreSamples.

(* ===================================================================== *)
(** ** Properties of the Buffer conversions *)
(* ===================================================================== *)

Module EncodingFacts.
Import Encoding.
Local Open Scope Z_scope.

(** Unfold the range tests into linear arithmetic. *)
Ltac ranges :=
  unfold is_byte, is_scalar, is_code_unit, is_high, is_low, is_cont,
    second_ok3, second_ok4 in *;
  repeat match goal with
    | H : _ && _ = true |- _ => apply andb_prop in H; destruct H
    | H : _ || _ = true |- _ => apply orb_prop in H; destruct H
    | H : negb _ = true |- _ => apply negb_true_iff in H
    | H : _ && _ = false |- _ => apply andb_false_iff in H; destruct H
    end.

Lemma list_ind3 {A} (P : list A -> Prop) :
  P [] -> (forall a, P [a]) -> (forall a b, P [a; b]) ->
  (forall a b c l, P l -> P (a :: b :: c :: l)) ->
  forall l, P l.
Proof.
  intros H0 H1 H2 H3.
  assert (Hall : forall l, P l /\ (forall a, P (a :: l)) /\ (forall a b, P (a :: b :: l))).
  { induction l as [|x l (IH0 & IH1 & IH2)]; [by auto|].
    split; [apply IH1|]. split; [intros a; apply IH2|].
    intros a b. by apply H3. }
  intros l. apply Hall.
Qed.

Lemma b64_index_char v : 0 <= v < 64 -> b64_index (b64_char v) = Some v.
Proof.
  intros Hv. unfold b64_char.
  rewrite <- (Z2Nat.id v) at 2 by lia.
  assert (Hn : (Z.to_nat v < 64)%nat) by lia.
  generalize dependent (Z.to_nat v). clear Hv. intros n Hn.
  do 64 (destruct n as [|n]; [reflexivity|]). lia.
Qed.

Lemma b64_index_pad : b64_index "="%char = None.
Proof. reflexivity. Qed.

Lemma b64_values_cons v s :
  0 <= v < 64 -> b64_values (String (b64_char v) s) = v :: b64_values s.
Proof. intros Hv. cbn [b64_values]. by rewrite b64_index_char. Qed.

Lemma b64_roundtrip bs :
  forallb is_byte bs = true -> b64_decode (b64_encode bs) = bs.
Proof.
  unfold b64_decode.
  induction bs as [|a|a b|a b c l IH] using list_ind3; intros Hb.
  - reflexivity.
  - cbn in Hb. ranges. cbn [b64_encode].
    rewrite !b64_values_cons by (Z.to_euclidean_division_equations; lia).
    cbn. f_equal. Z.to_euclidean_division_equations; lia.
  - cbn in Hb. ranges. cbn [b64_encode].
    rewrite !b64_values_cons by (Z.to_euclidean_division_equations; lia).
    cbn. f_equal; [|f_equal]; Z.to_euclidean_division_equations; lia.
  - cbn [forallb] in Hb. apply andb_prop in Hb as [Ha Hb].
    apply andb_prop in Hb as [Hb Hc]. apply andb_prop in Hc as [Hc Hl].
    ranges. cbn [b64_encode].
    rewrite !b64_values_cons by (Z.to_euclidean_division_equations; lia).
    cbn [b64_bytes]. rewrite IH by done.
    f_equal; [|f_equal; [|f_equal]]; Z.to_euclidean_division_equations; lia.
Qed.

Ltac zbool :=
  repeat match goal with
    | H : (_ <? _) = true |- _ => apply Z.ltb_lt in H
    | H : (_ <? _) = false |- _ => apply Z.ltb_ge in H
    | H : (_ <=? _) = true |- _ => apply Z.leb_le in H
    | H : (_ <=? _) = false |- _ => apply Z.leb_gt in H
    | H : (_ =? _) = true |- _ => apply Z.eqb_eq in H
    | H : (_ =? _) = false |- _ => apply Z.eqb_neq in H
    | |- _ && _ = true => apply andb_true_intro; split
    | |- (_ <? _) = true => apply Z.ltb_lt
    | |- (_ <=? _) = true => apply Z.leb_le
    | |- true = true => reflexivity
    end.

Ltac divlia := Z.to_euclidean_division_equations; lia.

Lemma utf8_encode_bytes cp :
  is_scalar cp = true -> forallb is_byte (utf8_encode_cp cp) = true.
Proof.
  intros Hs. unfold utf8_encode_cp.
  repeat case_match; cbn [forallb]; ranges; unfold is_byte; zbool; divlia.
Qed.

Lemma utf8_decode_encode cp bs :
  is_scalar cp = true ->
  utf8_decode (utf8_encode_cp cp ++ bs) = cp :: utf8_decode bs.
Proof.
  intros Hs. unfold utf8_encode_cp.
  destruct (cp <? 0x80) eqn:H1.
  { cbn [app utf8_decode]. by rewrite H1. }
  destruct (cp <? 0x800) eqn:H2.
  { apply Z.ltb_ge in H1. apply Z.ltb_lt in H2.
    cbn [app utf8_decode].
    replace (0xC0 + cp / 0x40 <? 0x80) with false
      by (symmetry; apply Z.ltb_ge; Z.to_euclidean_division_equations; lia).
    replace ((0xC2 <=? 0xC0 + cp / 0x40) && (0xC0 + cp / 0x40 <=? 0xDF)) with true
      by (symmetry; apply andb_true_intro; split; apply Z.leb_le;
          Z.to_euclidean_division_equations; lia).
    replace (is_cont (0x80 + cp mod 0x40)) with true
      by (symmetry; apply andb_true_intro; split; apply Z.leb_le;
          Z.to_euclidean_division_equations; lia).
    f_equal. Z.to_euclidean_division_equations; lia. }
  destruct (cp <? 0x10000) eqn:H3.
  { apply Z.ltb_ge in H1, H2. apply Z.ltb_lt in H3. ranges; try lia.
    all: cbn [app utf8_decode].
    all: replace (0xE0 + cp / 0x1000 <? 0x80) with false
      by (symmetry; apply Z.ltb_ge; Z.to_euclidean_division_equations; lia).
    all: replace ((0xC2 <=? 0xE0 + cp / 0x1000) && (0xE0 + cp / 0x1000 <=? 0xDF))
      with false
      by (symmetry; apply andb_false_iff; right; apply Z.leb_gt;
          Z.to_euclidean_division_equations; lia).
    all: replace ((0xE0 <=? 0xE0 + cp / 0x1000) && (0xE0 + cp / 0x1000 <=? 0xEF))
      with true
      by (symmetry; apply andb_true_intro; split; apply Z.leb_le;
          Z.to_euclidean_division_equations; lia).
    all: replace (second_ok3 (0xE0 + cp / 0x1000) (0x80 + (cp / 0x40) mod 0x40))
      with true
      by (symmetry; unfold second_ok3; apply andb_true_intro; split;
          apply Z.leb_le; repeat case_match;
          repeat match goal with
            | H : (_ =? _) = true |- _ => apply Z.eqb_eq in H
            | H : (_ =? _) = false |- _ => apply Z.eqb_neq in H
            end; Z.to_euclidean_division_equations; lia).
    all: replace (is_cont (0x80 + cp mod 0x40)) with true
      by (symmetry; apply andb_true_intro; split; apply Z.leb_le;
          Z.to_euclidean_division_equations; lia).
    all: f_equal; Z.to_euclidean_division_equations; lia. }
  apply Z.ltb_ge in H1, H2, H3. ranges; try lia.
  cbn [app utf8_decode].
  replace (0xF0 + cp / 0x40000 <? 0x80) with false
    by (symmetry; apply Z.ltb_ge; Z.to_euclidean_division_equations; lia).
  replace ((0xC2 <=? 0xF0 + cp / 0x40000) && (0xF0 + cp / 0x40000 <=? 0xDF))
    with false
    by (symmetry; apply andb_false_iff; right; apply Z.leb_gt;
        Z.to_euclidean_division_equations; lia).
  replace ((0xE0 <=? 0xF0 + cp / 0x40000) && (0xF0 + cp / 0x40000 <=? 0xEF))
    with false
    by (symmetry; apply andb_false_iff; right; apply Z.leb_gt;
        Z.to_euclidean_division_equations; lia).
  replace ((0xF0 <=? 0xF0 + cp / 0x40000) && (0xF0 + cp / 0x40000 <=? 0xF4))
    with true
    by (symmetry; apply andb_true_intro; split; apply Z.leb_le;
        Z.to_euclidean_division_equations; lia).
  replace (second_ok4 (0xF0 + cp / 0x40000) (0x80 + (cp / 0x1000) mod 0x40))
    with true
    by (symmetry; unfold second_ok4; apply andb_true_intro; split;
        apply Z.leb_le; repeat case_match;
        repeat match goal with
          | H : (_ =? _) = true |- _ => apply Z.eqb_eq in H
          | H : (_ =? _) = false |- _ => apply Z.eqb_neq in H
          end; Z.to_euclidean_division_equations; lia).
  replace (is_cont (0x80 + (cp / 0x40) mod 0x40)) with true
    by (symmetry; apply andb_true_intro; split; apply Z.leb_le;
        Z.to_euclidean_division_equations; lia).
  replace (is_cont (0x80 + cp mod 0x40)) with true
    by (symmetry; apply andb_true_intro; split; apply Z.leb_le;
        Z.to_euclidean_division_equations; lia).
  f_equal. Z.to_euclidean_division_equations; lia.
Qed.

Lemma utf8_decode_flat_map cps :
  forallb is_scalar cps = true ->
  utf8_decode (flat_map utf8_encode_cp cps) = cps.
Proof.
  induction cps as [|cp cps IH]; [done|].
  cbn [forallb flat_map]. intros [Hcp Hcps]%andb_prop.
  rewrite utf8_decode_encode by done. by rewrite IH.
Qed.

Lemma utf8_encode_flat_map_bytes cps :
  forallb is_scalar cps = true ->
  forallb is_byte (flat_map utf8_encode_cp cps) = true.
Proof.
  induction cps as [|cp cps IH]; [done|].
  cbn [forallb flat_map]. intros [Hcp Hcps]%andb_prop.
  rewrite forallb_app, utf8_encode_bytes, IH; done.
Qed.

(** On a well-formed string the code points are scalar values and the
    UTF-16 encoder gives the code units back. *)
Lemma utf16_well_formed s :
  well_formed s = true ->
  forallb is_scalar (utf16_decode s) = true /\
  flat_map utf16_encode_cp (utf16_decode s) = s.
Proof.
  remember (length s) as n eqn:Hn.
  revert s Hn. induction n as [n IH] using lt_wf_ind. intros s -> Hwf.
  destruct s as [|u rest]; [done|].
  cbn [well_formed] in Hwf. apply andb_prop in Hwf as [Hu Hwf].
  cbn [utf16_decode]. destruct (is_high u) eqn:Hhi.
  - destruct rest as [|v rest']; [done|].
    apply andb_prop in Hwf as [Hv Hwf]. rewrite Hv.
    destruct (IH (length rest')) with (s := rest') as [IH1 IH2];
      [cbn; lia|done|done|].
    cbn [forallb flat_map]. rewrite IH1, IH2. ranges. split.
    + unfold is_scalar. rewrite andb_true_r. apply orb_true_intro. right.
      zbool; lia.
    + unfold utf16_encode_cp. case_match; zbool; [lia|].
      cbn [app]. f_equal; [|f_equal]; divlia.
  - apply andb_prop in Hwf as [Hlo Hwf]. apply negb_true_iff in Hlo.
    rewrite Hlo.
    destruct (IH (length rest)) with (s := rest) as [IH1 IH2];
      [cbn; lia|done|done|].
    cbn [forallb flat_map]. rewrite IH1, IH2. ranges; zbool. 
    all: split; [rewrite andb_true_r; unfold is_scalar|
                 unfold utf16_encode_cp; case_match; zbool; [done|lia]].
    all: destruct (Z_lt_dec u 0xD800);
      [apply orb_true_intro; left|apply orb_true_intro; right]; zbool; lia.
Qed.

(** The chain of conversions applied by the placeholder cipher. *)
Lemma buffer_roundtrip s :
  well_formed s = true ->
  buffer_to_utf8 (b64_decode (b64_encode (buffer_from s))) = s.
Proof.
  intros [Hsc Hs]%utf16_well_formed. unfold buffer_to_utf8, buffer_from.
  rewrite b64_roundtrip by by apply utf8_encode_flat_map_bytes.
  by rewrite utf8_decode_flat_map.
Qed.

End EncodingFacts.

(* ===================================================================== *)
(** ** Properties of the E2EE manager *)
(* ===================================================================== *)

Module CryptoManagerFacts.
Import Js Encoding CryptoManager.

Lemma set_add_elem x s : x ∈ set_add x s.
Proof.
  unfold set_add. case_bool_decide; [done|]. apply elem_of_app. right.
  by apply list_elem_of_singleton.
Qed.

Lemma set_add_mono x y s : y ∈ s -> y ∈ set_add x s.
Proof.
  intros Hy. unfold set_add. case_bool_decide; [done|].
  apply elem_of_app. by left.
Qed.

Lemma set_add_idem x s : set_add x (set_add x s) = set_add x s.
Proof.
  unfold set_add at 1. by rewrite bool_decide_eq_true_2 by apply set_add_elem.
Qed.

Lemma createMegolmSession_truthy roomId now :
  truthy (createMegolmSession roomId now) = true.
Proof. reflexivity. Qed.

(** What a call of [encryptMessage] does once the room has a session. *)
Lemma encryptMessage_cached m keys roomId sessionId content recipientKeys now :
  deviceKeys m = Some keys ->
  sessionKeys m !! roomId = Some sessionId ->
  truthy sessionId = true ->
  encryptMessage m roomId content recipientKeys now =
    (Ok (EncryptedPayload.mk "m.megolm.v1.aes-sha2" (DeviceKeys.curve25519 keys)
           (b64_encode (buffer_from content)) sessionId (DeviceKeys.deviceId keys)),
     m, [Ciphertext roomId sessionId (b64_encode (buffer_from content))]).
Proof.
  intros Hk Hs Ht. unfold encryptMessage. rewrite Hk, Hs. cbn. by rewrite Ht.
Qed.

(** What the first call for a room does. *)
Lemma encryptMessage_fresh m keys roomId content recipientKeys now :
  deviceKeys m = Some keys ->
  sessionKeys m !! roomId = None ->
  encryptMessage m roomId content recipientKeys now =
    (Ok (EncryptedPayload.mk "m.megolm.v1.aes-sha2" (DeviceKeys.curve25519 keys)
           (b64_encode (buffer_from content)) (createMegolmSession roomId now)
           (DeviceKeys.deviceId keys)),
     mk (Some keys) (<[roomId := createMegolmSession roomId now]> (sessionKeys m))
        (verifiedDevices m),
     [ShareSessionKey roomId (createMegolmSession roomId now) recipientKeys;
      Ciphertext roomId (createMegolmSession roomId now)
        (b64_encode (buffer_from content))]).
Proof. intros Hk Hs. unfold encryptMessage. by rewrite Hk, Hs. Qed.

(** A room session, once established, survives every operation but a
    restore from backup. *)
Lemma step_established roomId sessionId s op :
  is_import op = false ->
  established roomId sessionId (fst s) ->
  established roomId sessionId (fst (step s op)).
Proof.
  destruct s as [m st]. intros Hop (Hk & Hs & Ht). cbn [fst] in *.
  destruct op as [draw|u d|r content ks now|data]; [| | |done]; cbn [step].
  - unfold initialize. destruct (crypto_store st); cbn; by repeat split.
  - by repeat split.
  - destruct Hk as [keys Hk]. unfold encryptMessage. rewrite Hk.
    destruct (truthy_opt (sessionKeys m !! r)) eqn:Hr; cbn.
    + by repeat split.
    + repeat split; [done| |done]. cbn.
      destruct (decide (r = roomId)) as [->|Hne].
      * rewrite Hs in Hr. cbn in Hr. congruence.
      * by rewrite lookup_insert_ne.
Qed.

Lemma run_established roomId sessionId ops s :
  forallb (fun op => negb (is_import op)) ops = true ->
  established roomId sessionId (fst s) ->
  established roomId sessionId (fst (run s ops)).
Proof.
  revert s. induction ops as [|op ops IH]; intros s Hops Hs; [done|].
  cbn in Hops. apply andb_prop in Hops as [Hop Hops].
  apply negb_true_iff in Hop. cbn [run fold_left].
  apply IH; [done|]. by apply step_established.
Qed.

Lemma step_verified s op key :
  is_import op = false ->
  key ∈ verifiedDevices (fst s) -> key ∈ verifiedDevices (fst (step s op)).
Proof.
  destruct s as [m st]. intros Hop Hin. cbn [fst] in *.
  destruct op as [draw|u d|r content ks now|data]; [| | |done]; cbn [step].
  - unfold initialize. by destruct (crypto_store st).
  - cbn. by apply set_add_mono.
  - unfold encryptMessage. destruct (deviceKeys m); [|done].
    by destruct (truthy_opt (sessionKeys m !! r)).
Qed.

Lemma run_verified ops s key :
  forallb (fun op => negb (is_import op)) ops = true ->
  key ∈ verifiedDevices (fst s) -> key ∈ verifiedDevices (fst (run s ops)).
Proof.
  revert s. induction ops as [|op ops IH]; intros s Hops Hs; [done|].
  cbn in Hops. apply andb_prop in Hops as [Hop Hops].
  apply negb_true_iff in Hop. cbn [run fold_left].
  apply IH; [done|]. by apply step_verified.
Qed.

Lemma isDeviceVerified_elem m userId deviceId :
  isDeviceVerified m userId deviceId = true <->
  device_key userId deviceId ∈ verifiedDevices m.
Proof. unfold isDeviceVerified, set_has. apply bool_decide_eq_true. Qed.

(** C10, as amended.  For every room, every recipient list and every manager
    whose device keys are initialised, decrypting the payload produced by
    [encryptMessage] gives the content back, provided the content is a
    well-formed UTF-16 string (no unpaired surrogate). *)
Theorem decryptMessage_encryptMessage
    (m : t) (keys : DeviceKeys.t) (roomId : string) (content : jsstring)
    (recipientKeys : list DeviceKeys.t) (now : N) :
  deviceKeys m = Some keys ->
  well_formed content = true ->
  exists payload,
    (encryptMessage m roomId content recipientKeys now).1.1 = Ok payload /\
    decryptMessage payload = content.
Proof.
  intros Hk Hwf. unfold encryptMessage. rewrite Hk.
  destruct (truthy_opt (sessionKeys m !! roomId)); cbn;
    (eexists; split; [reflexivity|]);
    unfold decryptMessage; cbn; by apply EncodingFacts.buffer_roundtrip.
Qed.

Lemma decryptMessage_encryptMessage_witness :
  deviceKeys Samples.manager = Some Samples.keys /\
  well_formed Samples.greeting = true /\
  exists payload,
    (encryptMessage Samples.manager Samples.room Samples.greeting
       [Samples.bot_keys] Samples.started_at).1.1 = Ok payload /\
    decryptMessage payload = Samples.greeting.
Proof.
  split; [reflexivity|]. split; [reflexivity|].
  apply (decryptMessage_encryptMessage _ Samples.keys); reflexivity.
Defined.

(** C10 fails as stated: a content with an unpaired surrogate is encoded as
    U+FFFD by [Buffer.from], so decryption returns another string. *)
Lemma decryptMessage_loses_lone_surrogate :
  deviceKeys Samples.manager = Some Samples.keys /\
  exists payload,
    (encryptMessage Samples.manager Samples.room Samples.lone_surrogate
       [Samples.bot_keys] Samples.started_at).1.1 = Ok payload /\
    EncryptedPayload.ciphertext payload = "77+9" /\
    decryptMessage payload = [0xFFFD%Z] /\
    decryptMessage payload <> Samples.lone_surrogate.
Proof.
  split; [reflexivity|]. eexists. split; [reflexivity|].
  split; [reflexivity|]. split; [reflexivity|]. discriminate.
Qed.

(** C2, as amended.  When the device keys are initialised and the room has
    no session, [encryptMessage] performs exactly one key-share call, with
    the supplied recipient keys, before the ciphertext is computed; after
    that call, and whatever operations other than a restore from backup
    follow, every [encryptMessage] for the room reuses the session id and
    shares no key. *)
Theorem encryptMessage_shares_key_once
    (m : t) (st : SecureStore) (keys : DeviceKeys.t) (roomId : string)
    (content : jsstring) (recipientKeys : list DeviceKeys.t) (now : N)
    (ops : list Op)
    (content' : jsstring) (recipientKeys' : list DeviceKeys.t) (now' : N) :
  deviceKeys m = Some keys ->
  sessionKeys m !! roomId = None ->
  forallb (fun op => negb (is_import op)) ops = true ->
  let sessionId := createMegolmSession roomId now in
  let first := encryptMessage m roomId content recipientKeys now in
  let m' := (run (first.1.2, st) ops).1 in
  let later := encryptMessage m' roomId content' recipientKeys' now' in
  first.2 =
    [ShareSessionKey roomId sessionId recipientKeys;
     Ciphertext roomId sessionId (b64_encode (buffer_from content))] /\
  shares first.2 = [ShareSessionKey roomId sessionId recipientKeys] /\
  (exists payload,
     first.1.1 = Ok payload /\ EncryptedPayload.sessionId payload = sessionId) /\
  later.2 = [Ciphertext roomId sessionId (b64_encode (buffer_from content'))] /\
  shares later.2 = [] /\
  (exists payload,
     later.1.1 = Ok payload /\ EncryptedPayload.sessionId payload = sessionId) /\
  later.1.2 = m'.
Proof.
  intros Hk Hs Hops sessionId first m' later.
  assert (Hfirst := encryptMessage_fresh m keys roomId content recipientKeys now Hk Hs).
  fold first sessionId in Hfirst.
  assert (Hest : established roomId sessionId m').
  { apply run_established; [done|]. rewrite Hfirst.
    split; [by eexists|]. split; [apply lookup_insert_eq|done]. }
  destruct Hest as ([keys' Hk'] & Hs' & Ht').
  assert (Hlater := encryptMessage_cached m' keys' roomId sessionId content'
                      recipientKeys' now' Hk' Hs' Ht').
  fold later in Hlater. rewrite Hfirst, Hlater. cbn.
  repeat split; eauto.
Qed.

Lemma encryptMessage_shares_key_once_witness :
  deviceKeys Samples.manager = Some Samples.keys /\
  sessionKeys Samples.manager !! Samples.room = None /\
  forallb (fun op => negb (is_import op)) Samples.other_ops = true /\
  (encryptMessage Samples.manager Samples.room Samples.greeting
     [Samples.bot_keys] Samples.started_at).2
  = [ShareSessionKey Samples.room "session_!room:clawchat.io_1700000000000"
       [Samples.bot_keys];
     Ciphertext Samples.room "session_!room:clawchat.io_1700000000000"
       "aGnigqzwn5iA"].
Proof.
  do 3 (split; [reflexivity|]).
  refine (proj1 (encryptMessage_shares_key_once Samples.manager
                   Samples.empty_store Samples.keys Samples.room
                   Samples.greeting [Samples.bot_keys] Samples.started_at
                   Samples.other_ops Samples.greeting [] 1700000000001
                   _ _ _)); reflexivity.
Defined.

(** C2 fails as stated: before [initialize] the call throws, and no key is
    shared although the room has no session. *)
Lemma encryptMessage_uninitialized_shares_nothing :
  sessionKeys new !! Samples.room = None /\
  encryptMessage new Samples.room Samples.greeting [Samples.bot_keys]
    Samples.started_at
  = (Err (JsError "Crypto not initialized"), new, []).
Proof. split; reflexivity. Qed.

Lemma client_verifyDevice_twice (c : Client.t) (userId deviceId : string) :
  Client.verifyDevice (Client.verifyDevice c userId deviceId).1.2 userId deviceId
  = Client.verifyDevice c userId deviceId.
Proof.
  unfold Client.verifyDevice.
  destruct (Client.client c) as [mc|] eqn:Hc; cbn; [|by rewrite Hc].
  destruct (Sdk.isCryptoEnabled mc) eqn:He; cbn; [|by rewrite Hc, He].
  destruct (Sdk.getCrypto mc) as [crypto|] eqn:Hg; cbn; [|by rewrite Hc, He, Hg].
  rewrite He. cbn. unfold Client.with_client, Client.with_crypto,
    Sdk.setDeviceVerified. cbn.
  by rewrite (assoc_L (∪)), union_idemp_L.
Qed.

(** C5, as amended.  [verifyDevice] is idempotent, in the manager and in
    the client, and a verified device stays verified through every sequence
    of operations of the manager that contains no restore from backup;
    [importKeys] replaces the verified set by the one of the backup. *)
Theorem verifyDevice_idempotent_monotone
    (m : t) (st : SecureStore) (userId deviceId : string) (ops : list Op)
    (data : Backup) (c : Client.t) :
  forallb (fun op => negb (is_import op)) ops = true ->
  let once := verifyDevice m st userId deviceId in
  verifyDevice once.1 once.2 userId deviceId = once /\
  isDeviceVerified once.1 userId deviceId = true /\
  isDeviceVerified (run once ops).1 userId deviceId = true /\
  (forall u d,
     isDeviceVerified m u d = true ->
     isDeviceVerified (run (m, st) ops).1 u d = true) /\
  verifiedDevices (importKeys m st data).1
  = set_of_array (backup_verifiedDevices data) /\
  Client.verifyDevice (Client.verifyDevice c userId deviceId).1.2 userId deviceId
  = Client.verifyDevice c userId deviceId.
Proof.
  intros Hops once. unfold once, verifyDevice. cbn -[set_add run].
  split; [by rewrite set_add_idem|].
  split; [apply isDeviceVerified_elem; cbn -[set_add]; apply set_add_elem|].
  split; [|split; [|split; [done|apply client_verifyDevice_twice]]].
  - apply isDeviceVerified_elem, run_verified; [done|]. cbn -[set_add].
    apply set_add_elem.
  - intros u d Hv. apply isDeviceVerified_elem, run_verified; [done|].
    by apply isDeviceVerified_elem.
Qed.

Lemma verifyDevice_idempotent_monotone_witness :
  forallb (fun op => negb (is_import op)) Samples.other_ops = true /\
  verifyDevice Samples.verified_once.1 Samples.verified_once.2
    "@clawbot:clawchat.io" "CLAWBOT001" = Samples.verified_once /\
  isDeviceVerified (run Samples.verified_once Samples.other_ops).1
    "@clawbot:clawchat.io" "CLAWBOT001" = true.
Proof.
  split; [reflexivity|].
  destruct (verifyDevice_idempotent_monotone new Samples.empty_store
              "@clawbot:clawchat.io" "CLAWBOT001" Samples.other_ops
              Samples.early_backup Samples.connected)
    as (Hidem & _ & Hkept & _); [reflexivity|].
  split; [exact Hidem|exact Hkept].
Defined.

(** C5 fails as stated: [importKeys] is an operation of the manager, and a
    backup that does not list the device un-marks it. *)
Lemma importKeys_unmarks_device :
  isDeviceVerified Samples.verified_once.1 "@clawbot:clawchat.io" "CLAWBOT001"
  = true /\
  isDeviceVerified
    (importKeys Samples.verified_once.1 Samples.verified_once.2
       Samples.early_backup).1
    "@clawbot:clawchat.io" "CLAWBOT001" = false.
Proof. split; reflexivity. Qed.

End CryptoManagerFacts.

(* ===================================================================== *)
(** ** Properties of the client facade *)
(* ===================================================================== *)

Module ClientFacts.
Import Js Client.

Lemma find_first {A} (p : A -> bool) (pre : list A) (x : A) (post : list A) :
  forallb (fun y => negb (p y)) pre = true -> p x = true ->
  find p (pre ++ x :: post) = Some x.
Proof.
  induction pre as [|y pre IH]; cbn; intros Hpre Hx; [by rewrite Hx|].
  apply andb_prop in Hpre as [Hy Hpre]. apply negb_true_iff in Hy.
  rewrite Hy. by apply IH.
Qed.

Lemma find_split {A} (p : A -> bool) (l : list A) (x : A) :
  In x l -> p x = true ->
  exists pre y post,
    l = pre ++ y :: post /\ forallb (fun z => negb (p z)) pre = true /\
    p y = true.
Proof.
  induction l as [|z l IH]; [done|]. intros Hin Hx.
  destruct (p z) eqn:Hz.
  - exists [], z, l. by repeat split.
  - destruct Hin as [->|Hin]; [congruence|].
    destruct (IH Hin Hx) as (pre & y & post & -> & Hpre & Hy).
    exists (z :: pre), y, post. repeat split; [|done]. cbn. by rewrite Hz.
Qed.

(** With a matching room in the list, the room found is the first match,
    nothing is sent and the client is unchanged. *)
Lemma getOrCreateBotRoom_existing c mc botUserId enableEncryption created
    pre room post :
  client c = Some mc ->
  Sdk.getRooms mc = pre ++ room :: post ->
  forallb (fun r => negb (is_direct_with botUserId r)) pre = true ->
  is_direct_with botUserId room = true ->
  getOrCreateBotRoom c botUserId enableEncryption created
  = (Ok (Sdk.roomId room), c, []).
Proof.
  intros Hc Hrooms Hpre Hroom. unfold getOrCreateBotRoom.
  by rewrite Hc, Hrooms, find_first.
Qed.

(** C3.  When the client already holds a room with exactly two joined
    members, one of them the peer, two successive calls of
    [getOrCreateBotRoom] for that peer return the id of the first such room
    in the order of [getRooms]; neither call creates a room, and the client
    is left as it was. *)
Theorem getOrCreateBotRoom_idempotent
    (c : t) (mc : Sdk.MatrixClient) (botUserId : string) (existing : Sdk.Room)
    (enableEncryption enableEncryption' : bool) (created created' : result string) :
  client c = Some mc ->
  In existing (Sdk.getRooms mc) ->
  is_direct_with botUserId existing = true ->
  exists pre room post,
    Sdk.getRooms mc = pre ++ room :: post /\
    forallb (fun r => negb (is_direct_with botUserId r)) pre = true /\
    is_direct_with botUserId room = true /\
    let first := getOrCreateBotRoom c botUserId enableEncryption created in
    let second := getOrCreateBotRoom first.1.2 botUserId enableEncryption' created' in
    first = (Ok (Sdk.roomId room), c, []) /\
    second = (Ok (Sdk.roomId room), c, []).
Proof.
  intros Hc Hin Hex.
  destruct (find_split _ _ _ Hin Hex) as (pre & room & post & Hl & Hpre & Hroom).
  exists pre, room, post. do 3 (split; [done|]).
  pose proof (getOrCreateBotRoom_existing c mc botUserId enableEncryption
                created pre room post Hc Hl Hpre Hroom) as H1.
  pose proof (getOrCreateBotRoom_existing c mc botUserId enableEncryption'
                created' pre room post Hc Hl Hpre Hroom) as H2.
  cbn zeta. rewrite H1. cbn [fst snd]. by rewrite H2.
Qed.

Lemma getOrCreateBotRoom_idempotent_witness :
  In Samples.direct_again (Sdk.getRooms Samples.sdk_client) /\
  is_direct_with "@clawbot:clawchat.io" Samples.direct_again = true /\
  exists pre room post,
    Sdk.getRooms Samples.sdk_client = pre ++ room :: post /\
    forallb (fun r => negb (is_direct_with "@clawbot:clawchat.io" r)) pre = true /\
    is_direct_with "@clawbot:clawchat.io" room = true /\
    let first :=
      getOrCreateBotRoom Samples.connected "@clawbot:clawchat.io" true
        (Ok "!new:clawchat.io") in
    let second :=
      getOrCreateBotRoom first.1.2 "@clawbot:clawchat.io" true
        (Ok "!newer:clawchat.io") in
    first = (Ok (Sdk.roomId room), Samples.connected, []) /\
    second = (Ok (Sdk.roomId room), Samples.connected, []).
Proof.
  split; [cbn; tauto|]. split; [reflexivity|].
  apply (getOrCreateBotRoom_idempotent Samples.connected Samples.sdk_client
           "@clawbot:clawchat.io" Samples.direct_again);
    [reflexivity|cbn; tauto|reflexivity].
Defined.

(** The first of two matching rooms wins. *)
Example getOrCreateBotRoom_first_match :
  getOrCreateBotRoom Samples.connected "@clawbot:clawchat.io" true
    (Ok "!new:clawchat.io")
  = (Ok "!direct:clawchat.io", Samples.connected, []).
Proof. reflexivity. Qed.

(** C7.  Without a session (the SDK client is null), [sendMessage] and
    [sendImage] fail with [Error('Client not initialized')], the error the
    specification calls [NotConnectedError]; nothing is fetched, uploaded or
    sent, and the client is unchanged. *)
Theorem send_without_session
    (c : t) (roomId text uri filename : string) (response : result string)
    (fetched : result Blob) (uploaded sent : result string) :
  client c = None ->
  sendMessage c roomId text response
  = (Err (JsError "Client not initialized"), c, []) /\
  sendImage c roomId uri filename fetched uploaded sent
  = (Err (JsError "Client not initialized"), c, []).
Proof. intros Hc. unfold sendMessage, sendImage. by rewrite Hc. Qed.

Lemma send_without_session_witness :
  client Samples.offline = None /\
  sendMessage Samples.offline "!direct:clawchat.io" "hi" (Ok "$2")
  = (Err (JsError "Client not initialized"), Samples.offline, []) /\
  sendImage Samples.offline "!direct:clawchat.io" "file:///cat.png" "cat.png"
    (Ok (mkBlob "image/png" 1024)) (Ok "mxc://clawchat.io/cat") (Ok "$3")
  = (Err (JsError "Client not initialized"), Samples.offline, []).
Proof.
  split; [reflexivity|].
  apply (send_without_session Samples.offline). reflexivity.
Defined.

(** C9.  [getDeviceFingerprint] returns null exactly when encryption is
    unavailable: crypto is not enabled on the client, or there is no device
    id, or there is no own device key.  Otherwise it returns a string, the
    own ed25519 key. *)
Theorem getDeviceFingerprint_null_iff (c : t) :
  (getDeviceFingerprint c = None <-> encryption_unavailable c) /\
  (~ encryption_unavailable c <->
   exists fingerprint,
     getDeviceFingerprint c = Some fingerprint /\
     truthy fingerprint = true /\
     own_device_key c = Some fingerprint).
Proof.
  unfold encryption_unavailable, getDeviceFingerprint, cryptoEnabled,
    own_device_id, own_device_key.
  destruct (client c) as [mc|]; cbn; [|split; [tauto|]; split; [tauto|]].
  2: { intros (fp & Hfp & _); done. }
  destruct (Sdk.isCryptoEnabled mc); cbn; [|split; [tauto|]; split; [tauto|]].
  2: { intros (fp & Hfp & _); done. }
  destruct (truthy_opt (Sdk.getDeviceId mc)) eqn:Hid; cbn;
    [|split; [tauto|]; split; [tauto|]].
  2: { intros (fp & Hfp & _); done. }
  destruct (Sdk.getCrypto mc) as [crypto|]; cbn;
    [|split; [tauto|]; split; [tauto|]].
  2: { intros (fp & Hfp & _); done. }
  destruct (truthy (Sdk.ed25519 (Sdk.ownDeviceKeys crypto))) eqn:Hkey.
  - split; [split; [done|intros [?|[?|?]]; done]|].
    split; [intros _; eauto|]. intros _ [?|[?|?]]; done.
  - split; [tauto|]. split; [tauto|]. intros (fp & Hfp & _); done.
Qed.








(** The batch of the witness when the call for the encrypted event is
    resumed after the call for the event that follows it: the later message
    is delivered first, and the marker is delivered all the same. *)
Example failed_decryption_batch :
  interleave [0; 1; 2; 1]%nat
    (listenerCalls Samples.lost_session Samples.connected
       [(Samples.text_event "$1" "@alice:clawchat.io" "hello",
         Samples.direct, false);
        (Samples.sealed_event, Samples.direct, false);
        (Samples.text_event "$2" "@alice:clawchat.io" "hi",
         Samples.direct, false)])
  = [OnMessage
       (Message.mk "$1" "!direct:clawchat.io" "@alice:clawchat.io" "Alice"
          "hello" 1700000000000 Message.text true false false);
     DecryptEventIfNeeded "$sealed";
     OnMessage
       (Message.mk "$2" "!direct:clawchat.io" "@alice:clawchat.io" "Alice"
          "hi" 1700000000000 Message.text true false false);
     OnMessage
       (Message.mk "$sealed" "!direct:clawchat.io" "@clawbot:clawchat.io"
          "ClawBot"
          "** Unable to decrypt: The sender's device has not sent us the keys for this message. **"
          1700000000000 Message.text false true false)].
Proof. reflexivity. Qed.

(** A call of [decryptEventIfNeeded] that throws changes nothing but the
    log. *)
Example failed_decryption_thrown :
  onTimeline Samples.lost_session_thrown Samples.connected Samples.sealed_event
    Samples.direct false
  = [DecryptEventIfNeeded "$sealed";
     Warn "[E2EE] Failed to decrypt event:";
     OnMessage
       (Message.mk "$sealed" "!direct:clawchat.io" "@clawbot:clawchat.io"
          "ClawBot"
          "** Unable to decrypt: The sender's device has not sent us the keys for this message. **"
          1700000000000 Message.text false true false)].
Proof. reflexivity. Qed.

(** After a failed crypto initialisation the outcome depends on the start
    of the client and on the first sync state only. *)
Lemma initializeClient_crypto_failure c session env e :
  enableE2EE (config c) = true ->
  initRustCrypto env = Err e ->
  initializeClient c session env =
    let tr :=
      [InitRustCrypto; Warn "[E2EE] Failed to initialize crypto:"; StartClient] in
    match startClient env with
    | Err e' => (Rejected e', with_client c (Some (createClient session)), tr)
    | Ok _ =>
        (if String.eqb (firstSyncState env) "PREPARED" then Resolved tt else Pending,
         with_client c (Some (with_rooms (createClient session) (syncedRooms env))),
         tr)
    end.
Proof.
  intros He2ee Hinit. unfold initializeClient. rewrite He2ee, Hinit.
  destruct (startClient env); [|done].
  by destruct (String.eqb (firstSyncState env) "PREPARED").
Qed.

(** C6.  When [initRustCrypto] throws during client initialisation, the
    error is caught: initialisation goes on as for a client configured
    without E2EE and ends as that one does.  So, when the client starts and
    reaches its first sync, the session restore resolves and the login
    resolves with the session, crypto being disabled.  The bot's
    [initializeCrypto] likewise reports [false] instead of throwing. *)
Theorem crypto_failure_is_not_fatal
    (c : t) (session : AuthSession.t) (env : InitEnv) (e : Error)
    (username password : string) (response : LoginResponse)
    (uploadKeys : result unit) :
  enableE2EE (config c) = true ->
  initRustCrypto env = Err e ->
  let started s :=
    with_client c (Some (with_rooms (createClient s) (syncedRooms env))) in
  let tr :=
    [InitRustCrypto; Warn "[E2EE] Failed to initialize crypto:"; StartClient] in
  let session' :=
    AuthSession.mk (access_token response) (user_id response)
      (device_id response) (homeserver (config c)) in
  (initializeClient c session env).1.1
  = (initializeClient (without_e2ee c) session env).1.1 /\
  client (initializeClient c session env).1.2
  = client (initializeClient (without_e2ee c) session env).1.2 /\
  (startClient env = Ok tt ->
   firstSyncState env = "PREPARED" ->
   restoreSession c session env = (Resolved tt, started session, tr) /\
   isE2EEEnabled (started session) = false /\
   login c username password (Ok response) env
   = (Resolved session', started session',
      TempLogin username :: tr ++ [TempStopClient])) /\
  (BotE2EE.initializeCrypto true (Err e) uploadKeys).1 = false.
Proof.
  intros He2ee Hinit started tr session'.
  rewrite (initializeClient_crypto_failure _ _ _ e) by done.
  split; [|split; [|split; [|done]]].
  - unfold initializeClient. cbn. destruct (startClient env); [|done].
    by destruct (String.eqb (firstSyncState env) "PREPARED").
  - unfold initializeClient. cbn. destruct (startClient env); [|done].
    by destruct (String.eqb (firstSyncState env) "PREPARED").
  - intros Hstart Hsync. unfold restoreSession, login.
    rewrite !(initializeClient_crypto_failure _ _ _ e) by done.
    rewrite Hstart, Hsync. by cbn.
Qed.

Lemma crypto_failure_is_not_fatal_witness :
  enableE2EE (config Samples.offline) = true /\
  initRustCrypto Samples.crypto_broken = Err (JsError "WASM unavailable") /\
  (initializeClient Samples.offline Samples.session Samples.crypto_broken).1.1
  = (initializeClient (without_e2ee Samples.offline) Samples.session
       Samples.crypto_broken).1.1.
Proof.
  do 2 (split; [reflexivity|]).
  refine (proj1 (crypto_failure_is_not_fatal Samples.offline Samples.session
                   Samples.crypto_broken (JsError "WASM unavailable")
                   "alice" "secret" Samples.login_response (Ok tt) _ _));
    reflexivity.
Defined.

(** A session restore with a broken crypto backend. *)
Example restoreSession_crypto_broken :
  restoreSession Samples.offline Samples.session Samples.crypto_broken
  = (Resolved tt,
     with_client Samples.offline
       (Some (with_rooms (createClient Samples.session)
                [Samples.group; Samples.direct])),
     [InitRustCrypto; Warn "[E2EE] Failed to initialize crypto:"; StartClient]).
Proof. reflexivity. Qed.

Example getDeviceFingerprint_connected :
  getDeviceFingerprint Samples.connected = Some "ed25519_DEVICE0001".
Proof. reflexivity. Qed.

Example getDeviceFingerprint_offline :
  getDeviceFingerprint Samples.offline = None.
Proof. reflexivity. Qed.

End ClientFacts.

(* ===================================================================== *)
(** ** Properties of the chat store *)
(* ===================================================================== *)

Module ChatStoreFacts.
Import Js ChatStore.

Lemma has_id_elem id l : has_id id l = true <-> id ∈ map Message.id l.
Proof.
  unfold has_id. rewrite existsb_exists, list_elem_of_In, in_map_iff.
  split; intros (m & H1 & H2).
  - exists m. split; [|done]. by apply String.eqb_eq.
  - exists m. split; [done|]. by apply String.eqb_eq.
Qed.

Lemma no_duplicate_ids_initial : no_duplicate_ids initial.
Proof. intros roomId l Hl. cbn in Hl. by rewrite lookup_empty in Hl. Qed.

Lemma no_duplicate_ids_same st st' :
  messages st' = messages st -> no_duplicate_ids st -> no_duplicate_ids st'.
Proof. intros Heq Hinv roomId l. rewrite Heq. apply Hinv. Qed.

Lemma no_duplicate_ids_insert st st' roomId l :
  messages st' = <[roomId := l]> (messages st) ->
  NoDup (map Message.id l) ->
  no_duplicate_ids st -> no_duplicate_ids st'.
Proof.
  intros Heq Hl Hinv r k. rewrite Heq.
  destruct (decide (roomId = r)) as [->|Hne].
  - rewrite lookup_insert_eq. by intros [= <-].
  - rewrite lookup_insert_ne by done. apply Hinv.
Qed.

Lemma onMessage_preserves st message :
  no_duplicate_ids st -> no_duplicate_ids (onMessage st message).
Proof.
  intros Hinv. unfold onMessage.
  destruct (has_id _ _) eqn:Hhas; [done|].
  eapply no_duplicate_ids_insert; [done| |done].
  rewrite map_app. apply NoDup_app. split; [|split].
  - destruct (messages st !! Message.roomId message) as [l|] eqn:Hl; cbn.
    + by eapply Hinv.
    + constructor.
  - intros id Hin [Heq|[]]%list_elem_of_In. subst id.
    apply has_id_elem in Hin. congruence.
  - cbn. apply NoDup_singleton.
Qed.

Lemma map_sublist {A B} (f : A -> B) (l k : list A) :
  l `sublist_of` k -> map f l `sublist_of` map f k.
Proof. induction 1; cbn; by constructor. Qed.

Lemma filter_sublist {A} (p : A -> bool) (l : list A) :
  List.filter p l `sublist_of` l.
Proof. induction l as [|x l IH]; cbn; [done|]. destruct (p x); by constructor. Qed.

Lemma slice_last_sublist {A} n (l : list A) : slice_last n l `sublist_of` l.
Proof. destruct n; [done|]. apply sublist_drop. Qed.

Lemma decryptIfNeeded_id decrypt c warning event :
  Sdk.getId (Client.decryptIfNeeded decrypt c warning event).1 = Sdk.getId event.
Proof.
  unfold Client.decryptIfNeeded.
  by destruct (Sdk.isEncrypted event && Client.cryptoEnabled c).
Qed.

Lemma eventToMessage_id c event room message :
  Client.eventToMessage c event room = Some message ->
  Message.id message = Sdk.getId event.
Proof.
  unfold Client.eventToMessage.
  destruct (Sdk.body (Sdk.getContent event)) as [body|]; [|done].
  destruct (truthy body); [|done]. by intros [= <-].
Qed.

Lemma loaded_ids_sublist decrypt c warning room events :
  map Message.id
    (omap (fun '(event, _) => Client.eventToMessage c event room)
       (map (Client.decryptIfNeeded decrypt c warning) events))
  `sublist_of` map Sdk.getId events.
Proof.
  induction events as [|event events IH]; [done|]. cbn.
  pose proof (decryptIfNeeded_id decrypt c warning event) as Hid.
  destruct (Client.decryptIfNeeded decrypt c warning event) as [event' tr].
  cbn in Hid.
  destruct (Client.eventToMessage c event' room) as [message|] eqn:Hm; cbn.
  - apply eventToMessage_id in Hm. rewrite <- Hid, <- Hm. by constructor.
  - by constructor.
Qed.

(** The messages loaded from a timeline without duplicate ids have no
    duplicate ids. *)
Lemma getMessages_NoDup decrypt c roomId limit loaded :
  NoDup (timeline_ids c roomId) ->
  (Client.getMessages decrypt c roomId limit).1 = Ok loaded ->
  NoDup (map Message.id loaded).
Proof.
  unfold timeline_ids, Client.getMessages.
  destruct (Client.client c) as [mc|]; [|done].
  destruct (Sdk.getRoom mc roomId) as [room|]; cbn.
  - intros Hnd [= <-]. eapply sublist_NoDup; [exact Hnd|].
    etrans; [apply loaded_ids_sublist|]. apply map_sublist.
    etrans; [apply slice_last_sublist|]. apply filter_sublist.
  - intros _ [= <-]. constructor.
Qed.

Lemma loadMessages_preserves decrypt st c roomId :
  NoDup (timeline_ids c roomId) ->
  no_duplicate_ids st -> no_duplicate_ids (loadMessages decrypt st c roomId).
Proof.
  intros Hnd Hinv. unfold loadMessages.
  destruct (Client.getMessages decrypt c roomId 100).1 as [loaded|e] eqn:Hl.
  - eapply no_duplicate_ids_insert; [done| |done].
    by eapply getMessages_NoDup.
  - by eapply no_duplicate_ids_same.
Qed.

Lemma step_preserves decrypt trim st a :
  distinct_timeline a = true ->
  no_duplicate_ids st -> no_duplicate_ids (step decrypt trim st a).
Proof.
  intros Ha Hinv. unfold distinct_timeline in Ha.
  destruct a; cbn [step loads] in *;
    try (by eapply no_duplicate_ids_same; [|exact Hinv]).
  - by apply onMessage_preserves.
  - apply bool_decide_eq_true in Ha. apply loadMessages_preserves; [done|].
    by eapply no_duplicate_ids_same.
  - apply bool_decide_eq_true in Ha. by apply loadMessages_preserves.
  - unfold sendMessage. destruct (_ || _); [done|].
    destruct (Client.sendMessage _ _ _ _).1.1;
      by eapply no_duplicate_ids_same.
  - unfold sendImage. destruct (negb _); [done|].
    destruct (Client.sendImage _ _ _ _ _ _ _).1.1;
      by eapply no_duplicate_ids_same.
  - unfold startBotChat.
    destruct (Client.getOrCreateBotRoom _ _ _ _).1.1 as [roomId|e]; cbn [snd].
    + apply bool_decide_eq_true in Ha. apply loadMessages_preserves; [done|].
      by eapply no_duplicate_ids_same.
    + by eapply no_duplicate_ids_same.
Qed.

Lemma run_preserves decrypt trim acts st :
  forallb distinct_timeline acts = true ->
  no_duplicate_ids st -> no_duplicate_ids (run decrypt trim st acts).
Proof.
  revert st. induction acts as [|a acts IH]; intros st Hacts Hinv; [done|].
  cbn in Hacts. apply andb_prop in Hacts as [Ha Hacts].
  cbn [run fold_left]. apply IH; [done|]. by apply step_preserves.
Qed.

Lemma forallb_OnMessage l : forallb distinct_timeline (map OnMessage l) = true.
Proof. by induction l. Qed.

(** C1, as amended.  Starting from the empty store, every sequence of
    message callbacks, duplicates included, leaves each message id at most
    once in every room's list: the listener appends a message only when its
    id is not in the list yet.  The invariant is preserved by every store
    action, provided that each timeline loaded by [loadMessages] (also
    through [setCurrentRoom] and [startBotChat]) has no two events with the
    same id: a load replaces the room's list by the messages of the
    timeline. *)
Theorem no_duplicate_ids_invariant
    (decrypt : Sdk.MatrixEvent -> Client.Decryption) (trim : string -> string)
    (acts : list Action) (incoming : list Message.t)
    (st : ChatState) (message : Message.t) :
  forallb distinct_timeline acts = true ->
  no_duplicate_ids (run decrypt trim initial acts) /\
  no_duplicate_ids (run decrypt trim initial (map OnMessage incoming)) /\
  (let roomMessages := default [] (messages st !! Message.roomId message) in
   onMessage st message =
     if has_id (Message.id message) roomMessages then st
     else set_messages st
            (<[Message.roomId message := roomMessages ++ [message]]> (messages st))) /\
  (forall a,
     distinct_timeline a = true ->
     no_duplicate_ids st -> no_duplicate_ids (step decrypt trim st a)).
Proof.
  intros Hacts. split; [|split; [|split; [done|]]].
  - apply run_preserves; [done|]. apply no_duplicate_ids_initial.
  - apply run_preserves; [apply forallb_OnMessage|].
    apply no_duplicate_ids_initial.
  - intros a. apply step_preserves.
Qed.

Lemma no_duplicate_ids_invariant_witness :
  forallb distinct_timeline Samples.retried = true /\
  no_duplicate_ids
    (run Samples.unknown_session (fun s => s) initial Samples.retried).
Proof.
  split; [reflexivity|].
  refine (proj1 (no_duplicate_ids_invariant Samples.unknown_session
                   (fun s => s) Samples.retried [] initial Samples.hello _)).
  reflexivity.
Defined.

(** A retried batch: the second delivery of an event is ignored. *)
Example onMessage_retry :
  messages
    (run Samples.unknown_session (fun s => s) initial
       [OnMessage Samples.hello; OnMessage Samples.reply; OnMessage Samples.reply])
  !! "!direct:clawchat.io" = Some [Samples.hello; Samples.reply].
Proof. reflexivity. Qed.

(** C1 fails as stated: [loadMessages] stores the messages of the timeline
    as they are, so a timeline that holds an event twice gives a list with
    the same id twice. *)
Lemma loadMessages_keeps_duplicates :
  no_duplicate_ids initial /\
  map Message.id <$> (messages Samples.replayed_store !! "!replayed:clawchat.io")
  = Some ["$1"; "$1"] /\
  ~ no_duplicate_ids Samples.replayed_store.
Proof.
  split; [apply no_duplicate_ids_initial|].
  assert (Hst : map Message.id
                  <$> (messages Samples.replayed_store !! "!replayed:clawchat.io")
                = Some ["$1"; "$1"]) by reflexivity.
  split; [done|]. intros Hinv.
  destruct (messages Samples.replayed_store !! "!replayed:clawchat.io")
    as [l|] eqn:Hl; [|done].
  apply Hinv in Hl. injection Hst as Hst. rewrite Hst in Hl.
  apply NoDup_cons in Hl as [Hnotin _]. apply Hnotin. by left.
Qed.

End ChatStoreFacts.

(* ===================================================================== *)
(** ** Properties of the bot *)
(* ===================================================================== *)

Module BotFacts.
Import Js Bot.

Lemma context_length conversations event room :
  length (context conversations event room) <= 20.
Proof. unfold context. rewrite length_drop. lia. Qed.

Lemma kept_history (pushed : list Turn) :
  (if Nat.ltb 20 (length pushed) then slice_last 20 pushed else pushed)
  = drop (length pushed - 20) pushed.
Proof.
  destruct (Nat.ltb_spec 20 (length pushed)) as [Hlt|Hge]; [done|].
  by replace (length pushed - 20) with 0 by lia.
Qed.

(** A call sends no request when it ignores the event, and one request
    with the bounded history otherwise. *)
Lemma handleMessage_requests cfg conversations event room completion
    replySent apologySent :
  let tr :=
    (handleMessage cfg conversations event room completion replySent
       apologySent).2 in
  requests tr = [] \/ requests tr = [context conversations event room].
Proof.
  unfold handleMessage, context. rewrite kept_history.
  repeat (case_match; try by left); right;
    unfold on_failure in *; simplify_eq; done.
Qed.

Lemma requests_app tr1 tr2 : requests (tr1 ++ tr2) = requests tr1 ++ requests tr2.
Proof. apply omap_app. Qed.

Lemma handle_bounded cfg s i :
  Forall (fun h => length h <= 20) (requests s.2) ->
  Forall (fun h => length h <= 20) (requests (handle cfg s i).2).
Proof.
  intros Hs. unfold handle.
  pose proof (handleMessage_requests cfg s.1 (in_event i) (in_room i)
                (in_completion i) (in_replySent i) (in_apologySent i)) as Hreq.
  destruct (handleMessage _ _ _ _ _ _ _) as [[o conversations] tr].
  cbn [fst snd] in *. rewrite requests_app. apply Forall_app. split; [done|].
  destruct Hreq as [-> | ->]; [constructor|].
  constructor; [apply context_length|constructor].
Qed.

Lemma fold_bounded cfg l s :
  Forall (fun h => length h <= 20) (requests s.2) ->
  Forall (fun h => length h <= 20) (requests (fold_left (handle cfg) l s).2).
Proof.
  revert s. induction l as [|i l IH]; intros s Hs; [done|].
  cbn [fold_left]. apply IH. by apply handle_bounded.
Qed.

(** C8.  Whatever events the bot has handled, every history it hands to the
    completion service has at most 20 entries: a call sends at most one
    request, with the end of the stored conversation followed by the new
    message.  When the completion call fails for a text message of another
    user, the bot stops typing and sends the fixed apology to the room; the
    call resolves unless that send fails. *)
Theorem history_bounded_and_apology
    (cfg : Config) (handled : list Incoming)
    (conversations : gmap string (list Turn))
    (event : Sdk.MatrixEvent) (room : Sdk.Room) (e : Error)
    (completion : result (list Block)) (replySent apologySent : result unit) :
  Sdk.getSender event <> matrixUserId cfg ->
  Sdk.getType event = "m.room.message" ->
  Sdk.msgtype (Sdk.getContent event) = "m.text" ->
  let answered :=
    handleMessage cfg conversations event room completion replySent apologySent in
  let failed :=
    handleMessage cfg conversations event room (Err e) replySent apologySent in
  Forall (fun h => length h <= 20) (requests (run cfg handled).2) /\
  requests answered.2 = [context conversations event room] /\
  length (context conversations event room) <= 20 /\
  failed.2 =
    [SendTyping (Sdk.roomId room) true 30000;
     MessagesCreate (model cfg) 4096 (system_prompt (Sdk.getSender event))
       (context conversations event room);
     SendTyping (Sdk.roomId room) false 0;
     SendTextMessage (Sdk.roomId room)
       "I'm having trouble processing that right now. Please try again."] /\
  failed.1.1 =
    match apologySent with Ok _ => Resolved tt | Err e' => Rejected e' end.
Proof.
  intros Hsender Htype Hmsg answered failed.
  split; [apply fold_bounded; constructor|].
  apply String.eqb_neq in Hsender.
  split; [|split; [apply context_length|]].
  - unfold answered, handleMessage, context. rewrite kept_history.
    rewrite Hsender, Htype, Hmsg. cbn.
    destruct completion, replySent, apologySent; reflexivity.
  - unfold failed, handleMessage, context. rewrite kept_history.
    rewrite Hsender, Htype, Hmsg. cbn. by destruct apologySent.
Qed.

Lemma history_bounded_and_apology_witness :
  Sdk.getSender (in_event Samples.question) <> matrixUserId Samples.bot_config /\
  Sdk.getType (in_event Samples.question) = "m.room.message" /\
  Sdk.msgtype (Sdk.getContent (in_event Samples.question)) = "m.text" /\
  Forall (fun h => length h <= 20)
    (requests
       (run Samples.bot_config [Samples.question; Samples.question]).2).
Proof.
  split; [discriminate|]. do 2 (split; [reflexivity|]).
  refine (proj1 (history_bounded_and_apology Samples.bot_config
                   [Samples.question; Samples.question] ∅
                   (in_event Samples.question) (in_room Samples.question)
                   (JsError "overloaded") (Ok []) (Ok tt) (Ok tt) _ _ _));
    [discriminate|reflexivity..].
Defined.

(** The completion service is down: the user gets the apology. *)
Example handleMessage_apology :
  handleMessage Samples.bot_config ∅ (in_event Samples.question)
    (in_room Samples.question) (Err (JsError "overloaded")) (Ok tt) (Ok tt)
  = (Resolved tt, ∅,
     [SendTyping "!direct:clawchat.io" true 30000;
      MessagesCreate "claude-sonnet-4-20250514" 4096
        (system_prompt "@alice:clawchat.io")
        [mkTurn user (Some "What is Rocq?")];
      SendTyping "!direct:clawchat.io" false 0;
      SendTextMessage "!direct:clawchat.io" apology]).
Proof. reflexivity. Qed.

End BotFacts.

(* ===================================================================== *)
(** ** Properties of the string built-ins *)
(* ===================================================================== *)

Module JsStringsFacts.
Local Arguments String.append : simpl nomatch.

Lemma append_length (s1 s2 : string) :
  String.length (s1 +:+ s2) = String.length s1 + String.length s2.
Proof. induction s1 as [|c s1 IH]; simpl; [done|]. by f_equal. Qed.

Lemma append_assoc (s1 s2 s3 : string) :
  (s1 +:+ s2) +:+ s3 = s1 +:+ (s2 +:+ s3).
Proof. induction s1 as [|c s1 IH]; simpl; [done|]. by f_equal. Qed.

End JsStringsFacts.

(* ===================================================================== *)
(** ** Further properties of the E2EE manager *)
(* ===================================================================== *)

Module CryptoManagerMore.
Import Js JsStrings Encoding CryptoManager JsStringsFacts.
Local Arguments String.append : simpl nomatch.

Lemma to_int32_range z : (- 2 ^ 31 <= to_int32 z < 2 ^ 31)%Z.
Proof. unfold to_int32. Z.to_euclidean_division_equations; lia. Qed.

Lemma hash_step_wrap hash code :
  hash_step hash code = to_int32 (31 * hash + code).
Proof.
  unfold hash_step. cbv zeta. rewrite Z.land_diag, Z.shiftl_mul_pow2 by lia.
  unfold to_int32. Z.to_euclidean_division_equations; lia.
Qed.

Lemma to_int32_step a code :
  to_int32 (31 * to_int32 a + code) = to_int32 (31 * a + code).
Proof. unfold to_int32. Z.to_euclidean_division_equations; lia. Qed.

Lemma fold_left_commute {A B C} (f : A -> C -> A) (g : B -> C -> B) (h : B -> A) :
  (forall b c, f (h b) c = h (g b c)) ->
  forall l b, fold_left f l (h b) = h (fold_left g l b).
Proof.
  intros Hstep l. induction l as [|c l IH]; intros b; [reflexivity|].
  cbn [fold_left]. rewrite Hstep. apply IH.
Qed.

Lemma fold_hash_step (codes : list Z) :
  fold_left hash_step codes 0%Z = to_int32 (polynomial_hash codes).
Proof.
  unfold polynomial_hash.
  assert (Hz : to_int32 0 = 0%Z) by reflexivity.
  rewrite <- Hz at 1.
  apply (fold_left_commute hash_step (fun acc code => (31 * acc + code)%Z)
           to_int32).
  intros b c. rewrite hash_step_wrap. apply to_int32_step.
Qed.

(** The loop of [getFingerprint] computes the hash of Java's
    [String.hashCode]: the polynomial in 31 over the character codes,
    wrapped to a signed 32-bit integer, whatever the codes are. *)
Theorem fingerprint_hash_polynomial (codes : list Z) (combined : string) :
  fold_left hash_step codes 0%Z = to_int32 (polynomial_hash codes) /\
  fingerprint_hash combined = to_int32 (polynomial_hash (char_codes combined)) /\
  (- 2 ^ 31 <= fingerprint_hash combined < 2 ^ 31)%Z.
Proof.
  split; [apply fold_hash_step|]. unfold fingerprint_hash.
  rewrite fold_hash_step. split; [done|]. apply to_int32_range.
Qed.

Lemma pretty_N_go_length k x s :
  (x < 10 ^ N.of_nat k)%N ->
  String.length s <= String.length (pretty_N_go x s) <= k + String.length s.
Proof.
  revert x s. induction k as [|k IH]; intros x s Hx.
  - assert (x = 0%N) as -> by (cbn in Hx; lia). rewrite pretty_N_go_0. lia.
  - destruct (decide (x = 0%N)) as [->|Hne]; [rewrite pretty_N_go_0; lia|].
    rewrite pretty_N_go_step by lia.
    assert (Hdiv : (x `div` 10 < 10 ^ N.of_nat k)%N).
    { apply N.Div0.div_lt_upper_bound.
      replace (N.of_nat (S k)) with (N.succ (N.of_nat k)) in Hx by lia.
      rewrite N.pow_succ_r' in Hx. lia. }
    specialize (IH _ (String (pretty_N_char (x `mod` 10)) s) Hdiv).
    cbn [String.length] in IH. lia.
Qed.

Lemma pretty_N_length (n : N) :
  (n < 10 ^ 10)%N -> 1 <= String.length (pretty n) <= 10.
Proof.
  intros Hn. unfold pretty, pretty_N. case_decide as Hz; [cbn; lia|].
  rewrite pretty_N_go_step by lia.
  assert (Hdiv : (n `div` 10 < 10 ^ N.of_nat 9)%N).
  { apply N.Div0.div_lt_upper_bound. cbn. cbn in Hn. lia. }
  pose proof (pretty_N_go_length 9 _ (String (pretty_N_char (n `mod` 10)) "") Hdiv) as Hlen.
  cbn [String.length] in Hlen. lia.
Qed.

Lemma repeat_char_app c a b :
  repeat_char c (a + b) = repeat_char c a +:+ repeat_char c b.
Proof. induction a as [|a IH]; simpl; [done|]. by f_equal. Qed.

Lemma repeat_char_length c n : String.length (repeat_char c n) = n.
Proof. induction n as [|n IH]; simpl; [done|]. by f_equal. Qed.

Lemma padded_number (s : string) :
  1 <= String.length s <= 10 ->
  exists t, String.length t = 10 /\ padStart 60 "0" s = repeat_char "0" 50 +:+ t.
Proof.
  intros Hs. exists (repeat_char "0" (10 - String.length s) +:+ s). split.
  - rewrite append_length, repeat_char_length. lia.
  - unfold padStart.
    replace (60 - String.length s) with (50 + (10 - String.length s)) by lia.
    by rewrite repeat_char_app, append_assoc.
Qed.

(** The safety number has twelve groups of five characters, 71 characters
    in all, but the hash behind it has at most ten digits: the first ten
    groups are "00000" for every user and every key. *)
Theorem fingerprint_shape (userId : string) (deviceKeys : DeviceKeys.t) :
  String.length (getFingerprint userId deviceKeys) = 71 /\
  exists tail,
    String.length tail = 11 /\
    getFingerprint userId deviceKeys
    = "00000 00000 00000 00000 00000 00000 00000 00000 00000 00000 " +:+ tail.
Proof.
  unfold getFingerprint. cbv zeta.
  set (hash := fingerprint_hash _).
  assert (Hrange : (- 2 ^ 31 <= hash < 2 ^ 31)%Z).
  { unfold hash, fingerprint_hash. rewrite fold_hash_step. apply to_int32_range. }
  destruct (padded_number (pretty (Z.to_N (Z.abs hash)))) as (t & Ht & ->).
  { apply pretty_N_length. lia. }
  do 10 (destruct t as [|? t]; [discriminate Ht|]).
  destruct t; [|discriminate Ht].
  split; [reflexivity|]. eexists. split; [|reflexivity]. reflexivity.
Qed.


Lemma charAt_length d : d < 36 -> String.length (charAt chars d) = 1.
Proof. intros Hd. do 36 (destruct d as [|d]; [reflexivity|]). lia. Qed.

(** With draws in the range of the alphabet the device id has ten
    characters, and the two keys are that id behind their prefixes: both
    keys can be read off the device id. *)
Theorem generateDeviceKeys_shape (draw : nat -> nat) :
  (forall i, draw i < 36) ->
  let keys := generateDeviceKeys draw in
  String.length (DeviceKeys.deviceId keys) = 10 /\
  DeviceKeys.curve25519 keys = "curve25519_" +:+ DeviceKeys.deviceId keys /\
  DeviceKeys.ed25519 keys = "ed25519_" +:+ DeviceKeys.deviceId keys /\
  String.length (DeviceKeys.ed25519 keys) = 18.
Proof.
  intros Hdraw keys.
  assert (Hlen : String.length (generateDeviceId draw) = 10).
  { unfold generateDeviceId. cbn [seq fold_left].
    rewrite !append_length, !charAt_length by done. reflexivity. }
  unfold keys, generateDeviceKeys. cbn [DeviceKeys.deviceId
    DeviceKeys.curve25519 DeviceKeys.ed25519].
  repeat split; [done|]. rewrite append_length, Hlen. reflexivity.
Qed.

Lemma generateDeviceKeys_shape_witness :
  (forall i, (fun _ : nat => 7) i < 36) /\
  let keys := generateDeviceKeys (fun _ => 7) in
  String.length (DeviceKeys.deviceId keys) = 10 /\
  DeviceKeys.curve25519 keys = "curve25519_" +:+ DeviceKeys.deviceId keys /\
  DeviceKeys.ed25519 keys = "ed25519_" +:+ DeviceKeys.deviceId keys /\
  String.length (DeviceKeys.ed25519 keys) = 18.
Proof.
  split; [intros i; cbn; lia|].
  apply (generateDeviceKeys_shape (fun _ => 7)). intros i. cbn. lia.
Defined.

Lemma set_add_NoDup x s : NoDup s -> NoDup (set_add x s).
Proof.
  intros Hs. unfold set_add. case_bool_decide as Hx; [done|].
  apply NoDup_app. split; [done|]. split; [|apply NoDup_singleton].
  intros y Hy ->%list_elem_of_singleton. done.
Qed.

Lemma fold_set_add_NoDup l acc :
  NoDup acc -> NoDup (fold_left (fun acc x => set_add x acc) l acc).
Proof.
  revert acc. induction l as [|x l IH]; intros acc Hacc; [done|].
  cbn [fold_left]. by apply IH, set_add_NoDup.
Qed.

Lemma fold_set_add_fresh l acc :
  NoDup (acc ++ l) -> fold_left (fun acc x => set_add x acc) l acc = acc ++ l.
Proof.
  revert acc. induction l as [|x l IH]; intros acc Hnd.
  - by rewrite app_nil_r.
  - cbn [fold_left]. unfold set_add at 2.
    rewrite bool_decide_eq_false_2.
    + rewrite IH; rewrite <- app_assoc; done.
    + apply NoDup_app in Hnd as (_ & Hnot & _). intros Hin.
      apply (Hnot x Hin). by left.
Qed.

Lemma set_of_array_NoDup l : NoDup l -> set_of_array l = l.
Proof. intros Hl. unfold set_of_array. by rewrite fold_set_add_fresh. Qed.

(** The verified devices of every manager reached from a new one form
    such a set. *)
Lemma step_verified_set_ok s op :
  verified_set_ok s.1 -> verified_set_ok (step s op).1.
Proof.
  destruct s as [m st]. unfold verified_set_ok. cbn [fst]. intros Hm.
  destruct op as [draw|u d|r content ks now|data]; cbn [step].
  - unfold initialize. by destruct (crypto_store st).
  - cbn. by apply set_add_NoDup.
  - unfold encryptMessage. destruct (deviceKeys m); [|done].
    by destruct (truthy_opt (sessionKeys m !! r)).
  - cbn. apply fold_set_add_NoDup. constructor.
Qed.

Lemma run_verified_set_ok ops s :
  verified_set_ok s.1 -> verified_set_ok (run s ops).1.
Proof.
  revert s. induction ops as [|op ops IH]; intros s Hs; [done|].
  cbn [run fold_left]. by apply IH, step_verified_set_ok.
Qed.

(** A backup restores the manager it was taken from.  The verified devices
    of a manager are a [Set], which holds no element twice; for such a
    manager, [importKeys] of what [exportKeys] returned gives the device
    keys, the room sessions and the verified devices back, whatever manager
    imports it, and puts the device keys into the secure store. *)
Theorem importKeys_exportKeys
    (m : t) (data : Backup) (m' : t) (st' : SecureStore) :
  verified_set_ok m ->
  exportKeys m = Ok data ->
  (importKeys m' st' data).1 = m /\
  crypto_store (importKeys m' st' data).2 = deviceKeys m.
Proof.
  intros Hok Hexport.
  unfold exportKeys in Hexport. destruct m as [keys sessions verified].
  unfold verified_set_ok in Hok.
  cbn in *. destruct keys as [keys|]; [|done]. injection Hexport as <-.
  unfold importKeys. cbn -[set_of_array]. split; [|done].
  by rewrite list_to_map_to_list, set_of_array_NoDup.
Qed.

Lemma importKeys_exportKeys_witness :
  let m := (run (new, Samples.empty_store) Samples.other_ops).1 in
  verified_set_ok m /\
  exists data,
    exportKeys m = Ok data /\
    (importKeys new Samples.empty_store data).1 = m /\
    crypto_store (importKeys new Samples.empty_store data).2 = deviceKeys m.
Proof.
  cbv zeta.
  assert (Hok : verified_set_ok
                  (run (new, Samples.empty_store) Samples.other_ops).1)
    by (unfold verified_set_ok; apply (bool_decide_unpack _); vm_compute;
        exact I).
  split; [exact Hok|]. eexists. split; [reflexivity|].
  apply (importKeys_exportKeys
           (run (new, Samples.empty_store) Samples.other_ops).1);
    [exact Hok|reflexivity].
Defined.

(** The key of the verified set joins user id and device id with a colon,
    so a colon inside an id moves the border: verifying one pair marks
    another pair as well. *)
Theorem verifyDevice_key_collision
    (m : t) (st : SecureStore) (user middle device : string) :
  isDeviceVerified (verifyDevice m st (user +:+ ":" +:+ middle) device).1
    user (middle +:+ ":" +:+ device) = true.
Proof.
  assert (Hkey : device_key (user +:+ ":" +:+ middle) device
                 = device_key user (middle +:+ ":" +:+ device)).
  { unfold device_key. rewrite append_assoc. reflexivity. }
  unfold isDeviceVerified, set_has, verifyDevice. cbn [fst verifiedDevices].
  apply bool_decide_eq_true. rewrite Hkey.
  unfold set_add. case_bool_decide; [done|]. apply elem_of_app. right.
  by apply list_elem_of_singleton.
Qed.

(** Verified devices are written to the secure store but never read back:
    a manager started on that store afterwards trusts no device. *)
Theorem verified_devices_not_restored
    (m : t) (st : SecureStore) (userId deviceId : string) (draw : nat -> nat)
    (u d : string) :
  let once := verifyDevice m st userId deviceId in
  let restarted := (initialize new once.2 draw).1.2 in
  verified_devices once.2 = Some (verifiedDevices once.1) /\
  device_key userId deviceId ∈ verifiedDevices once.1 /\
  isDeviceVerified restarted u d = false.
Proof.
  cbv zeta. split; [done|]. split.
  - cbn. unfold set_add. case_bool_decide; [done|]. apply elem_of_app. right.
    by apply list_elem_of_singleton.
  - unfold initialize. cbn. by destruct (crypto_store st).
Qed.

(** [encryptMessage] touches the session of its own room only, and that
    one only when the room has none; keys and verified devices stay. *)
Theorem encryptMessage_room_isolation
    (m : t) (roomId other : string) (content : jsstring)
    (recipientKeys : list DeviceKeys.t) (now : N) :
  let m' := (encryptMessage m roomId content recipientKeys now).1.2 in
  deviceKeys m' = deviceKeys m /\
  verifiedDevices m' = verifiedDevices m /\
  (other <> roomId -> sessionKeys m' !! other = sessionKeys m !! other) /\
  (truthy_opt (sessionKeys m !! roomId) = true -> m' = m).
Proof.
  unfold encryptMessage. destruct (deviceKeys m) as [keys|] eqn:Hk; cbn;
    [|by repeat split].
  destruct (truthy_opt (sessionKeys m !! roomId)) eqn:Hs; cbn.
  - by repeat split.
  - split; [done|]. split; [done|].
    split; [intros Hne; by rewrite lookup_insert_ne|done].
Qed.

End CryptoManagerMore.

(* ===================================================================== *)
(** ** Further properties of the client facade *)
(* ===================================================================== *)

Module ClientMore.
Import Js Client.

(** [getRooms] lists the rooms of the SDK in their order, one entry for
    each; no entry has an empty name, and a last message is filed under the
    id of its room. *)
Theorem getRooms_shape (c : t) (mc : Sdk.MatrixClient) :
  client c = Some mc ->
  map Room.id (getRooms c) = map Sdk.roomId (Sdk.getRooms mc) /\
  Forall (fun r => Room.name r <> EmptyString) (getRooms c) /\
  Forall (fun r => forall m, Room.lastMessage r = Some m ->
                             Message.roomId m = Room.id r) (getRooms c).
Proof.
  intros Hc. unfold getRooms. rewrite Hc. split; [|split].
  - rewrite map_map. done.
  - apply List.Forall_forall. intros r (room & <- & _)%in_map_iff. cbn.
    unfold or_else. destruct (Sdk.roomName room); done.
  - apply List.Forall_forall. intros r (room & <- & _)%in_map_iff. cbn.
    intros m. destruct (Sdk.getLastLiveEvent room) as [event|]; [|done].
    unfold eventToMessage.
    destruct (Sdk.body (Sdk.getContent event)) as [body|]; [|done].
    destruct (negb (truthy body)); [done|]. by intros [= <-].
Qed.

Lemma getRooms_shape_witness :
  client Samples.connected = Some Samples.sdk_client /\
  map Room.id (getRooms Samples.connected)
  = map Sdk.roomId (Sdk.getRooms Samples.sdk_client) /\
  Forall (fun r => Room.name r <> EmptyString) (getRooms Samples.connected) /\
  Forall (fun r => forall m, Room.lastMessage r = Some m ->
                             Message.roomId m = Room.id r)
    (getRooms Samples.connected).
Proof.
  split; [reflexivity|].
  apply (getRooms_shape Samples.connected Samples.sdk_client). reflexivity.
Defined.

Lemma slice_last_length {A} n (l : list A) :
  0 < n -> length (slice_last n l) <= n.
Proof. destruct n; [lia|]. intros _. cbn [slice_last]. rewrite length_drop. lia. Qed.

Lemma omap_length {A B} (f : A -> option B) l : length (omap f l) <= length l.
Proof. induction l as [|x l IH]; cbn; [done|]. destruct (f x); cbn; lia. Qed.

(** [getMessages] with a positive limit returns at most [limit] messages:
    message events from the end of the room's live timeline that have a
    body, in the order of the timeline, each under the id of the room. *)
Theorem getMessages_bounded
    (decrypt : Sdk.MatrixEvent -> Decryption) (c : t) (roomId : string)
    (limit : nat) (loaded : list Message.t) :
  0 < limit ->
  (getMessages decrypt c roomId limit).1 = Ok loaded ->
  length loaded <= limit /\
  map Message.id loaded `sublist_of` ChatStore.timeline_ids c roomId /\
  Forall (fun m => Message.roomId m = roomId /\ Message.body m <> EmptyString)
    loaded.
Proof.
  intros Hlimit. unfold getMessages, ChatStore.timeline_ids.
  destruct (client c) as [mc|]; [|done]. unfold Sdk.getRoom.
  destruct (find _ (Sdk.getRooms mc)) as [room|] eqn:Hroom; cbn.
  2:{ intros [= <-]. cbn. repeat split; [lia|constructor|constructor]. }
  apply find_some in Hroom as [_ Hid%String.eqb_eq].
  intros [= <-]. split; [|split].
  - etrans; [apply omap_length|]. rewrite length_map.
    by apply slice_last_length.
  - etrans; [apply ChatStoreFacts.loaded_ids_sublist|].
    apply ChatStoreFacts.map_sublist.
    etrans; [apply ChatStoreFacts.slice_last_sublist|].
    apply ChatStoreFacts.filter_sublist.
  - apply List.Forall_forall. intros m Hm%list_elem_of_In.
    apply list_elem_of_omap in Hm as ([event tr] & _ & Hm).
    unfold eventToMessage in Hm.
    destruct (Sdk.body (Sdk.getContent event)) as [body|]; [|done].
    destruct (truthy body) eqn:Hb; [|done]. cbn in Hm. injection Hm as <-.
    cbn. split; [done|]. by destruct body.
Qed.

Lemma getMessages_bounded_witness :
  0 < 50 /\
  (getMessages Samples.unknown_session Samples.connected "!direct:clawchat.io" 50).1
  = Ok [Samples.hello] /\
  length [Samples.hello] <= 50 /\
  map Message.id [Samples.hello]
  `sublist_of` ChatStore.timeline_ids Samples.connected "!direct:clawchat.io" /\
  Forall (fun m => Message.roomId m = "!direct:clawchat.io" /\
                   Message.body m <> EmptyString)
    [Samples.hello].
Proof.
  split; [lia|]. split; [reflexivity|].
  apply (getMessages_bounded Samples.unknown_session Samples.connected
           "!direct:clawchat.io" 50 [Samples.hello]); [lia|reflexivity].
Defined.

Lemma find_none_forallb {A} (p : A -> bool) l :
  find p l = None <-> forallb (fun x => negb (p x)) l = true.
Proof.
  induction l as [|x l IH]; cbn; [done|].
  destruct (p x); cbn; [split; done|done].
Qed.

(** [getOrCreateBotRoom] on a client with a session creates a room exactly
    when no room it knows has two joined members with the bot among them.
    Then it makes one [createRoom] call, with encryption only if that was
    asked for and crypto is enabled, and returns what the server answers.
    The client stays as it was. *)
Theorem getOrCreateBotRoom_creates
    (c : t) (mc : Sdk.MatrixClient) (botUserId : string)
    (enableEncryption : bool) (created : result string) :
  client c = Some mc ->
  let call := getOrCreateBotRoom c botUserId enableEncryption created in
  let create :=
    CreateRoom botUserId (enableEncryption && Sdk.isCryptoEnabled mc) in
  call.1.2 = c /\
  (forallb (fun r => negb (is_direct_with botUserId r)) (Sdk.getRooms mc) = true ->
   call = (created, c, [create])) /\
  (forallb (fun r => negb (is_direct_with botUserId r)) (Sdk.getRooms mc) = false ->
   call.2 = []).
Proof.
  intros Hc. cbv zeta. unfold getOrCreateBotRoom. rewrite Hc.
  destruct (find _ (Sdk.getRooms mc)) as [room|] eqn:Hfind; cbn.
  - split; [done|]. split; [|done]. intros Hnone%find_none_forallb. congruence.
  - split; [done|]. split.
    + intros _. unfold isE2EEEnabled, cryptoEnabled. by rewrite Hc.
    + apply find_none_forallb in Hfind. congruence.
Qed.

Lemma getOrCreateBotRoom_creates_witness :
  client Samples.connected = Some Samples.sdk_client /\
  let call :=
    getOrCreateBotRoom Samples.connected "@bob:clawchat.io" true
      (Ok "!new:clawchat.io") in
  let create := CreateRoom "@bob:clawchat.io" (true && true) in
  call.1.2 = Samples.connected /\
  (forallb (fun r => negb (is_direct_with "@bob:clawchat.io" r))
     (Sdk.getRooms Samples.sdk_client) = true ->
   call = (Ok "!new:clawchat.io", Samples.connected, [create])) /\
  (forallb (fun r => negb (is_direct_with "@bob:clawchat.io" r))
     (Sdk.getRooms Samples.sdk_client) = false ->
   call.2 = []).
Proof.
  split; [reflexivity|].
  apply (getOrCreateBotRoom_creates Samples.connected Samples.sdk_client
           "@bob:clawchat.io" true (Ok "!new:clawchat.io")).
  reflexivity.
Defined.

(** [initializeClient] installs a client for the session whatever happens
    afterwards, also when it rejects or never settles; the callbacks stay
    registered and a later [sendMessage] passes the session check.  Crypto
    is enabled on that client exactly when E2EE is configured and the crypto
    backend started, and the device keys are uploaded exactly when, on top
    of that, the client started and the first sync state was PREPARED. *)
Theorem initializeClient_installs_client
    (c : t) (session : AuthSession.t) (env : InitEnv)
    (roomId text : string) (response : result string) :
  let ready := initializeClient c session env in
  (exists mc,
     client ready.1.2 = Some mc /\
     Sdk.getUserId mc = Some (AuthSession.userId session) /\
     Sdk.getDeviceId mc = Some (AuthSession.deviceId session)) /\
  config ready.1.2 = config c /\
  onMessageCallback ready.1.2 = onMessageCallback c /\
  onRoomUpdateCallback ready.1.2 = onRoomUpdateCallback c /\
  sendMessage ready.1.2 roomId text response
  = (response, ready.1.2, [SendTextMessage roomId text]) /\
  (cryptoEnabled ready.1.2 = true <->
   enableE2EE (config c) = true /\ exists crypto, initRustCrypto env = Ok crypto) /\
  (In UploadKeys ready.2 <->
   cryptoEnabled ready.1.2 = true /\
   startClient env = Ok tt /\ firstSyncState env = "PREPARED").
Proof.
  cbv zeta. unfold initializeClient, sendMessage, cryptoEnabled.
  destruct (enableE2EE (config c)) eqn:He2ee.
  - destruct (initRustCrypto env) as [crypto|e] eqn:Hinit.
    + destruct (startClient env) as [[]|e'] eqn:Hstart; cbn.
      * destruct (String.eqb_spec (firstSyncState env) "PREPARED") as [Hsync|Hsync];
          cbn.
        -- destruct (uploadKeys env) as [[]|e'']; cbn;
             (split; [by eexists|]); do 4 (split; [done|]);
             (split; [split; [by eauto|done]|]); split; [done|tauto|done|tauto].
        -- (split; [by eexists|]); do 4 (split; [done|]).
           split; [split; [by eauto|done]|].
           split; [intros [H|[H|[H|[]]]]; discriminate H|].
           intros (_ & _ & ?). done.
      * (split; [by eexists|]); do 4 (split; [done|]).
        split; [split; [by eauto|done]|].
        split; [intros [H|[H|[H|[]]]]; discriminate H|].
        intros (_ & ? & _). done.
    + destruct (startClient env) as [[]|e'] eqn:Hstart; cbn.
      * destruct (String.eqb_spec (firstSyncState env) "PREPARED") as [Hsync|Hsync];
          cbn;
          (split; [by eexists|]); do 4 (split; [done|]);
          (split; [split; [done|by intros (_ & ? & ?)]|]);
          (split; [intros [H|[H|[H|[]]]]; discriminate H|]);
          intros (? & _); done.
      * (split; [by eexists|]); do 4 (split; [done|]).
        split; [split; [done|by intros (_ & ? & ?)]|].
        split; [intros [H|[H|[H|[]]]]; discriminate H|].
        intros (? & _); done.
  - destruct (startClient env) as [[]|e'] eqn:Hstart; cbn.
    + destruct (String.eqb_spec (firstSyncState env) "PREPARED") as [Hsync|Hsync];
        cbn;
        (split; [by eexists|]); do 4 (split; [done|]);
        (split; [split; [done|by intros (? & _)]|]);
        (split; [intros [H|[]]; discriminate H|]);
        intros (? & _); done.
    + (split; [by eexists|]); do 4 (split; [done|]).
      split; [split; [done|by intros (? & _)]|].
      split; [intros [H|[]]; discriminate H|].
      intros (? & _); done.
Qed.

(** The messages that [getMessages] returns carry the id asked for. *)
Lemma getMessages_roomId decrypt c roomId limit loaded :
  (getMessages decrypt c roomId limit).1 = Ok loaded ->
  Forall (fun m => Message.roomId m = roomId) loaded.
Proof.
  unfold getMessages. destruct (client c) as [mc|]; [|done].
  unfold Sdk.getRoom.
  destruct (find _ (Sdk.getRooms mc)) as [room|] eqn:Hroom; cbn.
  - apply find_some in Hroom as [_ Hid%String.eqb_eq].
    intros [= <-]. apply List.Forall_forall. intros m Hm%list_elem_of_In.
    apply list_elem_of_omap in Hm as ([event tr] & _ & Hm).
    unfold eventToMessage in Hm.
    destruct (Sdk.body (Sdk.getContent event)) as [body|]; [|done].
    destruct (negb (truthy body)); [done|]. by injection Hm as <-.
  - intros [= <-]. constructor.
Qed.

(** Without crypto on the client, be it that E2EE is switched off, that the
    crypto backend failed to start or that there is no session, the E2EE
    operations fail with [Error('E2EE not enabled')] before any call into
    the SDK, there is no device fingerprint, and rooms are created without
    encryption even when encryption is asked for. *)
Theorem e2ee_operations_guarded (c : t) :
  cryptoEnabled c = false ->
  isE2EEEnabled c = false /\
  getDeviceFingerprint c = None /\
  (forall userId deviceId,
     verifyDevice c userId deviceId = (Err (JsError "E2EE not enabled"), c, [])) /\
  (forall userId deviceId requested,
     ClientCalls.startVerification c userId deviceId requested
     = (Err (JsError "E2EE not enabled"), [])) /\
  (forall passphrase exported,
     ClientCalls.exportKeys c passphrase exported
     = (Err (JsError "E2EE not enabled"), [])) /\
  (forall keysJson passphrase parses imported,
     ClientCalls.importKeys c keysJson passphrase parses imported
     = (Err (JsError "E2EE not enabled"), [])) /\
  (forall botUserId enableEncryption created,
     ~ In (CreateRoom botUserId true)
         (getOrCreateBotRoom c botUserId enableEncryption created).2).
Proof.
  intros Hc. split; [done|].
  unfold getDeviceFingerprint, verifyDevice, ClientCalls.startVerification,
    ClientCalls.exportKeys, ClientCalls.importKeys, getOrCreateBotRoom,
    isE2EEEnabled.
  rewrite Hc. unfold cryptoEnabled in Hc.
  destruct (client c) as [mc|]; [rewrite Hc|]; cbn.
  - do 5 (split; [done|]). intros bot enc created.
    destruct (find _ _); cbn; [tauto|]. rewrite andb_false_r.
    intros [[=]|[]].
  - do 5 (split; [done|]). intros _ _ _ [].
Qed.

Lemma e2ee_operations_guarded_witness :
  let c :=
    (initializeClient Samples.offline Samples.session Samples.crypto_broken).1.2 in
  cryptoEnabled c = false /\
  isE2EEEnabled c = false /\
  getDeviceFingerprint c = None /\
  (forall userId deviceId,
     verifyDevice c userId deviceId = (Err (JsError "E2EE not enabled"), c, [])) /\
  (forall userId deviceId requested,
     ClientCalls.startVerification c userId deviceId requested
     = (Err (JsError "E2EE not enabled"), [])) /\
  (forall passphrase exported,
     ClientCalls.exportKeys c passphrase exported
     = (Err (JsError "E2EE not enabled"), [])) /\
  (forall keysJson passphrase parses imported,
     ClientCalls.importKeys c keysJson passphrase parses imported
     = (Err (JsError "E2EE not enabled"), [])) /\
  (forall botUserId enableEncryption created,
     ~ In (CreateRoom botUserId true)
         (getOrCreateBotRoom c botUserId enableEncryption created).2).
Proof.
  split; [reflexivity|].
  apply (e2ee_operations_guarded
           (initializeClient Samples.offline Samples.session
              Samples.crypto_broken).1.2).
  reflexivity.
Defined.

(** [logout] ends the session of every client: afterwards the client is
    not connected, has no user and lists no rooms, every operation that
    needs a session fails with [Error('Client not initialized')] without a
    call into the SDK, and a second [logout] does nothing.  The
    configuration and the registered callbacks stay; the server is told
    only when there was a session. *)
Theorem logout_ends_session
    (decrypt : Sdk.MatrixEvent -> Decryption) (c : t) :
  let '(c', tr) := logout c in
  client c' = None /\
  isConnected c' = false /\ getUserId c' = None /\ getDeviceId c' = None /\
  getRooms c' = [] /\
  (forall roomId, isRoomEncrypted c' roomId = false) /\
  config c' = config c /\
  onMessageCallback c' = onMessageCallback c /\
  onRoomUpdateCallback c' = onRoomUpdateCallback c /\
  tr = match client c with Some _ => [Logout; StopClient] | None => [] end /\
  logout c' = (c', []) /\
  (forall roomId text response,
     sendMessage c' roomId text response = (Err not_initialized, c', [])) /\
  (forall roomId limit,
     getMessages decrypt c' roomId limit = (Err not_initialized, [])) /\
  (forall botUserId enableEncryption created,
     getOrCreateBotRoom c' botUserId enableEncryption created
     = (Err not_initialized, c', [])) /\
  (forall roomId joined,
     ClientCalls.joinRoom c' roomId joined = (Err not_initialized, [])) /\
  (forall roomId left,
     ClientCalls.leaveRoom c' roomId left = (Err not_initialized, [])) /\
  (forall roomId sent,
     ClientCalls.enableRoomEncryption c' roomId sent = (Err not_initialized, [])).
Proof.
  unfold logout. destruct (client c) as [mc|] eqn:Hc.
  - by repeat split.
  - unfold isConnected, getUserId, getDeviceId, getRooms, isRoomEncrypted,
      sendMessage, getMessages, getOrCreateBotRoom, ClientCalls.joinRoom,
      ClientCalls.leaveRoom, ClientCalls.enableRoomEncryption.
    rewrite Hc. by repeat split.
Qed.

(** [login] stops its temporary client exactly when it settles: the
    trace starts with the password login and, unless the call is left
    pending by the first sync, ends with the stop.  A rejected password
    login leaves the client untouched; a resolved call returns the session
    of the server's answer on the configured homeserver and has installed a
    client for that user. *)
Theorem login_stops_temp_client
    (c : t) (username password : string) (response : result LoginResponse)
    (env : InitEnv) :
  let '(out, c', tr) := login c username password response env in
  head tr = Some (TempLogin username) /\
  (out <> Pending -> last tr = Some TempStopClient) /\
  (out = Pending -> ~ In TempStopClient tr) /\
  (forall e, response = Err e ->
     out = Rejected e /\ c' = c /\ tr = [TempLogin username; TempStopClient]) /\
  (forall session, out = Resolved session ->
     exists r mc,
       response = Ok r /\
       session = AuthSession.mk (access_token r) (user_id r) (device_id r)
                   (homeserver (config c)) /\
       client c' = Some mc /\
       Sdk.getUserId mc = Some (user_id r) /\
       startClient env = Ok tt /\ firstSyncState env = "PREPARED").
Proof.
  unfold login. destruct response as [r|e].
  2:{ split; [done|]. split; [done|]. split; [done|].
      split; [by intros e' [= <-]|]. intros session' Hs. discriminate Hs. }
  unfold initializeClient.
  destruct (enableE2EE (config c)); [destruct (initRustCrypto env)|];
    (destruct (startClient env) as [[]|e'];
     [destruct (String.eqb_spec (firstSyncState env) "PREPARED")|]);
    cbn; try destruct (uploadKeys env) as [[]|e'']; cbn;
    (split; [done|]); (split; [done|]);
    (split; [first [done|intros _; intros [H|[H|[H|[H|[]]]]]; discriminate H
                   |intros _; intros [H|[H|[]]]; discriminate H]|]);
    (split; [done|]); intros session' Hs; try discriminate Hs;
    injection Hs as <-; by eexists _, _.
Qed.

End ClientMore.

(* ===================================================================== *)
(** ** Properties of the auth store and the client singleton *)
(* ===================================================================== *)

Module AuthStoreFacts.
Import Js AuthStore.

Lemma initializeClient_client c session env :
  exists mc, Client.client (Client.initializeClient c session env).1.2 = Some mc.
Proof.
  unfold Client.initializeClient.
  destruct (Client.enableE2EE (Client.config c));
    [destruct (Client.initRustCrypto env)|];
    (destruct (Client.startClient env);
     [destruct (negb _); [|cbn; try destruct (Client.uploadKeys env)]|]);
    cbn; by eexists.
Qed.

Lemma initializeClient_callbacks c session env :
  Client.onMessageCallback (Client.initializeClient c session env).1.2
  = Client.onMessageCallback c /\
  Client.onRoomUpdateCallback (Client.initializeClient c session env).1.2
  = Client.onRoomUpdateCallback c.
Proof.
  unfold Client.initializeClient.
  destruct (Client.enableE2EE (Client.config c));
    [destruct (Client.initRustCrypto env)|];
    (destruct (Client.startClient env);
     [destruct (negb _); [|cbn; try destruct (Client.uploadKeys env)]|]);
    cbn; done.
Qed.

(** What [login] and [register] do to the client they are called on. *)
Lemma login_client c username password response env :
  let call := Client.login c username password response env in
  (is_Some (Client.client c) \/ (exists s, call.1.1 = Resolved s) ->
   is_Some (Client.client call.1.2)) /\
  Client.onMessageCallback call.1.2 = Client.onMessageCallback c /\
  Client.onRoomUpdateCallback call.1.2 = Client.onRoomUpdateCallback c.
Proof.
  cbv zeta. unfold Client.login. destruct response as [r|e]; cbn.
  2:{ split; [|done]. intros [H|[s [=]]]. done. }
  set (session := AuthSession.mk _ _ _ _).
  destruct (initializeClient_client c session env) as [mc Hmc].
  destruct (initializeClient_callbacks c session env) as [H1 H2].
  destruct (Client.initializeClient c session env) as [[[]] tr]; cbn in *;
    rewrite Hmc; by eauto.
Qed.

Lemma register_client c username password response env :
  let call := ClientCalls.register c username password response env in
  (is_Some (Client.client c) \/ (exists s, call.1.1 = Resolved s) ->
   is_Some (Client.client call.1.2)) /\
  Client.onMessageCallback call.1.2 = Client.onMessageCallback c /\
  Client.onRoomUpdateCallback call.1.2 = Client.onRoomUpdateCallback c.
Proof.
  cbv zeta. unfold ClientCalls.register. destruct response as [r|e]; cbn.
  2:{ split; [|done]. intros [H|[s [=]]]. done. }
  set (session := AuthSession.mk _ _ _ _).
  destruct (initializeClient_client c session env) as [mc Hmc].
  destruct (initializeClient_callbacks c session env) as [H1 H2].
  destruct (Client.initializeClient c session env) as [[[]] tr]; cbn in *;
    rewrite Hmc; by eauto.
Qed.

Lemma getMatrixClient_instance D instance homeserver enableE2EE :
  let call := Singleton.getMatrixClient D instance homeserver enableE2EE in
  call.2 = Some call.1 /\
  (forall c, instance = Some c -> call.1 = c) /\
  (instance = None -> call.1 = Client.new D homeserver enableE2EE).
Proof. destruct instance; cbn; repeat split; congruence. Qed.

Section Invariant.
Variable DEFAULT_HOMESERVER : string.

Lemma consistent_intro st stored instance :
  (isAuthenticated st = true <-> is_Some (session st)) ->
  (isAuthenticated st = true ->
   exists c mc, instance = Some c /\ Client.client c = Some mc) ->
  consistent (mkWorld st stored instance).
Proof. by split. Qed.

Lemma step_consistent w a :
  consistent w -> consistent (step DEFAULT_HOMESERVER w a).
Proof.
  intros [Hauth Hclient]. destruct a as [env deleted|u p response env saved
    |u p response env saved|deleted|]; cbn [step].
  - (* initialize *)
    unfold initialize. destruct (stored w) as [[s|]|] eqn:Hst; cbn.
    + pose proof (getMatrixClient_instance DEFAULT_HOMESERVER (clientInstance w)
                    (Some (AuthSession.homeserver s)) None) as (Hi & _ & _).
      destruct (Singleton.getMatrixClient _ _ _ _) as [c instance].
      unfold Client.restoreSession.
      destruct (initializeClient_client c s env) as [mc Hmc].
      destruct (Client.initializeClient c s env) as [[[]] tr]; cbn in *.
      * apply consistent_intro; cbn; [split; [by eauto|done]|].
        intros _. by eexists _, _.
      * destruct deleted; cbn; (apply consistent_intro; cbn; [done|]);
          intros _; by eexists _, _.
      * apply consistent_intro; cbn; [done|]. intros _. by eexists _, _.
    + destruct deleted; cbn; by apply consistent_intro.
    + by apply consistent_intro.
  - (* login *)
    unfold login.
    pose proof (getMatrixClient_instance DEFAULT_HOMESERVER (clientInstance w)
                  None None) as (Hi & Hsame & _).
    destruct (Singleton.getMatrixClient _ _ _ _) as [c instance]. cbn in Hi, Hsame.
    pose proof (login_client c u p response env) as (Hinst & _ & _).
    destruct (Client.login c u p response env) as [[out c'] tr]. cbn in Hinst.
    assert (Hkeep : isAuthenticated (state w) = true ->
                    exists c0 mc, Some c' = Some c0 /\ Client.client c0 = Some mc).
    { intros (c0 & mc & Hc0 & Hmc)%Hclient. exists c'.
      rewrite (Hsame c0 Hc0) in Hinst. rewrite Hmc in Hinst.
      destruct Hinst as [mc' Hmc']; [by left; eauto|]. by eauto. }
    destruct out as [s|e|]; [destruct saved|..]; cbn;
      apply consistent_intro; cbn; try done.
    intros _. destruct Hinst as [mc' Hmc']; [by right; eauto|].
    by eexists _, _.
  - (* register *)
    unfold register.
    pose proof (getMatrixClient_instance DEFAULT_HOMESERVER (clientInstance w)
                  None None) as (Hi & Hsame & _).
    destruct (Singleton.getMatrixClient _ _ _ _) as [c instance]. cbn in Hi, Hsame.
    pose proof (register_client c u p response env) as (Hinst & _ & _).
    destruct (ClientCalls.register c u p response env) as [[out c'] tr].
    cbn in Hinst.
    assert (Hkeep : isAuthenticated (state w) = true ->
                    exists c0 mc, Some c' = Some c0 /\ Client.client c0 = Some mc).
    { intros (c0 & mc & Hc0 & Hmc)%Hclient. exists c'.
      rewrite (Hsame c0 Hc0) in Hinst. rewrite Hmc in Hinst.
      destruct Hinst as [mc' Hmc']; [by left; eauto|]. by eauto. }
    destruct out as [s|e|]; [destruct saved|..]; cbn;
      apply consistent_intro; cbn; try done.
    intros _. destruct Hinst as [mc' Hmc']; [by right; eauto|].
    by eexists _, _.
  - (* logout *)
    unfold logout. apply consistent_intro; cbn; [|done].
    split; [done|]. by intros [? [=]].
  - (* clearError *)
    by apply consistent_intro.
Qed.

Lemma run_consistent acts w :
  consistent w -> consistent (run DEFAULT_HOMESERVER w acts).
Proof.
  revert w. induction acts as [|a acts IH]; intros w Hw; [done|].
  cbn [run fold_left]. by apply IH, step_consistent.
Qed.

End Invariant.

(** Whatever actions of the auth store run one after the other on a newly
    opened app, and however the server and the secure store answer, the
    store says "authenticated" exactly when it holds a session, and then the
    client singleton exists and has a session of its own. *)
Theorem auth_store_consistent
    (DEFAULT_HOMESERVER : string) (acts : list Action) :
  let w := run DEFAULT_HOMESERVER fresh acts in
  (isAuthenticated (state w) = true <-> is_Some (session (state w))) /\
  (isAuthenticated (state w) = true ->
   exists c mc,
     clientInstance w = Some c /\ Client.client c = Some mc /\
     forall roomId text response,
       Client.sendMessage c roomId text response
       = (response, c, [Client.SendTextMessage roomId text])).
Proof.
  cbv zeta.
  destruct (run_consistent DEFAULT_HOMESERVER acts fresh) as [Hauth Hclient].
  { split; cbn; [|done]. split; [done|]. by intros [? [=]]. }
  split; [done|]. intros (c & mc & Hc & Hmc)%Hclient.
  exists c, mc. do 2 (split; [done|]). intros roomId text response.
  unfold Client.sendMessage. by rewrite Hmc.
Qed.

(** A session saved by [login] survives a restart of the app: when [login]
    resolves, the store is authenticated with the session it saved, and
    after a restart [initialize] restores exactly that session, provided the
    client can be started for it again. *)
Theorem login_survives_restart
    (DEFAULT_HOMESERVER : string) (w : World) (username password : string)
    (response : result Client.LoginResponse) (env env' : Client.InitEnv)
    (saved deleted : result unit) :
  (login DEFAULT_HOMESERVER w username password response env saved).1
  = Resolved tt ->
  let w1 := (login DEFAULT_HOMESERVER w username password response env saved).2 in
  exists s,
    state w1 = mk false true (Some s) None /\
    stored w1 = Some (Session s) /\
    ((Client.restoreSession
        (Client.new DEFAULT_HOMESERVER (Some (AuthSession.homeserver s)) None)
        s env').1.1 = Resolved tt ->
     let back := initialize DEFAULT_HOMESERVER (restart w1) env' deleted in
     back.1 = Resolved tt /\
     state back.2 = mk false true (Some s) None /\
     stored back.2 = Some (Session s)).
Proof.
  unfold login.
  destruct (Singleton.getMatrixClient _ _ _ _) as [c instance].
  destruct (Client.login c username password response env) as [[[s|e|] c'] tr];
    [destruct saved as [[]|e]|..]; cbn; try done.
  intros _. exists s. do 2 (split; [done|]).
  unfold initialize, restart. cbn.
  destruct (Client.restoreSession _ s env') as [[[[]|e|] c''] tr']; by cbn.
Qed.

Lemma login_survives_restart_witness :
  (login "https://matrix.clawchat.io" fresh "alice" "secret"
     (Ok Samples.login_response) MoreSamples.synced (Ok tt)).1
  = Resolved tt /\
  exists s,
    state (login "https://matrix.clawchat.io" fresh "alice" "secret"
             (Ok Samples.login_response) MoreSamples.synced (Ok tt)).2
    = mk false true (Some s) None /\
    stored (login "https://matrix.clawchat.io" fresh "alice" "secret"
              (Ok Samples.login_response) MoreSamples.synced (Ok tt)).2
    = Some (Session s) /\
    ((Client.restoreSession
        (Client.new "https://matrix.clawchat.io"
           (Some (AuthSession.homeserver s)) None)
        s MoreSamples.synced).1.1 = Resolved tt ->
     let back :=
       initialize "https://matrix.clawchat.io"
         (restart
            (login "https://matrix.clawchat.io" fresh "alice" "secret"
               (Ok Samples.login_response) MoreSamples.synced (Ok tt)).2)
         MoreSamples.synced (Ok tt) in
     back.1 = Resolved tt /\
     state back.2 = mk false true (Some s) None /\
     stored back.2 = Some (Session s)).
Proof.
  split; [reflexivity|].
  apply (login_survives_restart "https://matrix.clawchat.io" fresh "alice"
           "secret" (Ok Samples.login_response) MoreSamples.synced
           MoreSamples.synced (Ok tt) (Ok tt)).
  reflexivity.
Defined.



(** The callbacks belong to the client object, and [logout] drops the
    object: the client that the next [login] gets from [getMatrixClient] has
    no callback registered, whatever was registered before, so it hands no
    message and no room list to anyone until the callbacks are registered
    anew. *)
Theorem callbacks_lost_after_logout
    (DEFAULT_HOMESERVER : string) (w : World) (deleted : result unit)
    (username password : string) (response : result Client.LoginResponse)
    (env : Client.InitEnv) (saved : result unit) :
  let w2 :=
    (login DEFAULT_HOMESERVER (logout w deleted) username password response env
       saved).2 in
  exists c,
    clientInstance w2 = Some c /\
    Client.onMessageCallback c = false /\
    Client.onRoomUpdateCallback c = false /\
    Client.emitRoomUpdate c = [] /\
    forall decrypt event room toStartOfTimeline,
      Client.delivered (Client.onTimeline decrypt c event room toStartOfTimeline)
      = [].
Proof.
  cbv zeta. unfold login, logout. cbn.
  assert (Hi : (Singleton.resetMatrixClient (clientInstance w)).1 = None)
    by (by destruct (clientInstance w)).
  rewrite Hi. cbn.
  pose proof (login_client (Client.new DEFAULT_HOMESERVER None None) username
                password response env) as (_ & Hm & Hr).
  destruct (Client.login _ username password response env) as [[out c'] tr].
  cbn in Hm, Hr.
  assert (Hc : exists c,
             Some c' = Some c /\ Client.onMessageCallback c = false /\
             Client.onRoomUpdateCallback c = false /\
             Client.emitRoomUpdate c = [] /\
             forall decrypt event room toStart,
               Client.delivered (Client.onTimeline decrypt c event room toStart)
               = []).
  { exists c'. split; [done|]. split; [done|]. split; [done|].
    split; [unfold Client.emitRoomUpdate; by rewrite Hr|].
    intros decrypt event room toStart. unfold Client.onTimeline.
    destruct toStart; [done|]. destruct (negb _); [done|].
    unfold Client.decryptIfNeeded.
    destruct (Sdk.isEncrypted event && Client.cryptoEnabled c'); cbn;
      destruct (Client.eventToMessage c' _ room); rewrite ?Hm; try done;
      by destruct (Client.thrown (decrypt event)). }
  destruct out as [s|e|]; [destruct saved|..]; exact Hc.
Qed.

End AuthStoreFacts.

(* ===================================================================== *)
(** ** Properties of the search store *)
(* ===================================================================== *)

Module SearchStoreFacts.
Import Js JsStrings SearchStore JsStringsFacts.
Local Arguments String.append : simpl nomatch.

Lemma substring_length n m s : String.length (String.substring n m s) <= m.
Proof.
  revert n m. induction s as [|c s IH]; intros [|n] [|m]; simpl; try lia.
  - specialize (IH 0 m). lia.
  - apply IH.
  - apply IH.
Qed.

Lemma prefix_length s1 s2 :
  String.prefix s1 s2 = true -> String.length s1 <= String.length s2.
Proof.
  revert s1. induction s2 as [|b s2 IH]; intros [|a s1]; simpl; try lia; try done.
  destruct (ascii_dec a b); [|done]. intros H%IH. lia.
Qed.

Lemma index_bounds n s1 s2 m :
  String.index n s1 s2 = Some m ->
  n <= m /\ m + String.length s1 <= String.length s2.
Proof.
  revert n m. induction s2 as [|b s2 IH]; intros [|n] m; cbn [String.index].
  - destruct s1; [|done]. intros [= ?]; subst. simpl. lia.
  - done.
  - destruct (String.prefix s1 (String b s2)) eqn:Hp.
    + intros [= ?]; subst. apply prefix_length in Hp. simpl in *. lia.
    + destruct (String.index 0 s1 s2) as [k|] eqn:Hk; [|done].
      intros [= ?]; subst. apply IH in Hk. simpl in *. lia.
  - destruct (String.index n s1 s2) as [k|] eqn:Hk; [|done].
    intros [= ?]; subst. apply IH in Hk. simpl in *. lia.
Qed.

Lemma highlight_length body index queryLength :
  String.length (highlight body index queryLength) <= queryLength + 46.
Proof.
  unfold highlight, slice. cbv zeta.
  pose proof (substring_length (index - 20)
                (Nat.min (String.length body) (index + queryLength + 20)
                 - (index - 20)) body) as Hsub.
  repeat case_match; rewrite ?append_length; simpl; lia.
Qed.

Lemma occurs_at_true q s p :
  occurs_at q s p = true <-> String.substring p (String.length q) s = q.
Proof. unfold occurs_at. apply String.eqb_eq. Qed.

Lemma filter_none {A} (f : A -> bool) l :
  (forall x, In x l -> f x = false) -> List.filter f l = [].
Proof.
  induction l as [|x l IH]; intros H; [done|]. cbn.
  rewrite (H x) by (by left). apply IH. intros y Hy. apply H. by right.
Qed.

(** The loop, given enough iterations, visits the occurrences of the query
    from [startIndex] on, in order. *)
Lemma highlights_from_occurrences fuel body bodyLower q startIndex :
  q <> EmptyString ->
  S (String.length bodyLower) - startIndex <= fuel ->
  highlights_from fuel body bodyLower q startIndex
  = map (fun p => highlight body p (String.length q))
      (List.filter (occurs_at q bodyLower)
         (seq startIndex (S (String.length bodyLower) - startIndex))).
Proof.
  intros Hq. revert startIndex.
  induction fuel as [|fuel IH]; intros startIndex Hfuel.
  - replace (S (String.length bodyLower) - startIndex) with 0 by lia. done.
  - cbn [highlights_from]. unfold indexOf.
    destruct (String.index startIndex q bodyLower) as [m|] eqn:Hidx.
    + pose proof (index_bounds _ _ _ _ Hidx) as [Hle Hlen].
      assert (0 < String.length q) by (destruct q; [done|simpl; lia]).
      replace (S (String.length bodyLower) - startIndex)
        with ((m - startIndex) + S (S (String.length bodyLower) - (m + 1)))
        by lia.
      rewrite List.seq_app, List.filter_app. cbn [seq List.filter].
      replace (startIndex + (m - startIndex)) with m by lia.
      rewrite filter_none.
      2:{ intros p [Hp1 Hp2]%in_seq.
          destruct (occurs_at q bodyLower p) eqn:Hocc; [|done].
          apply occurs_at_true in Hocc.
          by destruct (String.index_correct2 _ _ _ _ Hidx p); [lia..|]. }
      rewrite (proj2 (occurs_at_true q bodyLower m))
        by (by eapply String.index_correct1).
      cbn [app map]. f_equal. rewrite IH by lia.
      by replace (S m) with (m + 1) by lia.
    + rewrite filter_none; [done|]. intros p [Hp1 Hp2]%in_seq.
      destruct (occurs_at q bodyLower p) eqn:Hocc; [|done].
      apply occurs_at_true in Hocc.
      by destruct (String.index_correct3 _ p _ _ Hidx Hq); [lia|].
Qed.

(** The highlight loop ends by itself and gives one highlight for every
    position at which the query stands in the lowered body, overlapping
    occurrences included, in increasing order of position; no highlight is
    longer than the query plus 46 characters, and a body that includes the
    query gets at least one. *)
Theorem find_highlights_occurrences
    (body bodyLower trimmedQuery : string) (extra : nat) :
  trimmedQuery <> EmptyString ->
  find_highlights body bodyLower trimmedQuery
  = map (fun p => highlight body p (String.length trimmedQuery))
      (List.filter (occurs_at trimmedQuery bodyLower)
         (seq 0 (S (String.length bodyLower)))) /\
  highlights_from (S (String.length bodyLower) + extra) body bodyLower
    trimmedQuery 0
  = find_highlights body bodyLower trimmedQuery /\
  Forall (fun h => String.length h <= String.length trimmedQuery + 46)
    (find_highlights body bodyLower trimmedQuery) /\
  (includes trimmedQuery bodyLower = true ->
   find_highlights body bodyLower trimmedQuery <> []).
Proof.
  intros Hq. unfold find_highlights.
  rewrite !highlights_from_occurrences by (done || lia).
  rewrite Nat.sub_0_r. split; [done|]. split; [done|]. split.
  - apply List.Forall_forall. intros h (p & <- & _)%in_map_iff.
    apply highlight_length.
  - unfold includes, indexOf.
    destruct (String.index 0 trimmedQuery bodyLower) as [m|] eqn:Hidx; [|done].
    intros _ Hnil. apply map_eq_nil in Hnil.
    pose proof (index_bounds _ _ _ _ Hidx) as [_ Hlen].
    assert (Hin : In m (List.filter (occurs_at trimmedQuery bodyLower)
                          (seq 0 (S (String.length bodyLower))))).
    { apply filter_In. split; [apply in_seq; lia|].
      apply occurs_at_true. by eapply String.index_correct1. }
    rewrite Hnil in Hin. destruct Hin.
Qed.

Lemma find_highlights_occurrences_witness :
  "aba" <> EmptyString /\
  find_highlights "ABABA" "ababa" "aba"
  = map (fun p => highlight "ABABA" p (String.length "aba"))
      (List.filter (occurs_at "aba" "ababa") (seq 0 (S (String.length "ababa")))) /\
  highlights_from (S (String.length "ababa") + 3) "ABABA" "ababa" "aba" 0
  = find_highlights "ABABA" "ababa" "aba" /\
  Forall (fun h => String.length h <= String.length "aba" + 46)
    (find_highlights "ABABA" "ababa" "aba") /\
  (includes "aba" "ababa" = true ->
   find_highlights "ABABA" "ababa" "aba" <> []).
Proof.
  split; [discriminate|].
  apply (find_highlights_occurrences "ABABA" "ababa" "aba" 3). discriminate.
Defined.

(** Overlapping occurrences are both found. *)
Example find_highlights_overlap :
  find_highlights "ABABA" "ababa" "aba" = ["ABABA"; "ABABA"].
Proof. reflexivity. Qed.

Lemma insert_result_HdRel a r l :
  newest_first a r -> HdRel newest_first a l ->
  HdRel newest_first a (insert_result r l).
Proof.
  intros Har Hal. destruct l as [|r' l]; cbn; [by constructor|].
  inversion_clear Hal. case_match; by constructor.
Qed.

Lemma insert_result_Sorted r l :
  Sorted newest_first l -> Sorted newest_first (insert_result r l).
Proof.
  induction 1 as [|r' l Hl IH Hhd]; cbn; [by repeat constructor|].
  destruct (Z.ltb_spec (Message.timestamp (message r))
              (Message.timestamp (message r'))) as [Hlt|Hge].
  - constructor; [done|]. apply insert_result_HdRel; [|done].
    unfold newest_first. lia.
  - constructor; [by constructor|]. constructor. unfold newest_first. lia.
Qed.

Lemma sort_results_Sorted l : Sorted newest_first (sort_results l).
Proof.
  induction l as [|r l IH]; cbn; [constructor|]. by apply insert_result_Sorted.
Qed.

Lemma insert_result_Permutation r l : insert_result r l ≡ₚ r :: l.
Proof.
  induction l as [|r' l IH]; cbn; [done|]. case_match; [|done].
  rewrite IH. apply Permutation_swap.
Qed.

Lemma sort_results_Permutation l : sort_results l ≡ₚ l.
Proof.
  induction l as [|r l IH]; cbn; [done|].
  by rewrite insert_result_Permutation, IH.
Qed.

Lemma search_rooms_found decrypt toLowerCase c q rooms :
  q <> EmptyString ->
  (Client.client c = None -> rooms = []) ->
  exists found,
    search_rooms decrypt toLowerCase c q rooms = Ok found /\
    Forall (well_formed_result toLowerCase q) found.
Proof.
  intros Hq Hrooms. induction rooms as [|room rooms IH].
  - exists []. split; [done|constructor].
  - destruct (Client.client c) as [mc|] eqn:Hc; [|by specialize (Hrooms eq_refl)].
    destruct IH as (found & Hfound & Hall); [done|].
    cbn [search_rooms]. rewrite Hfound.
    destruct (Client.getMessages decrypt c (Room.id room) 100).1
      as [messages|e] eqn:Hm.
    2:{ unfold Client.getMessages in Hm. rewrite Hc in Hm.
        by destruct (Sdk.getRoom mc (Room.id room)). }
    eexists. split; [done|]. apply Forall_app. split; [|done].
    apply ClientMore.getMessages_roomId in Hm.
    apply List.Forall_forall. intros r (m & Hin & Hr)%in_flat_map.
    unfold match_message in Hr.
    destruct (includes q (toLowerCase (Message.body m))) eqn:Hinc; [|done].
    destruct Hr as [<-|[]]. cbn. repeat split; [done| |].
    + by apply (find_highlights_occurrences _ _ _ 0 Hq).
    + symmetry. eapply (proj1 (List.Forall_forall _ _) Hm). done.
Qed.

Lemma insert_result_Forall (P : SearchResult -> Prop) r l :
  P r -> Forall P l -> Forall P (insert_result r l).
Proof.
  intros Hr. induction 1 as [|r' l Hr' Hl IH]; cbn; [by repeat constructor|].
  case_match; by repeat constructor.
Qed.

Lemma sort_results_Forall (P : SearchResult -> Prop) l :
  Forall P l -> Forall P (sort_results l).
Proof.
  induction 1 as [|r l Hr Hl IH]; cbn; [constructor|].
  by apply insert_result_Forall.
Qed.

Lemma search_rooms_complete decrypt toLowerCase c q rooms found room messages m :
  search_rooms decrypt toLowerCase c q rooms = Ok found ->
  In room rooms ->
  (Client.getMessages decrypt c (Room.id room) 100).1 = Ok messages ->
  In m messages ->
  includes q (toLowerCase (Message.body m)) = true ->
  In (mkResult m (Room.id room) (Room.name room)
        (find_highlights (Message.body m) (toLowerCase (Message.body m)) q))
    found.
Proof.
  revert found. induction rooms as [|room' rooms IH]; intros found; [done|].
  cbn [search_rooms].
  destruct (Client.getMessages decrypt c (Room.id room') 100).1
    as [messages'|e] eqn:Hm'; [|done].
  destruct (search_rooms decrypt toLowerCase c q rooms) as [found'|e] eqn:Hf;
    [|done].
  intros [= <-] [->|Hin] Hmsgs Hm Hinc; apply in_or_app.
  - left. apply in_flat_map. exists m. rewrite Hm' in Hmsgs.
    injection Hmsgs as ->. split; [done|]. unfold match_message.
    rewrite Hinc. by left.
  - right. by apply IH.
Qed.

(** A search with a query of at least two characters, run to its end, never
    ends in the error state.  It lists, newest first, the messages whose
    lowered body includes the lowered query, each under the id of its room
    and with at least one highlight, and it misses none of the messages that
    [getMessages] returns for the rooms of the client; without a session it
    lists nothing. *)
Theorem search_results
    (decrypt : Sdk.MatrixEvent -> Client.Decryption)
    (trim toLowerCase : string -> string)
    (st : SearchState) (c : Client.t) (query : string) :
  2 <= String.length (toLowerCase (trim query)) ->
  let trimmedQuery := toLowerCase (trim query) in
  let st' := search decrypt trim toLowerCase st c query in
  error st' = None /\
  isSearching st' = false /\
  hasSearched st' = true /\
  SearchStore.query st' = SearchStore.query st /\
  Sorted newest_first (results st') /\
  Forall (well_formed_result toLowerCase trimmedQuery) (results st') /\
  (forall room messages m,
     In room (Client.getRooms c) ->
     (Client.getMessages decrypt c (Room.id room) 100).1 = Ok messages ->
     In m messages ->
     includes trimmedQuery (toLowerCase (Message.body m)) = true ->
     exists r,
       In r (results st') /\ message r = m /\
       roomId r = Room.id room /\ roomName r = Room.name room) /\
  (Client.client c = None -> results st' = []).
Proof.
  intros Hlen trimmedQuery st'. unfold st', search.
  fold trimmedQuery. rewrite (proj2 (Nat.ltb_ge _ _)) by done.
  destruct (search_rooms_found decrypt toLowerCase c trimmedQuery
              (Client.getRooms c)) as (found & Hfound & Hall).
  { intros Heq. unfold trimmedQuery in Heq. rewrite Heq in Hlen.
    cbn in Hlen. lia. }
  { intros Hc. unfold Client.getRooms. by rewrite Hc. }
  rewrite Hfound. cbn. do 4 (split; [done|]).
  split; [apply sort_results_Sorted|]. split; [by apply sort_results_Forall|].
  split.
  - intros room messages m Hroom Hmsgs Hm Hinc. eexists. split.
    + apply list_elem_of_In. rewrite sort_results_Permutation.
      apply list_elem_of_In.
      by apply (search_rooms_complete _ _ _ _ _ _ _ _ _ Hfound Hroom Hmsgs Hm).
    + done.
  - intros Hc. unfold Client.getRooms in Hfound. rewrite Hc in Hfound.
    cbn in Hfound. by injection Hfound as <-.
Qed.

Lemma search_results_witness :
  2 <= String.length ((fun s : string => s) ((fun s : string => s) "hello")) /\
  let trimmedQuery := "hello" in
  let st' :=
    search Samples.unknown_session (fun s => s) (fun s => s) initial
      Samples.connected "hello" in
  error st' = None /\
  isSearching st' = false /\
  hasSearched st' = true /\
  SearchStore.query st' = SearchStore.query initial /\
  Sorted newest_first (results st') /\
  Forall (well_formed_result (fun s => s) trimmedQuery) (results st') /\
  (forall room messages m,
     In room (Client.getRooms Samples.connected) ->
     (Client.getMessages Samples.unknown_session Samples.connected
        (Room.id room) 100).1 = Ok messages ->
     In m messages ->
     includes trimmedQuery (Message.body m) = true ->
     exists r,
       In r (results st') /\ message r = m /\
       roomId r = Room.id room /\ roomName r = Room.name room) /\
  (Client.client Samples.connected = None -> results st' = []).
Proof.
  split; [cbn; lia|].
  apply (search_results Samples.unknown_session (fun s => s) (fun s => s)
           initial Samples.connected "hello").
  cbn. lia.
Defined.

(** The search of the witness finds the message of the one-to-one room and
    the two copies in the room whose timeline holds it twice. *)
Example search_finds_hello :
  map (fun r => (roomId r, highlights r))
    (results
       (search Samples.unknown_session (fun s => s) (fun s => s) initial
          Samples.connected "hello"))
  = [("!direct:clawchat.io", ["hello"]);
     ("!replayed:clawchat.io", ["hello"]);
     ("!replayed:clawchat.io", ["hello"])].
Proof. reflexivity. Qed.

End SearchStoreFacts.

(* ===================================================================== *)
(** ** Further properties of the chat store *)
(* ===================================================================== *)

Module ChatStoreMore.
Import Js ChatStore.

Section Store.
Variable decrypt : Sdk.MatrixEvent -> Client.Decryption.
Variable trim : string -> string.

Lemma loadMessages_error st c roomId :
  is_Some (error st) -> is_Some (error (loadMessages decrypt st c roomId)).
Proof.
  intros He. unfold loadMessages.
  destruct (Client.getMessages decrypt c roomId 100).1; cbn; [done|by eauto].
Qed.

Lemma step_error st a :
  is_Some (error st) -> is_Some (error (step decrypt trim st a)).
Proof.
  intros He.
  destruct a as [c|m|rooms|c roomId|roomId|c|c roomId|c text response
    |c uri filename fetched uploaded sent|c bot enable created|c];
    cbn [step]; try done.
  - unfold onMessage. by destruct (has_id _ _).
  - by apply loadMessages_error.
  - by apply loadMessages_error.
  - unfold sendMessage. destruct (_ || _); [done|].
    destruct (Client.sendMessage _ _ _ _).1.1; cbn; [done|by eauto].
  - unfold sendImage. destruct (negb _); [done|].
    destruct (Client.sendImage _ _ _ _ _ _ _).1.1; cbn; [done|by eauto].
  - unfold startBotChat.
    destruct (Client.getOrCreateBotRoom _ _ _ _).1.1; cbn; [|by eauto].
    by apply loadMessages_error.
Qed.

End Store.

(** The chat store never clears its error: once an action has failed, the
    error field stays set through every later action and callback, whether
    they succeed or not. *)
Theorem chat_error_is_sticky
    (decrypt : Sdk.MatrixEvent -> Client.Decryption) (trim : string -> string)
    (st : ChatState) (acts : list Action) :
  is_Some (error st) -> is_Some (error (run decrypt trim st acts)).
Proof.
  revert st. induction acts as [|a acts IH]; intros st He; [done|].
  cbn [run fold_left]. by apply IH, step_error.
Qed.

Section Filing.
Variable decrypt : Sdk.MatrixEvent -> Client.Decryption.
Variable trim : string -> string.

Lemma loadMessages_filed st c roomId :
  filed_by_room st -> filed_by_room (loadMessages decrypt st c roomId).
Proof.
  intros Hst. unfold loadMessages.
  destruct (Client.getMessages decrypt c roomId 100).1 as [loaded|e] eqn:Hl;
    cbn; [|done].
  intros r l. cbn. destruct (decide (r = roomId)) as [->|Hne].
  - rewrite lookup_insert_eq. intros [= <-]. by eapply ClientMore.getMessages_roomId.
  - rewrite lookup_insert_ne by done. apply Hst.
Qed.

Lemma step_filed st a : filed_by_room st -> filed_by_room (step decrypt trim st a).
Proof.
  intros Hst.
  destruct a as [c|m|rooms|c roomId|roomId|c|c roomId|c text response
    |c uri filename fetched uploaded sent|c bot enable created|c];
    cbn [step]; try done.
  - unfold onMessage. destruct (has_id _ _); [done|].
    intros r l. cbn. destruct (decide (r = Message.roomId m)) as [->|Hne].
    + rewrite lookup_insert_eq. intros [= <-]. apply Forall_app. split.
      * destruct (messages st !! Message.roomId m) as [l|] eqn:Hl; cbn;
          [by eapply Hst|constructor].
      * by repeat constructor.
    + rewrite lookup_insert_ne by done. apply Hst.
  - by apply loadMessages_filed.
  - by apply loadMessages_filed.
  - unfold sendMessage. destruct (_ || _); [done|].
    by destruct (Client.sendMessage _ _ _ _).1.1.
  - unfold sendImage. destruct (negb _); [done|].
    by destruct (Client.sendImage _ _ _ _ _ _ _).1.1.
  - unfold startBotChat.
    destruct (Client.getOrCreateBotRoom _ _ _ _).1.1; cbn; [|done].
    by apply loadMessages_filed.
Qed.

Lemma run_filed acts st : filed_by_room st -> filed_by_room (run decrypt trim st acts).
Proof.
  revert st. induction acts as [|a acts IH]; intros st Hst; [done|].
  cbn [run fold_left]. by apply IH, step_filed.
Qed.

End Filing.

(** Whatever callbacks and actions run on the empty store, every message
    is kept in the list of its own room: the list found under a room id
    holds only messages of that room. *)
Theorem messages_filed_by_room
    (decrypt : Sdk.MatrixEvent -> Client.Decryption) (trim : string -> string)
    (acts : list Action) (roomId : string) (l : list Message.t) :
  messages (run decrypt trim initial acts) !! roomId = Some l ->
  Forall (fun m => Message.roomId m = roomId) l.
Proof. apply (run_filed decrypt trim acts initial). by intros r l'. Qed.

Lemma messages_filed_by_room_witness :
  messages (run Samples.unknown_session (fun s => s) initial Samples.retried)
    !! "!direct:clawchat.io" = Some [Samples.hello; Samples.reply] /\
  Forall (fun m => Message.roomId m = "!direct:clawchat.io")
    [Samples.hello; Samples.reply].
Proof.
  split; [reflexivity|].
  apply (messages_filed_by_room Samples.unknown_session (fun s => s)
           Samples.retried "!direct:clawchat.io").
  reflexivity.
Defined.

(** The lists of messages change only when a message is delivered or a
    room is loaded: sending a message or an image, a failed start of a bot
    chat and every other action leave them as they are; a sent message
    gets into the store only when the sync delivers it. *)
Theorem messages_change_only_by_delivery_or_load
    (decrypt : Sdk.MatrixEvent -> Client.Decryption) (trim : string -> string)
    (st : ChatState) (a : Action) :
  messages (step decrypt trim st a) <> messages st ->
  (exists m, a = OnMessage m) \/ (exists c roomId, loads a = Some (c, roomId)).
Proof.
  destruct a as [c|m|rooms|c roomId|roomId|c|c roomId|c text response
    |c uri filename fetched uploaded sent|c bot enable created|c];
    cbn [step loads]; try (by intros []); try (by eauto).
  - unfold sendMessage. destruct (_ || _); [by intros []|].
    by destruct (Client.sendMessage _ _ _ _).1.1; intros [].
  - unfold sendImage. destruct (negb _); [by intros []|].
    by destruct (Client.sendImage _ _ _ _ _ _ _).1.1; intros [].
  - unfold startBotChat.
    destruct (Client.getOrCreateBotRoom _ _ _ _).1.1; cbn; [by eauto|].
    by intros [].
Qed.

Lemma messages_change_only_by_delivery_or_load_witness :
  messages (step Samples.unknown_session (fun s => s) initial
              (OnMessage Samples.hello))
  <> messages initial /\
  ((exists m, OnMessage Samples.hello = OnMessage m) \/
   (exists c roomId, loads (OnMessage Samples.hello) = Some (c, roomId))).
Proof.
  assert (H : messages (step Samples.unknown_session (fun s => s) initial
                          (OnMessage Samples.hello))
              <> messages initial).
  { intros H. apply (f_equal (fun m => m !! "!direct:clawchat.io")) in H.
    vm_compute in H. discriminate H. }
  split; [exact H|].
  exact (messages_change_only_by_delivery_or_load Samples.unknown_session
           (fun s => s) initial (OnMessage Samples.hello) H).
Defined.

(** Opening a room shows, once the load has finished, what [getMessages]
    returned for it, and a message delivered for that room afterwards is
    shown at the end, unless a message with its id is there already.  A room
    whose id is the empty string is never shown. *)
Theorem current_room_messages
    (decrypt : Sdk.MatrixEvent -> Client.Decryption)
    (st : ChatState) (c : Client.t) (roomId : string)
    (loaded : list Message.t) :
  (Client.getMessages decrypt c roomId 100).1 = Ok loaded ->
  let st' := setCurrentRoom decrypt st c roomId in
  (truthy roomId = true ->
   selectCurrentMessages st' = loaded /\
   forall m,
     Message.roomId m = roomId ->
     selectCurrentMessages (onMessage st' m)
     = if has_id (Message.id m) loaded then loaded else loaded ++ [m]) /\
  (truthy roomId = false -> selectCurrentMessages st' = []).
Proof.
  intros Hl. cbv zeta.
  set (st' := setCurrentRoom decrypt st c roomId).
  assert (Hcur : currentRoomId st' = Some roomId).
  { unfold st', setCurrentRoom, loadMessages. cbn. by rewrite Hl. }
  assert (Hmsg : messages st' !! roomId = Some loaded).
  { unfold st', setCurrentRoom, loadMessages. cbn. rewrite Hl. cbn.
    by rewrite lookup_insert_eq. }
  split.
  - intros Ht. split.
    + unfold selectCurrentMessages. rewrite Hcur. cbn. by rewrite Ht, Hmsg.
    + intros m Hm. unfold onMessage. rewrite Hm, Hmsg. cbn [default].
      unfold id. destruct (has_id (Message.id m) loaded).
      * unfold selectCurrentMessages. rewrite Hcur. cbn. by rewrite Ht, Hmsg.
      * unfold selectCurrentMessages.
        cbn [currentRoomId messages set_messages]. rewrite Hcur. cbn.
        by rewrite Ht, lookup_insert_eq.
  - intros Ht. unfold selectCurrentMessages. rewrite Hcur. cbn. by rewrite Ht.
Qed.

Lemma current_room_messages_witness :
  (Client.getMessages Samples.unknown_session Samples.connected
     "!direct:clawchat.io" 100).1 = Ok [Samples.hello] /\
  let st' :=
    setCurrentRoom Samples.unknown_session initial Samples.connected
      "!direct:clawchat.io" in
  (truthy "!direct:clawchat.io" = true ->
   selectCurrentMessages st' = [Samples.hello] /\
   forall m,
     Message.roomId m = "!direct:clawchat.io" ->
     selectCurrentMessages (onMessage st' m)
     = if has_id (Message.id m) [Samples.hello] then [Samples.hello]
       else [Samples.hello] ++ [m]) /\
  (truthy "!direct:clawchat.io" = false -> selectCurrentMessages st' = []).
Proof.
  split; [reflexivity|].
  apply (current_room_messages Samples.unknown_session initial
           Samples.connected "!direct:clawchat.io" [Samples.hello]).
  reflexivity.
Defined.

Lemma chat_error_is_sticky_witness :
  let failed :=
    sendMessage (fun s => s)
      (setCurrentRoomId initial (Some "!direct:clawchat.io")) Samples.offline
      "hi" (Ok "$2") in
  is_Some (error failed) /\
  is_Some (error (run Samples.unknown_session (fun s => s) failed Samples.retried)).
Proof.
  cbv zeta. split; [by eexists|].
  apply (chat_error_is_sticky Samples.unknown_session (fun s => s)).
  by eexists.
Defined.

End ChatStoreMore.

(* ===================================================================== *)
(** ** Further properties of the bots *)
(* ===================================================================== *)

Module BotMore.
Import Js.

(** What one call of [handleMessage] of the standalone bot leaves in the
    memory, when no other call runs in between.  The histories of the other
    rooms are not touched.  After a completion the history of the room is
    the context that was sent, at most 20 entries, followed by the answer.
    After a failed completion the message of the user is kept only if the
    room had a history before: it was pushed onto the stored array, which
    this way can grow beyond 20 entries; for a room without history it is
    forgotten. *)
Theorem bot_memory_after_call
    (cfg : Bot.Config) (conversations : gmap string (list Bot.Turn))
    (event : Sdk.MatrixEvent) (room : Sdk.Room)
    (completion : result (list Bot.Block)) (replySent apologySent : result unit) :
  Sdk.getSender event <> Bot.matrixUserId cfg ->
  Sdk.getType event = "m.room.message" ->
  Sdk.msgtype (Sdk.getContent event) = "m.text" ->
  let after :=
    (Bot.handleMessage cfg conversations event room completion replySent
       apologySent).1.2 in
  let asked := Bot.mkTurn Bot.user (Sdk.body (Sdk.getContent event)) in
  (forall other, other <> Sdk.roomId room ->
                 after !! other = conversations !! other) /\
  match completion with
  | Ok blocks =>
      after !! Sdk.roomId room
      = Some (Bot.context conversations event room
              ++ [Bot.mkTurn Bot.assistant (Some (Bot.response_text blocks))]) /\
      length (Bot.context conversations event room) <= 20
  | Err _ =>
      after !! Sdk.roomId room
      = (fun stored => stored ++ [asked]) <$> conversations !! Sdk.roomId room
  end.
Proof.
  intros Hsender Hty Hmsg. cbv zeta. unfold Bot.handleMessage.
  rewrite (proj2 (String.eqb_neq _ _) Hsender), Hty, Hmsg.
  cbn [String.eqb Ascii.eqb Bool.eqb negb]. cbv zeta.
  set (pushed := default [] (conversations !! Sdk.roomId room) ++ _).
  assert (Hctx : (if Nat.ltb 20 (length pushed) then slice_last 20 pushed
                  else pushed)
                 = Bot.context conversations event room).
  { unfold Bot.context. fold pushed. cbv zeta.
    destruct (Nat.ltb_spec 20 (length pushed)) as [Hlt|Hle]; [done|].
    by replace (length pushed - 20) with 0 by lia. }
  assert (Hlen : length (Bot.context conversations event room) <= 20).
  { unfold Bot.context. cbv zeta. rewrite length_drop. lia. }
  rewrite Hctx.
  destruct completion as [blocks|e].
  - assert (Hafter :
      forall (o : outcome unit) (tr : list Bot.Effect),
        let after :=
          (o, <[Sdk.roomId room :=
                  Bot.context conversations event room
                  ++ [Bot.mkTurn Bot.assistant (Some (Bot.response_text blocks))]]>
                (match conversations !! Sdk.roomId room with
                 | Some _ => <[Sdk.roomId room := pushed]> conversations
                 | None => conversations
                 end), tr).1.2 in
        (forall other, other <> Sdk.roomId room ->
                       after !! other = conversations !! other) /\
        after !! Sdk.roomId room
        = Some (Bot.context conversations event room
                ++ [Bot.mkTurn Bot.assistant (Some (Bot.response_text blocks))]) /\
        length (Bot.context conversations event room) <= 20).
    { intros o tr. cbn. split; [|by rewrite lookup_insert_eq].
      intros other Hne. rewrite lookup_insert_ne by done.
      destruct (conversations !! Sdk.roomId room);
        [by rewrite lookup_insert_ne|done]. }
    destruct replySent as [[]|e']; [apply Hafter|].
    unfold Bot.on_failure. apply Hafter.
  - unfold Bot.on_failure. cbn. split.
    + intros other Hne. destruct (conversations !! Sdk.roomId room);
        [by rewrite lookup_insert_ne|done].
    + destruct (conversations !! Sdk.roomId room) as [stored|] eqn:Hst;
        [by rewrite lookup_insert_eq|by rewrite Hst].
Qed.

Lemma bot_memory_after_call_witness :
  let event := Bot.in_event Samples.question in
  let room := Bot.in_room Samples.question in
  Sdk.getSender event <> Bot.matrixUserId Samples.bot_config /\
  Sdk.getType event = "m.room.message" /\
  Sdk.msgtype (Sdk.getContent event) = "m.text" /\
  let after :=
    (Bot.handleMessage Samples.bot_config ∅ event room
       (Err (JsError "overloaded")) (Ok tt) (Ok tt)).1.2 in
  let asked := Bot.mkTurn Bot.user (Sdk.body (Sdk.getContent event)) in
  (forall other, other <> Sdk.roomId room ->
                 after !! other = (∅ : gmap string (list Bot.Turn)) !! other) /\
  after !! Sdk.roomId room
  = (fun stored => stored ++ [asked])
      <$> (∅ : gmap string (list Bot.Turn)) !! Sdk.roomId room.
Proof.
  cbv zeta. split; [discriminate|]. split; [reflexivity|]. split; [reflexivity|].
  apply (bot_memory_after_call Samples.bot_config ∅
           (Bot.in_event Samples.question) (Bot.in_room Samples.question)
           (Err (JsError "overloaded")) (Ok tt) (Ok tt));
    [discriminate|reflexivity|reflexivity].
Defined.

(** The bot with E2EE support and a message it cannot decrypt.  When
    [decryptEventIfNeeded] throws, the bot sends its notice to the room and
    stops: it asks for no completion and remembers nothing.  When the call
    returns and leaves a content that is not of type m.text, as the notice of
    the SDK is, the bot sends nothing at all.  Neither way the call
    rejects, whatever becomes of the send. *)
Theorem bot_undecryptable_message
    (cfg : Bot.Config) (conversations : gmap string (list Bot.Turn))
    (event : Sdk.MatrixEvent) (room : Sdk.Room)
    (decryption : Client.Decryption)
    (completion : result (list Bot.Block)) (sent : result unit) :
  Sdk.getSender event <> Bot.matrixUserId cfg ->
  Sdk.getType event = "m.room.message" ->
  Sdk.isEncrypted event = true ->
  let call :=
    BotE2EEMessages.handleMessage cfg true conversations event room decryption
      completion sent in
  (Client.thrown decryption <> None ->
   call = (Resolved tt, conversations,
           [BotE2EEMessages.Decrypt (Sdk.getId event);
            BotE2EEMessages.Call
              (Bot.SendTextMessage (Sdk.roomId room)
                 BotE2EEMessages.decrypt_notice)])) /\
  (Client.thrown decryption = None ->
   Sdk.msgtype (Client.content_after decryption) <> "m.text" ->
   call = (Resolved tt, conversations,
           [BotE2EEMessages.Decrypt (Sdk.getId event)])).
Proof.
  intros Hsender Hty Henc. cbv zeta. unfold BotE2EEMessages.handleMessage.
  rewrite (proj2 (String.eqb_neq _ _) Hsender), Hty, Henc. cbn. split.
  - intros Hth. by rewrite bool_decide_eq_true_2.
  - intros Hth Hmsg. rewrite bool_decide_eq_false_2 by (by rewrite Hth; intros []).
    by rewrite (proj2 (String.eqb_neq _ _) Hmsg).
Qed.

Lemma bot_undecryptable_message_witness :
  Sdk.getSender (MoreSamples.sealed_from "@alice:clawchat.io")
  <> Bot.matrixUserId Samples.bot_config /\
  Sdk.getType (MoreSamples.sealed_from "@alice:clawchat.io") = "m.room.message" /\
  Sdk.isEncrypted (MoreSamples.sealed_from "@alice:clawchat.io") = true /\
  let call :=
    BotE2EEMessages.handleMessage Samples.bot_config true ∅
      (MoreSamples.sealed_from "@alice:clawchat.io") Samples.direct
      (Samples.lost_session (MoreSamples.sealed_from "@alice:clawchat.io"))
      (Ok []) (Ok tt) in
  (Client.thrown (Samples.lost_session (MoreSamples.sealed_from "@alice:clawchat.io"))
   <> None ->
   call = (Resolved tt, ∅,
           [BotE2EEMessages.Decrypt "$sealed";
            BotE2EEMessages.Call
              (Bot.SendTextMessage "!direct:clawchat.io"
                 BotE2EEMessages.decrypt_notice)])) /\
  (Client.thrown (Samples.lost_session (MoreSamples.sealed_from "@alice:clawchat.io"))
   = None ->
   Sdk.msgtype
     (Client.content_after
        (Samples.lost_session (MoreSamples.sealed_from "@alice:clawchat.io")))
   <> "m.text" ->
   call = (Resolved tt, ∅, [BotE2EEMessages.Decrypt "$sealed"])).
Proof.
  split; [discriminate|]. split; [reflexivity|]. split; [reflexivity|].
  apply (bot_undecryptable_message Samples.bot_config ∅
           (MoreSamples.sealed_from "@alice:clawchat.io") Samples.direct
           (Samples.lost_session (MoreSamples.sealed_from "@alice:clawchat.io"))
           (Ok []) (Ok tt));
    [discriminate|reflexivity|reflexivity].
Defined.

(** Where no decryption is tried, because the event is not encrypted or
    E2EE is off, the bot with E2EE support keeps the same memory as the
    standalone bot and asks for completions over the same histories. *)
Theorem bots_share_memory
    (cfg : Bot.Config) (e2eeEnabled : bool)
    (conversations : gmap string (list Bot.Turn))
    (event : Sdk.MatrixEvent) (room : Sdk.Room)
    (decryption : Client.Decryption)
    (completion : result (list Bot.Block))
    (sent replySent apologySent : result unit) :
  Sdk.isEncrypted event && e2eeEnabled = false ->
  let secure :=
    BotE2EEMessages.handleMessage cfg e2eeEnabled conversations event room
      decryption completion sent in
  let plain :=
    Bot.handleMessage cfg conversations event room completion replySent
      apologySent in
  secure.1.2 = plain.1.2 /\
  BotE2EEMessages.requests secure.2 = Bot.requests plain.2 /\
  secure.1.1 = Resolved tt.
Proof.
  intros Hatt. cbv zeta. unfold BotE2EEMessages.handleMessage, Bot.handleMessage.
  rewrite Hatt. cbn.
  destruct (String.eqb _ (Bot.matrixUserId cfg)); [done|].
  destruct (negb (String.eqb (Sdk.getType event) _)); [done|].
  destruct (negb (String.eqb (Sdk.msgtype _) _)); [done|].
  destruct completion as [blocks|e]; cbn.
  - destruct replySent as [[]|e']; [done|]. by destruct apologySent.
  - by destruct apologySent.
Qed.

Lemma bots_share_memory_witness :
  let event := Bot.in_event Samples.question in
  let room := Bot.in_room Samples.question in
  Sdk.isEncrypted event && true = false /\
  let secure :=
    BotE2EEMessages.handleMessage Samples.bot_config true ∅ event room
      (Samples.lost_session event) (Ok [Bot.TextBlock "A proof assistant."])
      (Ok tt) in
  let plain :=
    Bot.handleMessage Samples.bot_config ∅ event room
      (Ok [Bot.TextBlock "A proof assistant."]) (Ok tt) (Ok tt) in
  secure.1.2 = plain.1.2 /\
  BotE2EEMessages.requests secure.2 = Bot.requests plain.2 /\
  secure.1.1 = Resolved tt.
Proof.
  cbv zeta. split; [reflexivity|].
  apply (bots_share_memory Samples.bot_config true ∅
           (Bot.in_event Samples.question) (Bot.in_room Samples.question)
           (Samples.lost_session (Bot.in_event Samples.question))
           (Ok [Bot.TextBlock "A proof assistant."]) (Ok tt) (Ok tt) (Ok tt)).
  reflexivity.
Defined.

End BotMore.
